(** * sitecommand-utils: priority tiers, worked hours and the month grid

    A shallow embedding of the three computational helpers of
    [src/lib/sitecommand-utils.ts] ([calculatePriority], [calculateHours],
    [getMonthDays] / [getCalendarGrid]) together with the fragment of the
    JavaScript runtime and of date-fns they call.  It goes on with the
    display helpers of the same file ([formatTime12], [formatDate],
    [todayStr], [getWeekDays], ...) and with the code of the pages that
    uses them: the totals and the edits of the timesheet, the list of the
    dashboard, the summary of the reports, the navigation by role and the
    month that [fetchCalendarNotes] asks for.

    Modelling conventions.
    - Integral JavaScript numbers are [Z]; a number that may be [NaN] is an
      [option Z] with [None] for [NaN].  The only non-integral numbers of these
      functions are the quotients of [calculateHours]; they are [Q], kept in
      lowest terms ([Qred]) so that equal numbers are equal terms.  The
      minutes of the time strings are below 6040; [lunchMinutes] is a whole
      number of minutes, and the theorems on the arithmetic of
      [calculateHours] take it of magnitude at most 2^31
      ([HoursSpec.lunch_in_range]).  Every value met is then far below 2^53,
      where the double arithmetic of the runtime is exact on integers and
      [Math.round] of a quotient by 15 cannot be changed by the rounding of
      the division (the exact quotient is at least 1/30 away from every
      half-integer).  Beyond that magnitude a double rounds and the code
      leaves the exact arithmetic; a [lunchMinutes] that is [NaN] or has a
      fraction is not covered.
    - Strings are [string]; the characters that matter are ASCII.
    - A [Date] object is its time value, in milliseconds, or [Invalid_Date].
      Local time is modelled with a constant zero offset: no daylight-saving
      transitions.
    - An exception is the [Throws] outcome; the loop of [eachDayOfInterval]
      runs on fuel, and running out of it is the [OutOfFuel] outcome, which
      no input reaches ([getCalendarGrid_terminates]). *)

From Stdlib Require Import ZArith QArith Qround Qreduction.
From Stdlib Require Import Lia List String Ascii Bool.
From Stdlib Require Import Sorting.Sorted Sorting.Permutation.
Import ListNotations.

Open Scope string_scope.
Open Scope list_scope.
Open Scope Z_scope.

(* ================================================================== *)
(** * JavaScript runtime fragment *)
(* ================================================================== *)

Module JS.

(** ** Strings, regular expression, [Number] *)

(** [\d]: an ASCII decimal digit. *)
Definition is_digit (c : ascii) : bool :=
  ((48 <=? nat_of_ascii c) && (nat_of_ascii c <=? 57))%nat.

(** [/^\d{2}:\d{2}$/.test(s)]. *)
Definition test_hhmm (s : string) : bool :=
  match s with
  | String a (String b (String c (String d (String e EmptyString)))) =>
      is_digit a && is_digit b && Ascii.eqb c ":" && is_digit d && is_digit e
  | _ => false
  end.

(** [s.split(sep)] for a one-character separator. *)
Fixpoint split_from (sep : ascii) (cur : string) (s : string) : list string :=
  match s with
  | EmptyString => [cur]
  | String c rest =>
      if Ascii.eqb c sep then cur :: split_from sep EmptyString rest
      else split_from sep (cur ++ String c EmptyString)%string rest
  end.

Definition split (sep : ascii) (s : string) : list string :=
  split_from sep EmptyString s.

Definition digit_value (c : ascii) : Z := Z.of_nat (nat_of_ascii c) - 48.

Fixpoint digits_value (acc : Z) (s : string) : option Z :=
  match s with
  | EmptyString => Some acc
  | String c rest =>
      if is_digit c then digits_value (10 * acc + digit_value c) rest else None
  end.

(** [Number(s)] on a string of decimal digits (the empty string is 0).  The
    other numeric literals of the language (signs, blanks, fractions,
    exponents, hexadecimal) are not modelled and read as [NaN]; the callers
    below only convert strings of two digits. *)
Definition Number (s : string) : option Z := digits_value 0 s.

(** Array destructuring [[a, b] = xs]: a missing element is [undefined],
    which is [NaN] in arithmetic. *)
Definition element (xs : list (option Z)) (i : nat) : option Z :=
  match nth_error xs i with
  | Some v => v
  | None => None
  end.

(** ** [Math] *)

(** [Math.round]: the nearest integer, a tie going up. *)
Definition Math_round (x : Q) : Z := Qfloor (x + (1 # 2)).

Definition Math_max (a b : Z) : Z := Z.max a b.

End JS.

(* ================================================================== *)
(** * Reference computation of the worked hours, in the words of the
      specification *)
(* ================================================================== *)

Module HoursSpec.

(** The digit at position [i] of a string (0 when there is none). *)
Definition digit_at (s : string) (i : nat) : Z :=
  match String.get i s with
  | Some c => JS.digit_value c
  | None => 0
  end.

Definition hour_of (s : string) : Z := 10 * digit_at s 0 + digit_at s 1.
Definition minute_of (s : string) : Z := 10 * digit_at s 3 + digit_at s 4.

(** Minutes since midnight of an [HH:MM] string. *)
Definition minutes_since_midnight (s : string) : Z :=
  60 * hour_of s + minute_of s.

(** [finish - start - lunchMinutes], [finish] moved to the next day when it
    lies before [start], floored at 0. *)
Definition rawMinutes (start finish : string) (lunchMinutes : Z) : Z :=
  let s := minutes_since_midnight start in
  let f := minutes_since_midnight finish in
  let f := if f <? s then f + 1440 else f in
  Z.max 0 (f - s - lunchMinutes).

(** [finish - start] in minutes, [finish] moved to the next day when it lies
    before [start]: the span before any deduction. *)
Definition span (start finish : string) : Z :=
  let s := minutes_since_midnight start in
  let f := minutes_since_midnight finish in
  (if f <? s then f + 1440 else f) - s.

(** The number of 15-minute increments nearest to [m] minutes, a tie going
    up: the least [k] with [m < 15 * k + 7.5]. *)
Definition nearest_quarters (m : Z) : Z := (2 * m + 15) / 30.

(** Decimal hours of [m] minutes: rounded to the nearest 15-minute
    increment, divided by 60. *)
Definition quarter_hours (m : Z) : Q :=
  inject_Z (15 * nearest_quarters m) / 60.

(** The reference computation. *)
Definition computeHours (start finish : string) (lunchMinutes : Z) : Q :=
  quarter_hours (rawMinutes start finish lunchMinutes).

(** The strict 24-hour reading of [HH:MM]: the two-digit shape with the hour
    in 00..23 and the minute in 00..59. *)
Definition strict_24h (s : string) : bool :=
  JS.test_hhmm s && (hour_of s <=? 23) && (minute_of s <=? 59).

(** The lunch breaks the arithmetic is stated for: a whole number of
    minutes of magnitude at most 2^31.  There every intermediate value of
    the code is an integer below 2^53 or the quotient of one by 15 or by 4,
    and the doubles of the runtime give the exact result. *)
Definition lunch_in_range (lunchMinutes : Z) : Prop :=
  - 2 ^ 31 <= lunchMinutes <= 2 ^ 31.

End HoursSpec.

(* ================================================================== *)
(** * ECMAScript dates *)
(* ================================================================== *)

Module ESDate.

(** ** Day number and time within day *)

Definition msPerDay : Z := 86400000.

Definition Day (t : Z) : Z := t / msPerDay.
Definition TimeWithinDay (t : Z) : Z := t mod msPerDay.

(** ** Year number *)

Definition DaysInYear (y : Z) : Z :=
  if negb (y mod 4 =? 0) then 365
  else if negb (y mod 100 =? 0) then 366
  else if negb (y mod 400 =? 0) then 365
  else 366.

Definition DayFromYear (y : Z) : Z :=
  365 * (y - 1970) + (y - 1969) / 4 - (y - 1901) / 100 + (y - 1601) / 400.

(** The largest [y] with [DayFromYear y <= d]: the mean year of 146097/400
    days gives an estimate that is off by one at most, and the two tests
    settle it (lemma [YearFromDay_spec]). *)
Definition YearFromDay (d : Z) : Z :=
  let y := 1970 + (400 * d) / 146097 in
  if d <? DayFromYear y then y - 1
  else if DayFromYear (y + 1) <=? d then y + 1
  else y.

Definition YearFromTime (t : Z) : Z := YearFromDay (Day t).

(** 1 for a year of 366 days, 0 for a year of 365. *)
Definition leap_flag (y : Z) : Z := if DaysInYear y =? 366 then 1 else 0.

Definition InLeapYear (t : Z) : Z := leap_flag (YearFromTime t).

(** ** Month number and date number *)

Definition DayWithinYear (t : Z) : Z := Day t - DayFromYear (YearFromTime t).

Definition MonthFromTime (t : Z) : Z :=
  let d := DayWithinYear t in
  let l := InLeapYear t in
  if d <? 31 then 0
  else if d <? 59 + l then 1
  else if d <? 90 + l then 2
  else if d <? 120 + l then 3
  else if d <? 151 + l then 4
  else if d <? 181 + l then 5
  else if d <? 212 + l then 6
  else if d <? 243 + l then 7
  else if d <? 273 + l then 8
  else if d <? 304 + l then 9
  else if d <? 334 + l then 10
  else 11.

Definition DateFromTime (t : Z) : Z :=
  let d := DayWithinYear t in
  let l := InLeapYear t in
  match MonthFromTime t with
  | 0 => d + 1
  | 1 => d - 30
  | 2 => d - 58 - l
  | 3 => d - 89 - l
  | 4 => d - 119 - l
  | 5 => d - 150 - l
  | 6 => d - 180 - l
  | 7 => d - 211 - l
  | 8 => d - 242 - l
  | 9 => d - 272 - l
  | 10 => d - 303 - l
  | _ => d - 333 - l
  end.

(** ** Week day: 0 is Sunday; day 0 (1 January 1970) is a Thursday *)

Definition WeekDay (t : Z) : Z := (Day t + 4) mod 7.

(** ** MakeTime, MakeDay, MakeDate, TimeClip *)

Definition MakeTime (hour min sec ms : Z) : Z :=
  hour * 3600000 + min * 60000 + sec * 1000 + ms.

(** Day of the year on which month [mn] (0..11) starts; [l] is 1 in a leap
    year. *)
Definition month_start (mn l : Z) : Z :=
  match mn with
  | 0 => 0
  | 1 => 31
  | 2 => 59 + l
  | 3 => 90 + l
  | 4 => 120 + l
  | 5 => 151 + l
  | 6 => 181 + l
  | 7 => 212 + l
  | 8 => 243 + l
  | 9 => 273 + l
  | 10 => 304 + l
  | _ => 334 + l
  end.

(** [MakeDay]: the day number of date 1 of month [month mod 12] of year
    [year + floor(month / 12)], moved by [date - 1] days. *)
Definition MakeDay (year month date : Z) : Z :=
  let ym := year + month / 12 in
  let mn := month mod 12 in
  DayFromYear ym + month_start mn (leap_flag ym) + date - 1.

Definition MakeDate (day time : Z) : Z := day * msPerDay + time.

(** [TimeClip]: a time value beyond 8.64e15 ms is [NaN]. *)
Definition TimeClip (t : Z) : option Z :=
  if Z.abs t <=? 8640000000000000 then Some t else None.

(** ** The Date object *)

Inductive Date : Type :=
| Invalid_Date
| Date_at (tv : Z).

Definition Date_of (t : option Z) : Date :=
  match t with
  | Some tv => Date_at tv
  | None => Invalid_Date
  end.

(** A year 0..99 given to the constructor stands for 1900..1999. *)
Definition MakeFullYear (year : Z) : Z :=
  if (0 <=? year) && (year <=? 99) then 1900 + year else year.

(** [new Date(year, month, date)]. *)
Definition new_Date (year month date : Z) : Date :=
  let yr := MakeFullYear year in
  Date_of (TimeClip (MakeDate (MakeDay yr month date) (MakeTime 0 0 0 0))).

Definition getTime (d : Date) : option Z :=
  match d with
  | Date_at tv => Some tv
  | Invalid_Date => None
  end.

Definition getter (f : Z -> Z) (d : Date) : option Z :=
  match d with
  | Date_at tv => Some (f tv)
  | Invalid_Date => None
  end.

Definition getFullYear : Date -> option Z := getter YearFromTime.
Definition getMonth : Date -> option Z := getter MonthFromTime.
Definition getDate : Date -> option Z := getter DateFromTime.
Definition getDay : Date -> option Z := getter WeekDay.

(** [d.setHours(hour, min, sec, ms)], as the date it leaves in [d]. *)
Definition setHours (d : Date) (hour min sec ms : Z) : Date :=
  match d with
  | Date_at t =>
      Date_of (TimeClip (MakeDate (Day t) (MakeTime hour min sec ms)))
  | Invalid_Date => Invalid_Date
  end.

(** [d.setDate(dt)], as the date it leaves in [d]. *)
Definition setDate (d : Date) (dt : option Z) : Date :=
  match d, dt with
  | Date_at t, Some dt =>
      Date_of (TimeClip (MakeDate (MakeDay (YearFromTime t) (MonthFromTime t) dt)
                                  (TimeWithinDay t)))
  | _, _ => Invalid_Date
  end.

(** ** Comparisons and sums of numbers that may be [NaN] *)

Definition num_le (a b : option Z) : bool :=
  match a, b with
  | Some x, Some y => x <=? y
  | _, _ => false
  end.

Definition num_add (a : option Z) (b : Z) : option Z :=
  match a with
  | Some x => Some (x + b)
  | None => None
  end.

End ESDate.

(* ================================================================== *)
(** * Outcomes of a call *)
(* ================================================================== *)

Inductive Exn : Type := RangeError | TypeError.

Inductive outcome (A : Type) : Type :=
| Returns (a : A)
| Throws (e : Exn)
| OutOfFuel.

Arguments Returns {A} a.
Arguments Throws {A} e.
Arguments OutOfFuel {A}.

(* ================================================================== *)
(** * date-fns: the functions the helpers import *)
(* ================================================================== *)

Module DateFns.
Import JS ESDate.

(** [eachDayOfInterval({start, end})] (date-fns 2): a [RangeError] unless
    [start <= end], which also rejects an invalid date; then the loop
[[
    while (currentDate.getTime() <= endTime) {
      dates.push(toDate(currentDate))
      currentDate.setDate(currentDate.getDate() + step)
      currentDate.setHours(0, 0, 0, 0)
    }
]]
    with [step] 1.  (Later releases return, for an invalid date, an empty
    array instead of throwing.) *)
Fixpoint eachDay_loop (fuel : nat) (currentDate : Date) (endTime : option Z)
    (dates : list Date) : outcome (list Date) :=
  match fuel with
  | O => OutOfFuel
  | S fuel =>
      if num_le (getTime currentDate) endTime then
        let dates := dates ++ [currentDate] in
        let currentDate :=
          setDate currentDate (num_add (getDate currentDate) 1) in
        let currentDate := setHours currentDate 0 0 0 0 in
        eachDay_loop fuel currentDate endTime dates
      else Returns dates
  end.

(** Fuel for the loop: one turn for each day of the interval and one for the
    test that ends it. *)
Definition eachDay_fuel (currentDate : Date) (endTime : option Z) : nat :=
  match getTime currentDate, endTime with
  | Some s, Some e => Z.to_nat (Day e - Day s) + 2
  | _, _ => 1
  end.

Definition eachDayOfInterval (start end_ : Date) : outcome (list Date) :=
  let endTime := getTime end_ in
  if negb (num_le (getTime start) endTime) then Throws RangeError
  else
    let currentDate := setHours start 0 0 0 0 in
    eachDay_loop (eachDay_fuel currentDate endTime) currentDate endTime [].

(** [compareLocalAsc]: the sign of the first differing local field (year,
    month, date, hour, minute, second, millisecond), which in a time zone of
    constant offset is the sign of the difference of the time values. *)
Definition compareLocalAsc (l r : Z) : Z := Z.sgn (l - r).

(** [differenceInCalendarDays]: the distance between the two starts of day,
    in days. *)
Definition differenceInCalendarDays (l r : Z) : Z :=
  Math_round (inject_Z (Day l * msPerDay - Day r * msPerDay)
              / inject_Z msPerDay).

(** [differenceInDays(dateLeft, dateRight)]: the number of full days between
    the two dates, [NaN] when one of them is invalid.
[[
    const sign = compareLocalAsc(dateLeft, dateRight)
    const difference = Math.abs(differenceInCalendarDays(dateLeft, dateRight))
    dateLeft.setDate(dateLeft.getDate() - sign * difference)
    const isLastDayNotFull = Number(compareLocalAsc(dateLeft, dateRight) === -sign)
    const result = sign * (difference - isLastDayNotFull)
]] *)
Definition differenceInDays (dateLeft dateRight : Date) : option Z :=
  match dateLeft, dateRight with
  | Date_at l, Date_at r =>
      let sign := compareLocalAsc l r in
      let difference := Z.abs (differenceInCalendarDays l r) in
      match setDate dateLeft (Some (DateFromTime l - sign * difference)) with
      | Date_at l' =>
          let isLastDayNotFull :=
            if compareLocalAsc l' r =? - sign then 1 else 0 in
          Some (sign * (difference - isLastDayNotFull))
      | Invalid_Date => None
      end
  | _, _ => None
  end.

End DateFns.

(* ================================================================== *)
(** * sitecommand-utils *)
(* ================================================================== *)

Module Utils.
Import JS ESDate DateFns.

Inductive PriorityLevel : Type := high | medium | low.

(** [!dueDate]: [null], [undefined] and the empty string are falsy. *)
Definition falsy (dueDate : option string) : bool :=
  match dueDate with
  | None => true
  | Some s => String.eqb s EmptyString
  end.

(** The string of a [dueDate] that is not falsy. *)
Definition string_of (dueDate : option string) : string :=
  match dueDate with
  | Some s => s
  | None => EmptyString
  end.

Section Priority.

(** date-fns [parseISO]: the date an ISO 8601 string denotes,
    [Invalid_Date] for any other string.  It is a parameter of the model. *)
Variable parseISO : string -> Date.

(** [calculatePriority(dueDate)]; [now] is the time value of [new Date()]. *)
Definition calculatePriority (now : Z) (dueDate : option string)
  : PriorityLevel :=
  if falsy dueDate then low
  else
    let today := setHours (Date_at now) 0 0 0 0 in
    let due := parseISO (string_of dueDate) in
    let daysUntil := differenceInDays due today in
    if num_le daysUntil (Some 3) then high
    else if num_le daysUntil (Some 7) then medium
    else low.

End Priority.

Definition bind {A B} (x : option A) (f : A -> option B) : option B :=
  match x with
  | Some a => f a
  | None => None
  end.

Notation "x <- e ;; k" := (bind e (fun x => k))
  (at level 61, e at next level, right associativity).

(** [calculateHours(start, finish, lunchMinutes = 0)]; the result is [None]
    for [NaN].  A call that omits the third argument is the call with 0.
    [lunchMinutes] is a whole number of minutes and the arithmetic is exact:
    it is that of the code as long as no double rounds, which holds for a
    [lunchMinutes] of magnitude at most 2^31. *)
Definition calculateHours (start finish : string) (lunchMinutes : Z)
  : option Q :=
  if negb (test_hhmm start) || negb (test_hhmm finish) then Some 0%Q
  else
    let s := map Number (split ":" start) in
    let f := map Number (split ":" finish) in
    sh <- element s 0 ;;
    sm <- element s 1 ;;
    fh <- element f 0 ;;
    fm <- element f 1 ;;
    let startMins := sh * 60 + sm in
    let finishMins := fh * 60 + fm in
    let finishMins :=
      if finishMins <? startMins then finishMins + 24 * 60 else finishMins in
    let total := Math_max 0 (finishMins - startMins - lunchMinutes) in
    Some (Qred (inject_Z (Math_round (inject_Z total / 15)) * 15 / 60)).

Definition getMonthDays (year month : Z) : outcome (list Date) :=
  let start := new_Date year month 1 in
  let end_ := new_Date year (month + 1) 0 in
  eachDayOfInterval start end_.

(** A slot of the grid: a date, or [null]. *)
Definition slot : Type := option Date.

(** The body of [for (const d of days)]: push the day, and close the week
    when it is full. *)
Definition push_day (st : list (list slot) * list slot) (d : Date)
  : list (list slot) * list slot :=
  let '(grid, week) := st in
  let week := week ++ [Some d] in
  if (List.length week =? 7)%nat then (grid ++ [week], [])
  else (grid, week).

(** [for (let i = 0; i < firstDayOfWeek; i++) week.push(null)]; the test
    fails at once for [NaN]. *)
Definition pad_start (firstDayOfWeek : option Z) : list slot :=
  match firstDayOfWeek with
  | Some n => repeat None (Z.to_nat n)
  | None => []
  end.

(** [while (week.length < 7) week.push(null)]. *)
Definition pad_end (week : list slot) : list slot :=
  week ++ repeat None (7 - List.length week).

(** [getCalendarGrid(year, month)]; [days[0].getDay()] throws a [TypeError]
    when [days] is empty. *)
Definition getCalendarGrid (year month : Z) : outcome (list (list slot)) :=
  match getMonthDays year month with
  | Returns days =>
      match days with
      | d0 :: _ =>
          let firstDayOfWeek := getDay d0 in
          let week := pad_start firstDayOfWeek in
          let '(grid, week) := fold_left push_day days ([], week) in
          Returns (if (0 <? List.length week)%nat
                   then grid ++ [pad_end week] else grid)
      | [] => Throws TypeError
      end
  | Throws e => Throws e
  | OutOfFuel => OutOfFuel
  end.

End Utils.

(* ================================================================== *)
(** * The calendar in the words of the specification *)
(* ================================================================== *)

Module CalendarSpec.
Import ESDate.

Definition is_leap_year (y : Z) : bool :=
  ((y mod 4 =? 0) && negb (y mod 100 =? 0)) || (y mod 400 =? 0).

(** Number of days of month [m] (0 = January .. 11 = December) of year [y]. *)
Definition days_in_month (y m : Z) : Z :=
  match m with
  | 1 => if is_leap_year y then 29 else 28
  | 3 | 5 | 8 | 10 => 30
  | _ => 31
  end.

(** The years all of whose months lie within the range of time values
    (20 April -271821 .. 13 September 275760). *)
Definition year_in_range (y : Z) : Prop := -271820 <= y <= 275759.

(** A valid year: within range, and written in full: the constructor reads a
    year 0..99 as 1900..1999. *)
Definition valid_year (y : Z) : Prop :=
  year_in_range y /\ ~ (0 <= y <= 99).

Definition valid_month (m : Z) : Prop := 0 <= m <= 11.

(** The non-empty slots of a grid, in row-major order. *)
Definition dates_of_row (row : list Utils.slot) : list Date :=
  flat_map (fun s => match s with Some d => [d] | None => [] end) row.

Definition dates_of (grid : list (list Utils.slot)) : list Date :=
  flat_map dates_of_row grid.

(** The days that have a time value: 100 000 000 on either side of day 0. *)
Definition maxDay : Z := 100000000.

(** The day number of [new Date(year, month, 1)]. *)
Definition first_day (year month : Z) : Z :=
  MakeDay (MakeFullYear year) month 1.

(** Date [i + 1] of the month that starts on day number [d0]. *)
Definition nth_day (d0 : Z) (i : nat) : Date :=
  Date_at ((d0 + Z.of_nat i) * msPerDay).

(** The dates of month [month] of year [year], in ascending order. *)
Definition month_dates (year month : Z) : list Date :=
  map (fun i => new_Date year month (Z.of_nat i + 1))
      (seq 0 (Z.to_nat (days_in_month year month))).

(** The weekday of [new Date(year, month, 1)]. *)
Definition first_weekday (year month : Z) : Z :=
  WeekDay (first_day year month * msPerDay).

(** The dates of the month of [new Date(year, month, 1)], in ascending
    order. *)
Definition month_days (year month : Z) : list Date :=
  map (nth_day (first_day year month))
      (seq 0 (Z.to_nat (days_in_month (MakeFullYear year) month))).

(** A row of exactly 7 slots. *)
Definition full_week (row : list Utils.slot) : Prop :=
  List.length row = 7%nat.

(** The column of the first non-empty slot of a row. *)
Fixpoint first_date_column (row : list Utils.slot) : option nat :=
  match row with
  | [] => None
  | Some _ :: _ => Some 0%nat
  | None :: rest => option_map S (first_date_column rest)
  end.

End CalendarSpec.

(* ================================================================== *)
(** * The priority tiers in the words of the specification *)
(* ================================================================== *)

Module PrioritySpec.
Import ESDate Utils.

(** Today, normalized to midnight. *)
Definition today (now : Z) : Z := Day now * msPerDay.

(** The whole number of days from today to the due date (a part of a day
    does not count). *)
Definition daysUntil (now due : Z) : Z := Z.quot (due - today now) msPerDay.

(** The tier of an optional due date. *)
Definition classify (now : Z) (dueDate : option Z) : PriorityLevel :=
  match dueDate with
  | None => low
  | Some due =>
      let d := daysUntil now due in
      if d <=? 3 then high
      else if d <=? 7 then medium
      else low
  end.

(** The calendar-date fragment of [parseISO]: exactly [YYYY-MM-DD] with a
    month 01..12 and a date of that month; every other string reads as
    invalid here.  It instantiates the parameter [parseISO] in examples. *)
Definition parse_calendar_date (s : string) : Date :=
  match s with
  | String y1 (String y2 (String y3 (String y4 (String h1
      (String m1 (String m2 (String h2 (String d1 (String d2
         EmptyString))))))))) =>
      if JS.is_digit y1 && JS.is_digit y2 && JS.is_digit y3 && JS.is_digit y4
         && Ascii.eqb h1 "-" && JS.is_digit m1 && JS.is_digit m2
         && Ascii.eqb h2 "-" && JS.is_digit d1 && JS.is_digit d2
      then
        let y := 1000 * JS.digit_value y1 + 100 * JS.digit_value y2
                 + 10 * JS.digit_value y3 + JS.digit_value y4 in
        let m := 10 * JS.digit_value m1 + JS.digit_value m2 in
        let d := 10 * JS.digit_value d1 + JS.digit_value d2 in
        if (1 <=? m) && (m <=? 12) && (1 <=? d)
           && (d <=? CalendarSpec.days_in_month y (m - 1))
        then Date_at (MakeDay y (m - 1) d * msPerDay)
        else Invalid_Date
      else Invalid_Date
  | _ => Invalid_Date
  end.

End PrioritySpec.

(* ================================================================== *)
(** * JavaScript runtime fragment: numbers as text *)
(* ================================================================== *)

Module JSString.
Import JS.

(** The character of a decimal digit 0..9. *)
Definition digit_char (d : Z) : ascii := ascii_of_nat (48 + Z.to_nat d).

(** The decimal digits of a non-negative integer, most significant first;
    the fuel bounds the number of digits. *)
Fixpoint decimal_digits (fuel : nat) (n : Z) : string :=
  match fuel with
  | O => EmptyString
  | S fuel =>
      if n <? 10 then String (digit_char n) EmptyString
      else (decimal_digits fuel (n / 10)
            ++ String (digit_char (n mod 10)) EmptyString)%string
  end.

(** A number has no more decimal digits than binary ones. *)
Definition digits_fuel (n : Z) : nat := S (Z.to_nat (Z.log2 n)).

(** [String(n)], [n.toString()] and the text of [n] in a template literal,
    for an integer [n]. *)
Definition toString (n : Z) : string :=
  if n <? 0 then String "-" (decimal_digits (digits_fuel (- n)) (- n))
  else decimal_digits (digits_fuel n) n.

(** The same for a number that may be [NaN]. *)
Definition num_toString (x : option Z) : string :=
  match x with
  | Some n => toString n
  | None => "NaN"
  end.

Fixpoint repeat_char (c : ascii) (n : nat) : string :=
  match n with
  | O => EmptyString
  | S n => String c (repeat_char c n)
  end.

(** [s.padStart(targetLength, c)] for a pad string of one character. *)
Definition padStart (s : string) (targetLength : nat) (c : ascii) : string :=
  (repeat_char c (targetLength - String.length s) ++ s)%string.

(** [x % m], [x >= y] and [x === y] on numbers that may be [NaN]. *)
Definition num_rem (x : option Z) (m : Z) : option Z :=
  match x with
  | Some n => Some (Z.rem n m)
  | None => None
  end.

Definition num_ge (x : option Z) (y : Z) : bool :=
  match x with
  | Some n => y <=? n
  | None => false
  end.

Definition num_eq (x : option Z) (y : Z) : bool :=
  match x with
  | Some n => n =? y
  | None => false
  end.

(** A string is truthy when it is not empty. *)
Definition truthy (s : string) : bool := negb (String.eqb s EmptyString).

End JSString.

(* ================================================================== *)
(** * date-fns: format, addDays *)
(* ================================================================== *)

Module DateFnsFormat.
Import JS JSString ESDate.

(** The tokens of the patterns the helpers use; any other character of a
    pattern stands for itself.  ['yyyy-MM-dd'] is
    [[yyyy; literal "-"; MM; literal "-"; dd]]. *)
Inductive token : Type :=
| yyyy
| MM
| MMM
| dd
| literal (c : ascii).

(** [addLeadingZeros(number, targetLength)]. *)
Definition addLeadingZeros (number : Z) (targetLength : nat) : string :=
  let sign := if number <? 0 then "-" else "" in
  (sign ++ padStart (toString (Z.abs number)) targetLength "0")%string.

Definition monthValues : list string :=
  ["Jan"; "Feb"; "Mar"; "Apr"; "May"; "Jun";
   "Jul"; "Aug"; "Sep"; "Oct"; "Nov"; "Dec"].

(** One token on a valid time value: [yyyy] is the year of the era (year 0
    is 1 BC) on four digits at least, [MM] the month number 01..12, [MMM]
    its English abbreviation, [dd] the date on two digits. *)
Definition format_token (t : Z) (tok : token) : string :=
  match tok with
  | yyyy =>
      let signedYear := YearFromTime t in
      let year := if 0 <? signedYear then signedYear else 1 - signedYear in
      addLeadingZeros year 4
  | MM => addLeadingZeros (MonthFromTime t + 1) 2
  | MMM => nth (Z.to_nat (MonthFromTime t)) monthValues EmptyString
  | dd => addLeadingZeros (DateFromTime t) 2
  | literal c => String c EmptyString
  end.

(** [format(date, pattern)]: a [RangeError] on an invalid date. *)
Definition format (date : Date) (pattern : list token) : outcome string :=
  match date with
  | Date_at t => Returns (String.concat "" (map (format_token t) pattern))
  | Invalid_Date => Throws RangeError
  end.

Definition yyyy_MM_dd : list token := [yyyy; literal "-"; MM; literal "-"; dd].
Definition dd_MM : list token := [dd; literal "/"; MM].
Definition dd_MMM_yyyy : list token :=
  [dd; literal " "; MMM; literal " "; yyyy].

(** [addDays(date, amount)] for an integer [amount]: the same date for 0,
    else [date.setDate(date.getDate() + amount)]. *)
Definition addDays (date : Date) (amount : Z) : Date :=
  if amount =? 0 then date
  else setDate date (num_add (getDate date) amount).

End DateFnsFormat.

(* ================================================================== *)
(** * sitecommand-utils: the display helpers *)
(* ================================================================== *)

Module UtilsText.
Import JS JSString ESDate DateFns DateFnsFormat Utils.

Definition obind {A B} (x : outcome A) (f : A -> outcome B) : outcome B :=
  match x with
  | Returns a => f a
  | Throws e => Throws e
  | OutOfFuel => OutOfFuel
  end.

(** [try { return x } catch { return fallback }]. *)
Definition try_catch {A} (x : outcome A) (fallback : A) : A :=
  match x with
  | Returns a => a
  | _ => fallback
  end.

Definition getPriorityColor (priority : PriorityLevel) : string :=
  match priority with
  | high => "text-red-500"
  | medium => "text-amber-500"
  | low => "text-emerald-500"
  end.

Definition getPriorityBg (priority : PriorityLevel) : string :=
  match priority with
  | high => "bg-red-500/10 border-red-500/30 text-red-400"
  | medium => "bg-amber-500/10 border-amber-500/30 text-amber-400"
  | low => "bg-emerald-500/10 border-emerald-500/30 text-emerald-400"
  end.

Definition getPriorityDot (priority : PriorityLevel) : string :=
  match priority with
  | high => "bg-red-500"
  | medium => "bg-amber-500"
  | low => "bg-emerald-500"
  end.

Section WithParse.

Variable parseISO : string -> Date.

(** [formatDate(dateStr)]. *)
Definition formatDate (dateStr : string) : string :=
  if negb (truthy dateStr) then ""
  else try_catch (format (parseISO dateStr) dd_MMM_yyyy) dateStr.

(** [formatDateShort(dateStr)]. *)
Definition formatDateShort (dateStr : string) : string :=
  if negb (truthy dateStr) then ""
  else try_catch (format (parseISO dateStr) dd_MM) dateStr.

End WithParse.

(** [formatTime12(hhmm)]. *)
Definition formatTime12 (hhmm : string) : string :=
  if negb (test_hhmm hhmm) then ""
  else
    let parts := map Number (split ":" hhmm) in
    let hh := element parts 0 in
    let mm := element parts 1 in
    let isPM := num_ge hh 12 in
    let h12 := if num_eq (num_rem hh 12) 0 then Some 12 else num_rem hh 12 in
    (num_toString h12 ++ ":" ++ padStart (num_toString mm) 2 "0"
     ++ (if isPM then "pm" else "am"))%string.

(** [todayStr()]; [now] is the time value of [new Date()]. *)
Definition todayStr (now : Z) : outcome string :=
  format (Date_at now) yyyy_MM_dd.

Definition dayNames : list string :=
  ["Sunday"; "Monday"; "Tuesday"; "Wednesday"; "Thursday"; "Friday";
   "Saturday"].

(** An entry of [getWeekDays]; [day] is [None] for [undefined]. *)
Record WeekDay_entry : Type := mkEntry {
  entry_day : option string;
  entry_date : string;
  entry_dateStr : string
}.

(** [dayNames[d.getDay()]]. *)
Definition dayName (d : Date) : option string :=
  match getDay d with
  | Some w => nth_error dayNames (Z.to_nat w)
  | None => None
  end.

(** The body of the loops of [getWeekDays] and [getTwoWeekDays]. *)
Definition push_entry (endDate : Date) (i : Z) (days : list WeekDay_entry)
  : outcome (list WeekDay_entry) :=
  let d := addDays endDate (- i) in
  let day := dayName d in
  obind (format d yyyy_MM_dd) (fun date =>
  obind (format d dd_MM) (fun dateStr =>
  Returns (days ++ [mkEntry day date dateStr]))).

(** [for (let i = n - 1; i >= 0; i--) { ... }]. *)
Fixpoint days_loop (n : nat) (endDate : Date) (days : list WeekDay_entry)
  : outcome (list WeekDay_entry) :=
  match n with
  | O => Returns days
  | S i => obind (push_entry endDate (Z.of_nat i) days)
                 (fun days => days_loop i endDate days)
  end.

Section WithParseWeek.

Variable parseISO : string -> Date.

(** [getWeekDays(weekEndingDate, weekEndingDay = 'Sunday')]. *)
Definition getWeekDays (weekEndingDate : string) (weekEndingDay : string)
  : outcome (list WeekDay_entry) :=
  let endDate := parseISO weekEndingDate in
  days_loop 7 endDate [].

(** [getTwoWeekDays(weekEndingDate)]. *)
Definition getTwoWeekDays (weekEndingDate : string)
  : outcome (list WeekDay_entry) :=
  let endDate := parseISO weekEndingDate in
  days_loop 14 endDate [].

End WithParseWeek.

End UtilsText.

(* ================================================================== *)
(** * The 12-hour clock *)
(* ================================================================== *)

Module Time12Spec.

(** The hour of the 12-hour clock: 12, 1, .., 11. *)
Definition hour12 (h : Z) : Z := if h mod 12 =? 0 then 12 else h mod 12.

(** Before noon or after. *)
Definition meridiem (h : Z) : string := if 12 <=? h then "pm" else "am".

End Time12Spec.

(* ================================================================== *)
(** * Reading aids for the date helpers *)
(* ================================================================== *)

Module DatesSpec.
Import JS JSString ESDate DateFns DateFnsFormat Utils UtilsText.

(** A parser that reads the calendar dates [YYYY-MM-DD] as
    [PrioritySpec.parse_calendar_date] does, whatever it makes of other
    strings: what is asked of [parseISO] where a theorem needs a date
    read. *)
Definition reads_calendar_dates (parseISO : string -> Date) : Prop :=
  forall s : string,
    PrioritySpec.parse_calendar_date s <> Invalid_Date ->
    parseISO s = PrioritySpec.parse_calendar_date s.

(** The text of a pattern on a time value. *)
Definition text (t : Z) (pattern : list token) : string :=
  String.concat "" (map (format_token t) pattern).

(** The entry of [getWeekDays] for the day of time value [t]. *)
Definition entry_at (t : Z) : WeekDay_entry :=
  mkEntry (dayName (Date_at t)) (text t yyyy_MM_dd) (text t dd_MM).

(** The time values of [n] consecutive days, the last one [t], at the time
    of day of [t]. *)
Definition days_ending (t : Z) (n : nat) : list Z :=
  map (fun k => t - Z.of_nat (n - 1 - k) * msPerDay) (seq 0 n).

(** The time values from which [n] days back is still a time value. *)
Definition days_back_in_range (t : Z) (n : Z) : Prop :=
  - 8640000000000000 + n * msPerDay <= t <= 8640000000000000.

End DatesSpec.

(* ================================================================== *)
(** * TimesheetPage: lines, days and totals *)
(* ================================================================== *)

Module Timesheet.
Import JS JSString Utils.

Record TimesheetLine : Type := mkLine {
  id : string;
  startTime : string;
  lunch : bool;
  lunchMinutes : Z;
  finishTime : string;
  jobNo : string;
  analysisCode : string;
  other : string
}.

Record DayData : Type := mkDay {
  day : string;
  date : string;
  lines : list TimesheetLine
}.

(** [Partial<TimesheetLine>]: the fields a patch sets. *)
Record LinePatch : Type := mkPatch {
  p_id : option string;
  p_startTime : option string;
  p_lunch : option bool;
  p_lunchMinutes : option Z;
  p_finishTime : option string;
  p_jobNo : option string;
  p_analysisCode : option string;
  p_other : option string
}.

Definition or_field {A} (patch : option A) (old : A) : A :=
  match patch with
  | Some v => v
  | None => old
  end.

(** [{ ...l, ...patch }]. *)
Definition spread (l : TimesheetLine) (patch : LinePatch) : TimesheetLine :=
  mkLine (or_field (p_id patch) (id l))
         (or_field (p_startTime patch) (startTime l))
         (or_field (p_lunch patch) (lunch l))
         (or_field (p_lunchMinutes patch) (lunchMinutes l))
         (or_field (p_finishTime patch) (finishTime l))
         (or_field (p_jobNo patch) (jobNo l))
         (or_field (p_analysisCode patch) (analysisCode l))
         (or_field (p_other patch) (other l)).

(** [makeLine(lunchDefault)]; [uuid] is the identifier [uuid()] returns. *)
Definition makeLine (uuid : string) (lunchDefault : Z) : TimesheetLine :=
  mkLine uuid "" false lunchDefault "" "" "" "".

(** [xs.map((d, i) => f(d, i))]. *)
Fixpoint map_index_from {A B} (f : A -> nat -> B) (i : nat) (xs : list A)
  : list B :=
  match xs with
  | [] => []
  | x :: rest => f x i :: map_index_from f (S i) rest
  end.

Definition map_index {A B} (f : A -> nat -> B) (xs : list A) : list B :=
  map_index_from f 0 xs.

(** [updateLine(dayIdx, lineId, patch)], as the function [setDays] gets. *)
Definition updateLine (dayIdx : nat) (lineId : string) (patch : LinePatch)
    (prev : list DayData) : list DayData :=
  map_index
    (fun d i =>
       if (i =? dayIdx)%nat
       then mkDay (day d) (date d)
                  (map (fun l => if String.eqb (id l) lineId
                                 then spread l patch else l)
                       (lines d))
       else d)
    prev.

(** [addLine(dayIdx)]; [settings] is the default lunch of the settings, or
    [None] while they are not loaded; nothing happens then. *)
Definition addLine (settings : option Z) (uuid : string) (dayIdx : nat)
    (prev : list DayData) : list DayData :=
  match settings with
  | None => prev
  | Some lunchDefaultMinutes =>
      map_index
        (fun d i =>
           if (i =? dayIdx)%nat
           then mkDay (day d) (date d)
                      (lines d ++ [makeLine uuid lunchDefaultMinutes])
           else d)
        prev
  end.

(** [removeLine(dayIdx, lineId)]. *)
Definition removeLine (settings : option Z) (uuid : string) (dayIdx : nat)
    (lineId : string) (prev : list DayData) : list DayData :=
  match settings with
  | None => prev
  | Some lunchDefaultMinutes =>
      map_index
        (fun d i =>
           if negb (i =? dayIdx)%nat then d
           else
             let next :=
               filter (fun l => negb (String.eqb (id l) lineId)) (lines d) in
             mkDay (day d) (date d)
                   (if (List.length next =? 0)%nat
                    then [makeLine uuid lunchDefaultMinutes] else next))
        prev
  end.

(** Sum of two numbers that may be [NaN]. *)
Definition num_plus (a b : option Q) : option Q :=
  match a, b with
  | Some x, Some y => Some (Qred (x + y))
  | _, _ => None
  end.

(** [lineHours(l)]. *)
Definition lineHours (l : TimesheetLine) : option Q :=
  calculateHours (startTime l) (finishTime l)
                 (if lunch l then lunchMinutes l else 0).

(** [dayTotal(d)]. *)
Definition dayTotal (d : DayData) : option Q :=
  fold_left
    (fun sum l =>
       num_plus sum
         (if truthy (startTime l) && truthy (finishTime l)
          then lineHours l else Some 0%Q))
    (lines d) (Some 0%Q).

(** [weekTotal]. *)
Definition weekTotal (days : list DayData) : option Q :=
  fold_left (fun sum d => num_plus sum (dayTotal d)) days (Some 0%Q).

End Timesheet.

Module TimesheetSpec.
Import JSString Timesheet.

(** [k] quarters of an hour, as a number of hours in lowest terms. *)
Definition quarters (k : Z) : option Q := Some (Qred (inject_Z k / 4)).

(** What a line adds to the total of its day. *)
Definition line_part (l : TimesheetLine) : option Q :=
  if truthy (startTime l) && truthy (finishTime l)
  then lineHours l else Some 0%Q.

(** A day with a line at least. *)
Definition has_line (d : DayData) : Prop := lines d <> [].

End TimesheetSpec.

(* ================================================================== *)
(** * DashboardPage: the list of incomplete items *)
(* ================================================================== *)

Module Dashboard.
Import JS JSString Utils.

(** A row of one of the four tables, with the two date columns the page
    reads; a column the table does not have is [None] ([undefined]). *)
Record row : Type := mkRow {
  row_id : string;
  due_date : option string;
  required_date : option string
}.

Record Incomplete : Type := mkIncomplete {
  activities : list row;
  materials : list row;
  equipment : list row;
  crew : list row
}.

Inductive item_type : Type := activity | material | equipment_item | crew_item.

Record item : Type := mkItem {
  source : row;
  _type : item_type;
  _dueDate : option string
}.

Inductive priority_filter : Type :=
| all
| only (p : PriorityLevel).

Definition PriorityLevel_eqb (a b : PriorityLevel) : bool :=
  match a, b with
  | high, high | medium, medium | low, low => true
  | _, _ => false
  end.


(** [order[p]] of [{ high: 0, medium: 1, low: 2 }]. *)
Definition order (p : PriorityLevel) : Z :=
  match p with
  | high => 0
  | medium => 1
  | low => 2
  end.

(** [Array.prototype.sort(compare)]: a stable sort.  For a comparison that
    is a total preorder, as the one below, the result of a stable sort does
    not depend on the algorithm; this is insertion sort. *)
Fixpoint insert_sorted {A} (compare : A -> A -> Z) (x : A) (xs : list A)
  : list A :=
  match xs with
  | [] => [x]
  | y :: rest =>
      if compare x y <=? 0 then x :: y :: rest
      else y :: insert_sorted compare x rest
  end.

Definition sort {A} (compare : A -> A -> Z) (xs : list A) : list A :=
  fold_right (insert_sorted compare) [] xs.

Section WithClock.

Variable parseISO : string -> ESDate.Date.
Variable now : Z.

(** The items pushed by the four [forEach] loops. *)
Definition items_of (inc : Incomplete) : list item :=
  map (fun a => mkItem a activity (due_date a)) (activities inc)
  ++ map (fun m => mkItem m material (required_date m)) (materials inc)
  ++ map (fun e => mkItem e equipment_item (due_date e)) (equipment inc)
  ++ map (fun c => mkItem c crew_item (due_date c)) (crew inc).

Definition _priority (i : item) : PriorityLevel :=
  calculatePriority parseISO now (_dueDate i).

Definition passes (priorityFilter : priority_filter) (i : item) : bool :=
  match priorityFilter with
  | all => true
  | only p => PriorityLevel_eqb (_priority i) p
  end.

(** [allIncompleteFlat]; [incomplete] is [None] before the data is
    loaded. *)
Definition allIncompleteFlat (incomplete : option Incomplete)
    (priorityFilter : priority_filter) : list item :=
  match incomplete with
  | None => []
  | Some inc =>
      sort (fun a b => order (_priority a) - order (_priority b))
           (filter (passes priorityFilter) (items_of inc))
  end.


End WithClock.


End Dashboard.

Module DashboardSpec.

(** The comparison of two elements by a numeric key, as a sort takes it,
    and the order it sorts by. *)
Definition by_key {A} (key : A -> Z) (a b : A) : Z := key a - key b.
Definition key_le {A} (key : A -> Z) (a b : A) : Prop := key a <= key b.

End DashboardSpec.

(* ================================================================== *)
(** * ReportsPage: the summary counts *)
(* ================================================================== *)

Module Reports.
Import Utils.

(** The counts [total], [high], [medium], [low] of [summary], on the
    priorities of the filtered logs. *)
Definition count (p : PriorityLevel) (logs : list PriorityLevel) : nat :=
  List.length (filter (Dashboard.PriorityLevel_eqb p) logs).

Definition total (logs : list PriorityLevel) : nat := List.length logs.

End Reports.

(* ================================================================== *)
(** * AppLayout: navigation by role *)
(* ================================================================== *)

Module AppLayout.

Inductive UserRole : Type := site_manager | foreman | safety_officer.

(** [ROLE_ACCESS] of sitecommand-types. *)
Definition ROLE_ACCESS (r : UserRole) : list string :=
  match r with
  | site_manager =>
      ["dashboard"; "daily-logs"; "calendar"; "timesheets"; "reports";
       "settings"]
  | foreman =>
      ["dashboard"; "daily-logs"; "calendar"; "timesheets"; "reports"]
  | safety_officer => ["dashboard"; "daily-logs"; "calendar"; "reports"]
  end.

(** [xs.includes(p)]. *)
Definition includes (xs : list string) (p : string) : bool :=
  existsb (String.eqb p) xs.

(** The page [handleNavigate(page)] leaves in [currentPage]. *)
Definition handleNavigate (userRole : option UserRole) (page : string)
    (currentPage : string) : string :=
  match userRole with
  | Some r => if negb (includes (ROLE_ACCESS r) page) then currentPage
              else page
  | None => page
  end.

(** The page [handleJobCreated] and [handleSignOut] leave. *)
Definition handleJobCreated (currentPage : string) : string := "daily-logs".
Definition handleSignOut (currentPage : string) : string := "dashboard".

(** The state of [AppLayout] that the navigation reads and writes: the role
    of the profile ([null] until the profile loads and after a sign-out)
    and the current page. *)
Record state : Type := mkState {
  userRole : option UserRole;
  currentPage : string
}.

(** What changes that state: the three handlers, which set the page, and
    the authentication context, which sets the profile at any time (when it
    loads, on a change of session, on [updateProfile]) and leaves the page
    alone.  [handleSignOut] awaits [signOut()] of the context, which ends
    with [setProfile(null)], and then sets the page. *)
Inductive event : Type :=
| Navigate (page : string)
| JobCreated
| SignOut
| Profile (role : option UserRole).

Definition step (st : state) (e : event) : state :=
  match e with
  | Navigate page =>
      mkState (userRole st)
              (handleNavigate (userRole st) page (currentPage st))
  | JobCreated => mkState (userRole st) (handleJobCreated (currentPage st))
  | SignOut => mkState None (handleSignOut (currentPage st))
  | Profile role => mkState role (currentPage st)
  end.

(** [useState<PageKey>('dashboard')], before any profile. *)
Definition initial : state := mkState None "dashboard".

Definition run (st : state) (events : list event) : state :=
  fold_left step events st.

End AppLayout.

Module AppLayoutSpec.
Import AppLayout.

(** The current page is one of the pages of the role; no role, no limit. *)
Definition permitted (st : state) : Prop :=
  match userRole st with
  | Some r => In (currentPage st) (ROLE_ACCESS r)
  | None => True
  end.

(** An event of the page itself: one of the three handlers. *)
Definition handler (e : event) : Prop :=
  match e with
  | Profile _ => False
  | _ => True
  end.

End AppLayoutSpec.

(* ================================================================== *)
(** * sitecommand-store: the month of fetchCalendarNotes *)
(* ================================================================== *)

Module Store.
Import JSString.

(** The bounds [start] and [end] that [fetchCalendarNotes(month, year)]
    gives to the query [note_date >= start], [note_date < end]. *)
Definition notes_range (month year : Z) : string * string :=
  let start :=
    (toString year ++ "-" ++ padStart (toString (month + 1)) 2 "0"
     ++ "-01")%string in
  let endMonth := if month =? 11 then 0 else month + 1 in
  let endYear := if month =? 11 then year + 1 else year in
  let end_ :=
    (toString endYear ++ "-" ++ padStart (toString (endMonth + 1)) 2 "0"
     ++ "-01")%string in
  (start, end_).

End Store.

(* ================================================================== *)
(** * TimesheetPage: the days of the sheet *)
(* ================================================================== *)

Module TimesheetDays.
Import JS JSString ESDate DateFnsFormat Utils UtilsText Timesheet.

(** [subDays(date, amount)] of date-fns: [addDays(date, -amount)]. *)
Definition subDays (date : Date) (amount : Z) : Date :=
  addDays date (- amount).

(** The settings the page reads. *)
Record AppSettings : Type := mkSettings {
  timesheetPeriod : Z;
  lunchDefaultMinutes : Z
}.

(** [dayNames[d.getDay()]] in a day that is built: the date is valid there,
    [format] has returned. *)
Definition dayNameOf (d : Date) : string :=
  match getDay d with
  | Some w => nth (Z.to_nat w) dayNames EmptyString
  | None => EmptyString
  end.

(** The loop [for (let i = numDays - 1; i >= 0; i--)] of the effect that
    builds the days; [uuid i] is the identifier of the line made in turn
    [i], [days] the days of the state. *)
Fixpoint build_loop (n : nat) (endDate : Date) (lunchDefault : Z)
    (uuid : nat -> string) (days newDays : list DayData)
  : outcome (list DayData) :=
  match n with
  | O => Returns newDays
  | S i =>
      let d := subDays endDate (Z.of_nat i) in
      obind (format d yyyy_MM_dd) (fun dateStr =>
        let existing :=
          find (fun dd => String.eqb (date dd) dateStr) days in
        build_loop i endDate lunchDefault uuid days
          (newDays
           ++ [mkDay (dayNameOf d) dateStr
                 (match existing with
                  | Some e => lines e
                  | None => [makeLine (uuid i) lunchDefault]
                  end)]))
  end.

Section WithParse.

Variable parseISO : string -> Date.

(** The effect: the days it gives to [setDays], or the state as it is when
    the settings are not loaded or the week ending is blank. *)
Definition buildDays (settings : option AppSettings) (weekEnding : string)
    (uuid : nat -> string) (days : list DayData)
  : outcome (list DayData) :=
  match settings with
  | None => Returns days
  | Some st =>
      if negb (truthy weekEnding) then Returns days
      else
        let numDays :=
          if timesheetPeriod st =? 2 then 14%nat else 7%nat in
        let endDate := parseISO weekEnding in
        build_loop numDays endDate (lunchDefaultMinutes st) uuid days []
  end.

End WithParse.

End TimesheetDays.

Import JS ESDate DateFns Utils.

(* ================================================================== *)
(** * Worked hours: proofs *)
(* ================================================================== *)

Section Hours.

Import HoursSpec.

Lemma is_digit_not_colon (c : ascii) :
  is_digit c = true -> Ascii.eqb c ":" = false.
Proof.
  destruct c as [[] [] [] [] [] [] [] []]; vm_compute; congruence.
Qed.

(** What [split(':').map(Number)] gives on a string of the shape. *)
Lemma split_numbers (s : string) :
  test_hhmm s = true ->
  element (map Number (split ":" s)) 0 = Some (hour_of s) /\
  element (map Number (split ":" s)) 1 = Some (minute_of s).
Proof.
  destruct s as [|a [|b [|c [|d [|e [|x s]]]]]]; try discriminate.
  cbn [test_hhmm]. rewrite !andb_true_iff.
  intros [[[[Ha Hb] Hc] Hd] He].
  apply Ascii.eqb_eq in Hc. subst c.
  unfold split. cbn [split_from].
  rewrite (is_digit_not_colon a Ha), (is_digit_not_colon b Hb).
  rewrite (is_digit_not_colon d Hd), (is_digit_not_colon e He).
  rewrite Ascii.eqb_refl.
  cbn [append map element nth_error Number digits_value].
  rewrite Ha, Hb, Hd, He.
  unfold hour_of, minute_of, digit_at. cbn [String.get].
  split; f_equal; lia.
Qed.

Lemma Math_round_quarters (t : Z) :
  Math_round (inject_Z t / 15) = nearest_quarters t.
Proof.
  unfold Math_round, nearest_quarters, Qfloor, Qdiv, Qmult, Qplus, Qinv,
    inject_Z.
  cbn -[Z.mul Z.add Z.div]. f_equal; lia.
Qed.

Lemma nearest_quarters_nonneg (t : Z) : 0 <= t -> 0 <= nearest_quarters t.
Proof. intros H. unfold nearest_quarters. apply Z.div_pos; lia. Qed.

Lemma nearest_quarters_mono (a b : Z) :
  a <= b -> nearest_quarters a <= nearest_quarters b.
Proof. intros H. unfold nearest_quarters. apply Z.div_le_mono; lia. Qed.

Lemma hours_value (t : Z) :
  inject_Z (Math_round (inject_Z t / 15)) * 15 / 60
  == inject_Z (15 * nearest_quarters t) / 60.
Proof.
  rewrite Math_round_quarters.
  unfold Qeq, Qdiv, Qmult, Qinv, inject_Z. cbn -[Z.mul Z.add Z.div]. lia.
Qed.

(** The code on two strings of the shape: the reference value, in lowest
    terms. *)
Lemma calculateHours_shape (start finish : string) (lunchMinutes : Z) :
  test_hhmm start = true -> test_hhmm finish = true ->
  calculateHours start finish lunchMinutes
  = Some (Qred (computeHours start finish lunchMinutes)).
Proof.
  intros Hs Hf. unfold calculateHours. rewrite Hs, Hf. cbn [negb orb].
  destruct (split_numbers start Hs) as [-> ->].
  destruct (split_numbers finish Hf) as [-> ->].
  cbn [bind]. f_equal. apply Qred_complete.
  rewrite hours_value. unfold computeHours.
  replace (Math_max 0 _) with (rawMinutes start finish lunchMinutes);
    [reflexivity|].
  unfold rawMinutes, minutes_since_midnight, Math_max.
  replace (hour_of finish * 60 + minute_of finish)
    with (60 * hour_of finish + minute_of finish) by lia.
  replace (hour_of start * 60 + minute_of start)
    with (60 * hour_of start + minute_of start) by lia.
  destruct (_ <? _); reflexivity.
Qed.

Lemma calculateHours_no_shape (start finish : string) (lunchMinutes : Z) :
  test_hhmm start = false \/ test_hhmm finish = false ->
  calculateHours start finish lunchMinutes = Some 0%Q.
Proof.
  intros [H|H]; unfold calculateHours; rewrite H; cbn [negb orb].
  - reflexivity.
  - rewrite orb_true_r. reflexivity.
Qed.

Lemma computeHours_nonneg (start finish : string) (lunchMinutes : Z) :
  (0 <= computeHours start finish lunchMinutes)%Q.
Proof.
  unfold computeHours, quarter_hours.
  assert (0 <= nearest_quarters (rawMinutes start finish lunchMinutes)).
  { apply nearest_quarters_nonneg. unfold rawMinutes. lia. }
  unfold Qle, Qdiv, Qmult, Qinv, inject_Z. cbn -[Z.mul Z.add Z.div]. lia.
Qed.

End Hours.

(* ================================================================== *)
(** * Calendar arithmetic *)
(* ================================================================== *)

Section CalendarArith.

Import CalendarSpec.

Ltac div_lia := Z.to_euclidean_division_equations; lia.

Lemma DayFromYear_succ (y : Z) :
  DayFromYear (y + 1) = DayFromYear y + DaysInYear y.
Proof.
  unfold DayFromYear, DaysInYear.
  destruct (y mod 4 =? 0) eqn:H4; destruct (y mod 100 =? 0) eqn:H100;
    destruct (y mod 400 =? 0) eqn:H400; cbn [negb];
    rewrite ?Z.eqb_eq, ?Z.eqb_neq in *; div_lia.
Qed.

(** A year is 146097/400 days long in the mean; the day a year starts on is
    never two days away from that line. *)
Lemma DayFromYear_bounds (y : Z) :
  146097 * (y - 1970) - 607 <= 400 * DayFromYear y
  <= 146097 * (y - 1970) + 593.
Proof. unfold DayFromYear. div_lia. Qed.

Lemma DayFromYear_lt (y1 y2 : Z) :
  y1 < y2 -> DayFromYear y1 < DayFromYear y2.
Proof. intros H. unfold DayFromYear. div_lia. Qed.

Lemma DayFromYear_le (y1 y2 : Z) :
  y1 <= y2 -> DayFromYear y1 <= DayFromYear y2.
Proof.
  intros H. destruct (Z.eq_dec y1 y2) as [->|N]; [lia|].
  apply Z.lt_le_incl, DayFromYear_lt. lia.
Qed.

(** [YearFromDay d] is the year day [d] lies in. *)
Lemma YearFromDay_spec (d : Z) :
  DayFromYear (YearFromDay d) <= d < DayFromYear (YearFromDay d + 1).
Proof.
  unfold YearFromDay.
  set (y := 1970 + 400 * d / 146097).
  assert (Hy : 146097 * (y - 1970) <= 400 * d
               < 146097 * (y - 1970) + 146097).
  { subst y. div_lia. }
  pose proof (DayFromYear_bounds y) as B0.
  pose proof (DayFromYear_bounds (y - 1)) as Bm.
  pose proof (DayFromYear_bounds (y + 1)) as Bp.
  pose proof (DayFromYear_bounds (y + 2)) as Bpp.
  destruct (d <? DayFromYear y) eqn:E1;
    rewrite ?Z.ltb_lt, ?Z.ltb_ge in *.
  - replace (y - 1 + 1) with y by lia. lia.
  - destruct (DayFromYear (y + 1) <=? d) eqn:E2;
      rewrite ?Z.leb_le, ?Z.leb_gt in *.
    + replace (y + 1 + 1) with (y + 2) by lia. lia.
    + lia.
Qed.

Lemma YearFromDay_unique (y d : Z) :
  DayFromYear y <= d < DayFromYear (y + 1) -> YearFromDay d = y.
Proof.
  intros H. pose proof (YearFromDay_spec d) as S.
  destruct (Z.lt_trichotomy (YearFromDay d) y) as [L|[E|G]]; [|exact E|].
  - pose proof (DayFromYear_le (YearFromDay d + 1) y ltac:(lia)). lia.
  - pose proof (DayFromYear_le (y + 1) (YearFromDay d) ltac:(lia)). lia.
Qed.

Lemma Day_midnight (d : Z) : Day (d * msPerDay) = d.
Proof. unfold Day, msPerDay. apply Z.div_mul. lia. Qed.

Lemma TimeWithinDay_midnight (d : Z) : TimeWithinDay (d * msPerDay) = 0.
Proof. unfold TimeWithinDay, msPerDay. apply Z.mod_mul. lia. Qed.

Lemma DaysInYear_leap (y : Z) :
  DaysInYear y = if is_leap_year y then 366 else 365.
Proof.
  unfold DaysInYear, is_leap_year.
  destruct (y mod 4 =? 0) eqn:H4; destruct (y mod 100 =? 0) eqn:H100;
    destruct (y mod 400 =? 0) eqn:H400; cbn; try reflexivity;
    rewrite ?Z.eqb_eq, ?Z.eqb_neq in *; exfalso; div_lia.
Qed.

Lemma leap_flag_cases (y : Z) :
  (leap_flag y = 0 /\ DaysInYear y = 365 /\ is_leap_year y = false) \/
  (leap_flag y = 1 /\ DaysInYear y = 366 /\ is_leap_year y = true).
Proof.
  unfold leap_flag. rewrite DaysInYear_leap.
  destruct (is_leap_year y); cbn; auto.
Qed.

Lemma MakeDay_in_year (y mn dt : Z) :
  0 <= mn <= 11 ->
  MakeDay y mn dt = DayFromYear y + month_start mn (leap_flag y) + dt - 1.
Proof.
  intros H. unfold MakeDay.
  replace (mn / 12) with 0 by div_lia.
  replace (mn mod 12) with mn by div_lia.
  rewrite Z.add_0_r. reflexivity.
Qed.

(** [MakeDay] takes any month number: twelve months are a year. *)
Lemma MakeDay_normalise (y m dt : Z) :
  MakeDay y m dt = MakeDay (y + m / 12) (m mod 12) dt.
Proof.
  unfold MakeDay.
  replace (m mod 12 / 12) with 0 by div_lia.
  replace (m mod 12 mod 12) with (m mod 12) by div_lia.
  rewrite Z.add_0_r. reflexivity.
Qed.

Lemma month_start_next (y mn : Z) :
  0 <= mn <= 11 ->
  (if mn =? 11 then DaysInYear y else month_start (mn + 1) (leap_flag y))
  = month_start mn (leap_flag y) + days_in_month y mn.
Proof.
  intros H.
  assert (C : mn = 0 \/ mn = 1 \/ mn = 2 \/ mn = 3 \/ mn = 4 \/ mn = 5 \/
              mn = 6 \/ mn = 7 \/ mn = 8 \/ mn = 9 \/ mn = 10 \/ mn = 11)
    by lia.
  destruct (leap_flag_cases y) as [(-> & D & L)|(-> & D & L)];
    repeat (destruct C as [->|C]); try subst mn;
    cbn [Z.eqb Z.add Pos.add Pos.succ Pos.eqb month_start days_in_month];
    rewrite ?L, ?D; reflexivity.
Qed.

(** The last day of a month, as [getMonthDays] asks for it: date 0 of the
    next month. *)
Lemma MakeDay_last (y mn : Z) :
  0 <= mn <= 11 ->
  MakeDay y (mn + 1) 0 = MakeDay y mn 1 + days_in_month y mn - 1.
Proof.
  intros H. pose proof (month_start_next y mn H) as N.
  rewrite (MakeDay_in_year y mn) by assumption.
  destruct (mn =? 11) eqn:E in N; rewrite ?Z.eqb_eq, ?Z.eqb_neq in E.
  - subst mn. unfold MakeDay at 1.
    change ((11 + 1) / 12) with 1. change ((11 + 1) mod 12) with 0.
    rewrite DayFromYear_succ. cbn [month_start] in *. lia.
  - rewrite (MakeDay_in_year y (mn + 1)) by lia. lia.
Qed.

Lemma days_in_month_range (y mn : Z) : 28 <= days_in_month y mn <= 31.
Proof.
  unfold days_in_month.
  destruct (is_leap_year y);
    repeat match goal with
           | |- context [match ?x with _ => _ end] => destruct x
           end; lia.
Qed.

(** The month and the date of a day, from its place in the year. *)
Lemma MonthFromTime_range (t : Z) : 0 <= MonthFromTime t <= 11.
Proof.
  unfold MonthFromTime.
  repeat match goal with
         | |- context [if ?c then _ else _] => destruct c
         end; lia.
Qed.

(** [setDate] with the date moved by [k]: the day moves by [k]. *)
Lemma MakeDay_shift (t k : Z) :
  MakeDay (YearFromTime t) (MonthFromTime t) (DateFromTime t + k)
  = Day t + k.
Proof.
  unfold DateFromTime, MonthFromTime.
  assert (D : DayWithinYear t = Day t - DayFromYear (YearFromTime t))
    by reflexivity.
  assert (L : InLeapYear t = leap_flag (YearFromTime t)) by reflexivity.
  revert D L.
  generalize (DayWithinYear t) (InLeapYear t). intros d l D L.
  repeat match goal with
         | |- context [if ?c then _ else _] => destruct c
         end;
    rewrite MakeDay_in_year by lia; cbn [month_start]; lia.
Qed.

(** Day [i] of month [mn] of year [y] is in that year and month and has
    date [i + 1]. *)
Lemma civil_of_month_day (y mn i : Z) :
  0 <= mn <= 11 -> 0 <= i < days_in_month y mn ->
  let t := (MakeDay y mn 1 + i) * msPerDay in
  YearFromTime t = y /\ MonthFromTime t = mn /\ DateFromTime t = i + 1.
Proof.
  intros Hm Hi t.
  assert (Hd : Day t = DayFromYear y + month_start mn (leap_flag y) + i).
  { subst t. rewrite Day_midnight, MakeDay_in_year by assumption. lia. }
  assert (C : mn = 0 \/ mn = 1 \/ mn = 2 \/ mn = 3 \/ mn = 4 \/ mn = 5 \/
              mn = 6 \/ mn = 7 \/ mn = 8 \/ mn = 9 \/ mn = 10 \/ mn = 11)
    by lia.
  assert (Hy : YearFromTime t = y).
  { unfold YearFromTime. apply YearFromDay_unique.
    rewrite DayFromYear_succ, Hd.
    destruct (leap_flag_cases y) as [(-> & D & L)|(-> & D & L)];
      rewrite D; unfold days_in_month in Hi; rewrite L in Hi;
      repeat (destruct C as [->|C]); try subst mn;
      cbn [month_start] in *; lia. }
  assert (Hw : DayWithinYear t = month_start mn (leap_flag y) + i).
  { unfold DayWithinYear. rewrite Hy, Hd. lia. }
  split; [exact Hy|].
  unfold DateFromTime, MonthFromTime, InLeapYear. rewrite Hy, Hw.
  destruct (leap_flag_cases y) as [(-> & D & L)|(-> & D & L)];
    unfold days_in_month in Hi; rewrite L in Hi;
    repeat (destruct C as [->|C]); try subst mn;
    cbn [month_start] in *;
    repeat match goal with
           | |- context [?a <? ?b] =>
               destruct (Z.ltb_spec a b); try lia
           end;
    split; lia.
Qed.

End CalendarArith.

(* ================================================================== *)
(** * The days of a month *)
(* ================================================================== *)

Section MonthDays.

Import CalendarSpec.

Lemma TimeClip_midnight (d : Z) :
  - maxDay <= d <= maxDay -> TimeClip (d * msPerDay) = Some (d * msPerDay).
Proof.
  unfold maxDay, msPerDay, TimeClip. intros H.
  destruct (Z.leb_spec (Z.abs (d * 86400000)) 8640000000000000); [reflexivity|].
  lia.
Qed.

(** One turn of the loop of [eachDayOfInterval] moves a midnight to the next
    one (or out of the range of time values). *)
Lemma next_midnight (d : Z) :
  setHours (setDate (Date_at (d * msPerDay))
                    (num_add (getDate (Date_at (d * msPerDay))) 1)) 0 0 0 0
  = Date_of (TimeClip ((d + 1) * msPerDay)).
Proof.
  cbn [getDate getter num_add setDate].
  rewrite MakeDay_shift, Day_midnight, TimeWithinDay_midnight.
  unfold MakeDate. rewrite Z.add_0_r.
  destruct (TimeClip ((d + 1) * msPerDay)) as [t|] eqn:E.
  - assert (Et : t = (d + 1) * msPerDay).
    { unfold TimeClip in E.
      destruct (Z.abs ((d + 1) * msPerDay) <=? 8640000000000000);
        congruence. }
    subst t. cbn [Date_of setHours]. rewrite Day_midnight.
    unfold MakeDate, MakeTime. cbn [Z.mul]. rewrite Z.add_0_r, E.
    reflexivity.
  - reflexivity.
Qed.

Lemma nth_day_shift (d : Z) (n : nat) :
  map (nth_day (d + 1)) (seq 0 n) = map (nth_day d) (seq 1 n).
Proof.
  rewrite <- seq_shift, map_map. apply map_ext. intros i.
  unfold nth_day. do 2 f_equal. lia.
Qed.

(** The loop, started on day [d] with the end on day [e], pushes the days
    [d .. e] and stops: fuel for one turn more than there are days is
    enough. *)
Lemma eachDay_loop_run (n : nat) :
  forall (fuel : nat) (d e : Z) (acc : list Date),
    - maxDay <= d -> e <= maxDay ->
    e - d + 1 = Z.of_nat n -> (n + 1 <= fuel)%nat ->
    eachDay_loop fuel (Date_of (TimeClip (d * msPerDay)))
                 (Some (e * msPerDay)) acc
    = Returns (acc ++ map (nth_day d) (seq 0 n)).
Proof.
  induction n as [|n IH]; intros fuel d e acc Hd He Hn Hf.
  - destruct fuel as [|fuel]; [lia|]. cbn [eachDay_loop seq map].
    rewrite app_nil_r.
    replace (num_le _ _) with false; [reflexivity|].
    destruct (TimeClip (d * msPerDay)) as [t|] eqn:E; cbn; [|reflexivity].
    unfold TimeClip in E.
    destruct (Z.abs (d * msPerDay) <=? 8640000000000000); [|discriminate].
    injection E as <-. symmetry. apply Z.leb_gt. unfold msPerDay. lia.
  - destruct fuel as [|fuel]; [lia|].
    rewrite TimeClip_midnight by lia. cbn [Date_of eachDay_loop getTime num_le].
    replace (d * msPerDay <=? e * msPerDay) with true
      by (symmetry; apply Z.leb_le; unfold msPerDay; lia).
    rewrite next_midnight.
    rewrite (IH fuel (d + 1) e) by lia.
    rewrite nth_day_shift, <- app_assoc. cbn [seq map app].
    do 3 f_equal. unfold nth_day. do 2 f_equal. lia.
Qed.

(** The loop ends on its test, whatever the end of the interval is: the
    fuel of [eachDay_fuel] is never used up. *)
Lemma eachDay_loop_total (n : nat) :
  forall (fuel : nat) (d t : Z) (acc : list Date),
    Day t - d + 1 <= Z.of_nat n -> (n + 1 <= fuel)%nat ->
    exists dates,
      eachDay_loop fuel (Date_of (TimeClip (d * msPerDay))) (Some t) acc
      = Returns dates.
Proof.
  induction n as [|n IH]; intros fuel d t acc Hn Hf;
    (destruct fuel as [|fuel]; [lia|]); cbn [eachDay_loop];
    destruct (TimeClip (d * msPerDay)) as [x|] eqn:E;
    cbn [Date_of getTime num_le]; eauto.
  - assert (Ex : x = d * msPerDay).
    { unfold TimeClip in E.
      destruct (Z.abs (d * msPerDay) <=? 8640000000000000); congruence. }
    subst x. destruct (Z.leb_spec (d * msPerDay) t) as [L|G]; eauto.
    exfalso. unfold Day, msPerDay in *.
    Z.to_euclidean_division_equations. lia.
  - assert (Ex : x = d * msPerDay).
    { unfold TimeClip in E.
      destruct (Z.abs (d * msPerDay) <=? 8640000000000000); congruence. }
    subst x. destruct (Z.leb_spec (d * msPerDay) t) as [L|G]; eauto.
    rewrite next_midnight. apply IH; lia.
Qed.

Lemma eachDayOfInterval_terminates (start end_ : Date) :
  eachDayOfInterval start end_ <> OutOfFuel.
Proof.
  unfold eachDayOfInterval.
  destruct (num_le (getTime start) (getTime end_)) eqn:G; cbn [negb];
    [|discriminate].
  destruct start as [|s]; [discriminate|].
  destruct end_ as [|e]; [discriminate|].
  cbn [setHours getTime]. unfold MakeDate, MakeTime. cbn [Z.mul].
  rewrite Z.add_0_r.
  destruct (TimeClip (Day s * msPerDay)) as [x|] eqn:E.
  - assert (Ex : x = Day s * msPerDay).
    { unfold TimeClip in E.
      destruct (Z.abs (Day s * msPerDay) <=? 8640000000000000);
        congruence. }
    subst x. rewrite <- E.
    destruct (eachDay_loop_total
                (Z.to_nat (Day e - Day s) + 1)
                (eachDay_fuel (Date_of (TimeClip (Day s * msPerDay)))
                              (Some e))
                (Day s) e []) as (dates & ->); try discriminate; try lia.
    rewrite E. cbn [Date_of eachDay_fuel getTime]. rewrite Day_midnight.
    lia.
  - cbn. discriminate.
Qed.

(** Years in range stay within the days that have a time value. *)
Lemma year_in_range_days (y : Z) :
  year_in_range y ->
  - maxDay <= DayFromYear y /\ DayFromYear (y + 1) <= maxDay.
Proof.
  intros [Lo Hi]. split.
  - apply Z.le_trans with (DayFromYear (-271820)); [vm_compute; discriminate|].
    apply DayFromYear_le. lia.
  - apply Z.le_trans with (DayFromYear 275760); [|vm_compute; discriminate].
    apply DayFromYear_le. lia.
Qed.

Lemma MakeFullYear_in_range (y : Z) :
  year_in_range y -> year_in_range (MakeFullYear y).
Proof.
  unfold year_in_range, MakeFullYear. intros H.
  destruct (Z.leb_spec 0 y); destruct (Z.leb_spec y 99); cbn [andb]; lia.
Qed.

Lemma MakeFullYear_valid (y : Z) : valid_year y -> MakeFullYear y = y.
Proof.
  unfold valid_year, MakeFullYear. intros [_ H].
  destruct (Z.leb_spec 0 y); destruct (Z.leb_spec y 99); cbn [andb];
    [exfalso; apply H; lia|reflexivity|reflexivity|reflexivity].
Qed.

(** Where a month of a year in range lies. *)
Lemma month_days_in_range (y mn : Z) :
  year_in_range y -> valid_month mn ->
  - maxDay <= MakeDay y mn 1 /\
  MakeDay y mn 1 + days_in_month y mn - 1 <= maxDay.
Proof.
  intros Hy Hm. destruct (year_in_range_days y Hy) as [Lo Hi].
  pose proof (civil_of_month_day y mn 0 Hm) as C0.
  pose proof (civil_of_month_day y mn (days_in_month y mn - 1) Hm) as C1.
  pose proof (days_in_month_range y mn) as R.
  cbv zeta in C0, C1.
  destruct C0 as (Y0 & _); [lia|]. destruct C1 as (Y1 & _); [lia|].
  unfold YearFromTime in Y0, Y1. rewrite Day_midnight in Y0, Y1.
  pose proof (YearFromDay_spec (MakeDay y mn 1 + 0)) as S0.
  pose proof (YearFromDay_spec (MakeDay y mn 1 + (days_in_month y mn - 1)))
    as S1.
  rewrite Y0 in S0. rewrite Y1 in S1. lia.
Qed.

(** [getMonthDays] returns the days of the month, one midnight each, in
    ascending order. *)
Lemma getMonthDays_run (y m : Z) :
  year_in_range y -> valid_month m ->
  getMonthDays y m
  = Returns (map (nth_day (first_day y m))
                 (seq 0 (Z.to_nat (days_in_month (MakeFullYear y) m)))).
Proof.
  intros Hy Hm. apply MakeFullYear_in_range in Hy.
  unfold first_day. set (yr := MakeFullYear y) in *.
  destruct (month_days_in_range yr m Hy Hm) as [Lo Hi].
  pose proof (days_in_month_range yr m) as R.
  unfold getMonthDays, new_Date. fold yr.
  unfold MakeDate, MakeTime. cbn [Z.mul]. rewrite !Z.add_0_r.
  rewrite (MakeDay_last yr m Hm).
  set (d0 := MakeDay yr m 1) in *.
  set (e := d0 + days_in_month yr m - 1) in *.
  unfold eachDayOfInterval.
  rewrite (TimeClip_midnight d0), (TimeClip_midnight e) by lia.
  cbn [Date_of getTime num_le].
  replace (d0 * msPerDay <=? e * msPerDay) with true
    by (symmetry; apply Z.leb_le; unfold msPerDay; lia).
  cbn [negb setHours]. rewrite Day_midnight.
  unfold MakeDate, MakeTime. cbn [Z.mul]. rewrite Z.add_0_r.
  rewrite (eachDay_loop_run (Z.to_nat (days_in_month yr m))); try lia.
  - reflexivity.
  - rewrite TimeClip_midnight by lia. cbn [Date_of eachDay_fuel getTime].
    rewrite !Day_midnight. lia.
Qed.

End MonthDays.

(* ================================================================== *)
(** * The grid *)
(* ================================================================== *)

Section Grid.

Import CalendarSpec.

(** The loop over the days keeps the closed weeks full, the open week short,
    and the slots in order. *)
Lemma fold_push_day (days : list Date) :
  forall (grid : list (list slot)) (week : list slot),
    (List.length week < 7)%nat -> Forall full_week grid ->
    exists g w,
      fold_left push_day days (grid, week) = (g, w) /\
      Forall full_week g /\ (List.length w < 7)%nat /\
      List.concat g ++ w = List.concat grid ++ week ++ map Some days.
Proof.
  induction days as [|d days IH]; intros grid week Hw Hg.
  - exists grid, week. cbn. rewrite app_nil_r. auto.
  - cbn [fold_left push_day map].
    destruct (Nat.eqb_spec (List.length (week ++ [Some d])) 7) as [E|N].
    + destruct (IH (grid ++ [week ++ [Some d]]) []) as (g & w & F & G & W & C).
      * cbn. lia.
      * apply Forall_app. split; [assumption|]. constructor; [exact E|constructor].
      * exists g, w. repeat split; try assumption.
        rewrite C, concat_app. cbn [List.concat app]. rewrite app_nil_r.
        rewrite <- !app_assoc. reflexivity.
    + destruct (IH grid (week ++ [Some d])) as (g & w & F & G & W & C).
      * rewrite length_app in *. cbn [List.length] in *. lia.
      * assumption.
      * exists g, w. repeat split; try assumption.
        rewrite C, <- !app_assoc. reflexivity.
Qed.

Lemma WeekDay_range (t : Z) : 0 <= WeekDay t < 7.
Proof. unfold WeekDay. apply Z.mod_pos_bound. lia. Qed.

(** The grid, flattened: the leading empty slots, the days, the trailing
    empty slots; all rows are full weeks. *)
Lemma getCalendarGrid_run (y m : Z) :
  year_in_range y -> valid_month m ->
  exists grid k,
    getCalendarGrid y m = Returns grid /\
    Forall full_week grid /\ (k < 7)%nat /\
    List.concat grid
    = repeat None (Z.to_nat (first_weekday y m))
      ++ map Some (month_days y m) ++ repeat None k.
Proof.
  intros Hy Hm. unfold getCalendarGrid.
  rewrite (getMonthDays_run y m Hy Hm). fold (month_days y m).
  pose proof (days_in_month_range (MakeFullYear y) m) as R.
  assert (Hd0 : exists rest,
             month_days y m = nth_day (first_day y m) 0 :: rest).
  { unfold month_days.
    destruct (Z.to_nat (days_in_month (MakeFullYear y) m)) as [|n] eqn:E;
      [lia|]. cbn [seq map]. eauto. }
  destruct Hd0 as (rest & Hd0). rewrite Hd0. cbn iota.
  set (ds := nth_day (first_day y m) 0 :: rest).
  assert (Hfw : getDay (nth_day (first_day y m) 0)
                = Some (first_weekday y m)).
  { unfold nth_day, first_weekday. cbn [getDay getter Z.of_nat].
    rewrite Z.add_0_r. reflexivity. }
  rewrite Hfw. cbn [pad_start].
  pose proof (WeekDay_range (first_day y m * msPerDay)) as W.
  fold (first_weekday y m) in W.
  destruct (fold_push_day ds []
              (repeat None (Z.to_nat (first_weekday y m))))
    as (g & w & F & G & L & C).
  { rewrite repeat_length. lia. }
  { constructor. }
  rewrite F. cbn [List.concat app] in C.
  destruct (Nat.ltb_spec 0 (List.length w)) as [P|Z0].
  - exists (g ++ [pad_end w]), (7 - List.length w)%nat.
    split; [reflexivity|]. split; [|split; [lia|]].
    + apply Forall_app. split; [assumption|].
      constructor; [|constructor].
      unfold full_week, pad_end. rewrite length_app, repeat_length. lia.
    + rewrite concat_app. cbn [List.concat]. rewrite app_nil_r.
      unfold pad_end. rewrite app_assoc, C, <- !app_assoc. reflexivity.
  - exists g, 0%nat.
    split; [reflexivity|]. split; [assumption|]. split; [lia|].
    destruct w; [|cbn in Z0; lia].
    rewrite app_nil_r in C. cbn [repeat]. rewrite app_nil_r. exact C.
Qed.

(** Position [c] of row [r] of a grid of rows of [n] slots is position
    [r * n + c] of the flattened grid. *)
Lemma nth_error_concat_rows {A : Type} (n : nat) (grid : list (list A)) :
  Forall (fun row => List.length row = n) grid ->
  forall (r c : nat) (row : list A) (x : A),
    nth_error grid r = Some row -> nth_error row c = Some x ->
    nth_error (List.concat grid) (r * n + c) = Some x /\ (c < n)%nat.
Proof.
  induction 1 as [|row0 grid H0 _ IH]; intros r c row x Hr Hc.
  - destruct r; discriminate.
  - destruct r as [|r]; cbn [nth_error List.concat] in *.
    + injection Hr as ->.
      assert (c < n)%nat.
      { rewrite <- H0. apply nth_error_Some. congruence. }
      split; [|assumption].
      cbn [Nat.mul Nat.add]. rewrite nth_error_app1 by lia. exact Hc.
    + destruct (IH r c row x Hr Hc) as [E L]. split; [|assumption].
      rewrite nth_error_app2 by (cbn; lia).
      replace (S r * n + c - List.length row0)%nat with (r * n + c)%nat
        by (cbn; lia).
      exact E.
Qed.

Lemma dates_of_row_app (a b : list slot) :
  dates_of_row (a ++ b) = dates_of_row a ++ dates_of_row b.
Proof. unfold dates_of_row. apply flat_map_app. Qed.

Lemma dates_of_row_empty (k : nat) : dates_of_row (repeat None k) = [].
Proof. induction k as [|k IH]; [reflexivity|exact IH]. Qed.

Lemma dates_of_row_dates (ds : list Date) : dates_of_row (map Some ds) = ds.
Proof.
  induction ds as [|d ds IH]; [reflexivity|].
  cbn [map]. change (dates_of_row (Some d :: map Some ds))
    with (d :: dates_of_row (map Some ds)).
  rewrite IH. reflexivity.
Qed.

Lemma dates_of_concat (grid : list (list slot)) :
  dates_of grid = dates_of_row (List.concat grid).
Proof.
  induction grid as [|row grid IH]; [reflexivity|].
  cbn [List.concat]. rewrite dates_of_row_app, <- IH. reflexivity.
Qed.

(** A date in the flattened grid: where it is and which day it is. *)
Lemma nth_error_slots (a k : nat) (ds : list Date) (j : nat) (d : Date) :
  nth_error (repeat (@None Date) a ++ map Some ds ++ repeat None k) j
  = Some (Some d) ->
  (a <= j)%nat /\ nth_error ds (j - a) = Some d.
Proof.
  intros H.
  destruct (Nat.lt_ge_cases j a) as [L|G].
  - rewrite nth_error_app1 in H by (rewrite repeat_length; exact L).
    apply nth_error_In, repeat_spec in H. discriminate.
  - split; [exact G|].
    rewrite nth_error_app2 in H by (rewrite repeat_length; exact G).
    rewrite repeat_length in H.
    destruct (Nat.lt_ge_cases (j - a) (List.length ds)) as [L2|G2].
    + rewrite nth_error_app1 in H by (rewrite length_map; exact L2).
      rewrite nth_error_map in H.
      destruct (nth_error ds (j - a)); cbn in H; congruence.
    + rewrite nth_error_app2 in H by (rewrite length_map; exact G2).
      apply nth_error_In, repeat_spec in H. discriminate.
Qed.

Lemma nth_error_month_days (y m : Z) (i : nat) (d : Date) :
  nth_error (month_days y m) i = Some d ->
  d = nth_day (first_day y m) i /\
  Z.of_nat i < days_in_month (MakeFullYear y) m.
Proof.
  unfold month_days. intros H.
  assert (L : (i < Z.to_nat (days_in_month (MakeFullYear y) m))%nat).
  { assert (L : nth_error
                    (map (nth_day (first_day y m))
                         (seq 0 (Z.to_nat
                                   (days_in_month (MakeFullYear y) m)))) i
                  <> None) by congruence.
    apply nth_error_Some in L. rewrite length_map, length_seq in L.
    exact L. }
  rewrite nth_error_map, nth_error_seq in H.
  destruct (Nat.ltb_spec i (Z.to_nat (days_in_month (MakeFullYear y) m)));
    [|lia].
  cbn in H. injection H as <-. split; [reflexivity|lia].
Qed.

End Grid.

(* ================================================================== *)
(** * Days until the due date *)
(* ================================================================== *)

Section Priority.

Import PrioritySpec.

Ltac div_lia := Z.to_euclidean_division_equations; lia.

Lemma differenceInCalendarDays_days (l r : Z) :
  differenceInCalendarDays l r = Day l - Day r.
Proof.
  unfold differenceInCalendarDays, Math_round, Qfloor, Qdiv, Qmult, Qplus,
    Qinv, inject_Z, msPerDay.
  cbn -[Z.mul Z.add Z.div Z.sub Day]. div_lia.
Qed.

(** [differenceInDays] counts the full days between two dates, towards 0. *)
Lemma differenceInDays_full_days (l r : Z) :
  Z.abs (Day r * msPerDay + TimeWithinDay l) <= 8640000000000000 ->
  differenceInDays (Date_at l) (Date_at r) = Some (Z.quot (l - r) msPerDay).
Proof.
  intros Hclip. unfold differenceInDays.
  rewrite differenceInCalendarDays_days.
  assert (Hk : compareLocalAsc l r * Z.abs (Day l - Day r) = Day l - Day r).
  { unfold compareLocalAsc, Day, msPerDay.
    destruct (Z.lt_trichotomy l r) as [L|[E|G]].
    - rewrite Z.sgn_neg by lia. div_lia.
    - subst r. rewrite Z.sub_diag. cbn. lia.
    - rewrite Z.sgn_pos by lia. div_lia. }
  cbn [setDate].
  replace (DateFromTime l - compareLocalAsc l r * Z.abs (Day l - Day r))
    with (DateFromTime l + (Day r - Day l)) by lia.
  rewrite MakeDay_shift.
  replace (Day l + (Day r - Day l)) with (Day r) by lia.
  unfold MakeDate, TimeClip.
  destruct (Z.leb_spec (Z.abs (Day r * msPerDay + TimeWithinDay l))
              8640000000000000); [|lia].
  cbn [Date_of]. f_equal.
  unfold compareLocalAsc, Day, TimeWithinDay, msPerDay in *.
  set (x := r / 86400000 * 86400000 + l mod 86400000 - r).
  pose proof (Z.sgn_spec x) as Sx.
  destruct (Z.lt_trichotomy l r) as [L|[E|G]].
  - rewrite (Z.sgn_neg (l - r)) by lia.
    match goal with
    | |- context [if ?c then _ else _] => destruct c eqn:S
    end; rewrite ?Z.eqb_eq, ?Z.eqb_neq in S.
    + assert (0 < x) by lia. subst x. div_lia.
    + assert (x <= 0) by lia. subst x. div_lia.
  - subst r. rewrite Z.sub_diag. cbn. reflexivity.
  - rewrite (Z.sgn_pos (l - r)) by lia.
    match goal with
    | |- context [if ?c then _ else _] => destruct c eqn:S
    end; rewrite ?Z.eqb_eq, ?Z.eqb_neq in S.
    + assert (x < 0) by lia. subst x. div_lia.
    + assert (0 <= x) by lia. subst x. div_lia.
Qed.

(** [today.setHours(0, 0, 0, 0)] for a clock within the range of time
    values. *)
Lemma today_midnight (now : Z) :
  - 8640000000000000 <= now ->  now <= 8640000000000000 ->
  setHours (Date_at now) 0 0 0 0 = Date_at (today now).
Proof.
  intros Lo Hi. cbn [setHours]. unfold MakeDate, MakeTime, today, TimeClip.
  cbn [Z.mul]. rewrite Z.add_0_r.
  destruct (Z.leb_spec (Z.abs (Day now * msPerDay)) 8640000000000000);
    [reflexivity|].
  unfold Day, msPerDay in *. exfalso. div_lia.
Qed.

Section WithParse.

Variable parseISO : string -> Date.

(** The code and the tiers of the specification, on a due date that
    parses. *)
Lemma calculatePriority_classify (now : Z) (s : string) (due : Z) :
  - 8640000000000000 <= now < 8640000000000000 ->
  s <> EmptyString -> parseISO s = Date_at due ->
  calculatePriority parseISO now (Some s) = classify now (Some due).
Proof.
  intros Hnow Hs Hp. unfold calculatePriority, falsy, string_of.
  destruct (String.eqb_spec s EmptyString) as [E|_]; [contradiction|].
  rewrite Hp, today_midnight by lia.
  rewrite differenceInDays_full_days.
  - reflexivity.
  - unfold today, Day, TimeWithinDay, msPerDay. rewrite Z.div_mul by lia.
    div_lia.
Qed.

Lemma calculatePriority_invalid (now : Z) (s : string) :
  parseISO s = Invalid_Date ->
  calculatePriority parseISO now (Some s) = low.
Proof.
  intros Hp. unfold calculatePriority, string_of. rewrite Hp.
  destruct (falsy (Some s)); reflexivity.
Qed.

End WithParse.

End Priority.

(* ================================================================== *)
(** * Worked hours: the claims *)
(* ================================================================== *)

Section HoursClaims.

Import HoursSpec.

(** C1.  On two strings of the [HH:MM] shape and any [lunchMinutes] (a
    whole number of minutes, of magnitude at most 2^31),
    [calculateHours] returns the value of the reference computation: minutes
    since midnight, 1440 added to a finish before the start, the lunch
    subtracted, floored at 0, rounded to the nearest quarter of an hour (a
    tie going up), divided by 60; the value is not negative.  Three shifts
    of the specification: 9, 8 and 0.25 hours. *)
Theorem C1_calculateHours_reference :
  (forall (start finish : string) (lunchMinutes : Z),
      test_hhmm start = true -> test_hhmm finish = true ->
      lunch_in_range lunchMinutes ->
      exists h : Q,
        calculateHours start finish lunchMinutes = Some h /\
        h == computeHours start finish lunchMinutes /\
        (0 <= h)%Q) /\
  calculateHours "07:00" "16:30" 30 = Some 9%Q /\
  calculateHours "22:00" "06:00" 0 = Some 8%Q /\
  calculateHours "09:00" "09:10" 0 = Some (1 # 4).
Proof.
  split; [|repeat split; vm_compute; reflexivity].
  intros start finish lunchMinutes Hs Hf _.
  exists (Qred (computeHours start finish lunchMinutes)).
  split; [apply calculateHours_shape; assumption|].
  split; [apply Qred_correct|].
  rewrite Qred_correct. apply computeHours_nonneg.
Qed.

Lemma C1_witness :
  exists h : Q,
    calculateHours "06:45" "15:20" 45 = Some h /\
    h == computeHours "06:45" "15:20" 45 /\ (0 <= h)%Q.
Proof.
  apply (proj1 C1_calculateHours_reference "06:45" "15:20" 45);
    [reflexivity|reflexivity|unfold lunch_in_range; lia].
Defined.

(** C6, the claim as stated fails: ["25:00"] is not a time of the strict
    24-hour pattern, and the hours from ["25:00"] to ["26:00"] are 1, not
    0. *)
Lemma C6_counterexample :
  strict_24h "25:00" = false /\
  calculateHours "25:00" "26:00" 0 = Some 1%Q /\
  calculateHours "25:00" "26:00" 0 <> Some 0%Q.
Proof. repeat split; vm_compute; congruence. Qed.

(** C6, amended.  When either string does not have the two-digit, colon,
    two-digit shape (empty, a missing argument, which the test reads as
    ["undefined"] or ["null"], or anything else), [calculateHours] returns 0
    whatever [lunchMinutes] is, and does not throw. *)
Theorem C6_calculateHours_malformed :
  (forall (start finish : string) (lunchMinutes : Z),
      test_hhmm start = false \/ test_hhmm finish = false ->
      calculateHours start finish lunchMinutes = Some 0%Q) /\
  calculateHours "" "16:00" 0 = Some 0%Q /\
  calculateHours "09:00" "" 0 = Some 0%Q /\
  test_hhmm "undefined" = false /\ test_hhmm "null" = false.
Proof.
  split; [|repeat split].
  intros start finish lunchMinutes H.
  apply calculateHours_no_shape. exact H.
Qed.

Lemma C6_witness : calculateHours "9:00" "17:00" 30 = Some 0%Q.
Proof.
  apply (proj1 C6_calculateHours_malformed "9:00" "17:00" 30).
  left. reflexivity.
Defined.

(** C7, the claim as stated fails: a negative [lunchMinutes] is not taken
    as 0; from ["09:00"] to ["10:00"] with -60 the result is 2 hours, with 0
    it is 1 hour. *)
Lemma C7_counterexample :
  test_hhmm "09:00" = true /\ test_hhmm "10:00" = true /\
  calculateHours "09:00" "10:00" (-60) = Some 2%Q /\
  calculateHours "09:00" "10:00" 0 = Some 1%Q.
Proof. repeat split. Qed.

Lemma span_max (start finish : string) (lunchMinutes : Z) :
  rawMinutes start finish lunchMinutes
  = Z.max 0 (span start finish - lunchMinutes).
Proof. reflexivity. Qed.

Lemma quarter_hours_mono (a b : Z) :
  a <= b -> (quarter_hours a <= quarter_hours b)%Q.
Proof.
  intros H. pose proof (nearest_quarters_mono a b H) as M.
  unfold quarter_hours, Qle, Qdiv, Qmult, Qinv, inject_Z.
  cbn -[Z.mul Z.add Z.div]. lia.
Qed.

(** C7, amended.  [calculateHours] subtracts [lunchMinutes] as it is given.
    On two strings of the shape, 0 means no deduction: the result is the
    span from start to finish (floored at 0), rounded.  A negative
    [lunchMinutes] (a whole number of minutes, down to -2^31) is subtracted
    too: it lengthens the span by [- lunchMinutes] minutes, and the result
    is not below the one for 0. *)
Theorem C7_calculateHours_lunch :
  forall (start finish : string),
    test_hhmm start = true -> test_hhmm finish = true ->
    calculateHours start finish 0
    = Some (Qred (quarter_hours (Z.max 0 (span start finish)))) /\
    forall lunchMinutes : Z,
      lunch_in_range lunchMinutes -> lunchMinutes <= 0 ->
      calculateHours start finish lunchMinutes
      = Some (Qred (quarter_hours
                      (Z.max 0 (span start finish + - lunchMinutes)))) /\
      (quarter_hours (Z.max 0 (span start finish))
       <= quarter_hours (Z.max 0 (span start finish + - lunchMinutes)))%Q.
Proof.
  intros start finish Hs Hf. split.
  - rewrite calculateHours_shape by assumption.
    unfold computeHours. rewrite span_max, Z.sub_0_r. reflexivity.
  - intros lunchMinutes _ Hl. split.
    + rewrite calculateHours_shape by assumption.
      unfold computeHours. rewrite span_max.
      replace (span start finish - lunchMinutes)
        with (span start finish + - lunchMinutes) by lia.
      reflexivity.
    + apply quarter_hours_mono. lia.
Qed.

Lemma C7_witness :
  calculateHours "09:00" "10:00" (-60)
  = Some (Qred (quarter_hours (Z.max 0 (span "09:00" "10:00" + - -60)))).
Proof.
  refine (proj1 (proj2 (C7_calculateHours_lunch "09:00" "10:00" _ _)
                   (-60) _ _)).
  - reflexivity.
  - reflexivity.
  - unfold lunch_in_range. lia.
  - lia.
Defined.

(** C10.  [calculateHours] tests the two-digit, colon, two-digit shape only:
    a string of that shape with an hour above 23 or minutes above 59 is not
    rejected; its digits are read as minutes since midnight and the
    reference computation applies ([lunchMinutes] a whole number of minutes
    of magnitude at most 2^31).  From ["25:00"] to ["26:00"] the result
    is 1 hour, not 0. *)
Theorem C10_calculateHours_shape_only :
  (forall (start finish : string) (lunchMinutes : Z),
      test_hhmm start = true -> test_hhmm finish = true ->
      strict_24h start = false \/ strict_24h finish = false ->
      lunch_in_range lunchMinutes ->
      exists h : Q,
        calculateHours start finish lunchMinutes = Some h /\
        h == computeHours start finish lunchMinutes) /\
  test_hhmm "25:00" = true /\ strict_24h "25:00" = false /\
  minutes_since_midnight "25:00" = 1500 /\
  calculateHours "25:00" "26:00" 0 = Some 1%Q.
Proof.
  split; [|repeat split].
  intros start finish lunchMinutes Hs Hf _ _.
  exists (Qred (computeHours start finish lunchMinutes)).
  split; [apply calculateHours_shape; assumption|apply Qred_correct].
Qed.

Lemma C10_witness :
  exists h : Q,
    calculateHours "08:75" "31:00" 0 = Some h /\
    h == computeHours "08:75" "31:00" 0.
Proof.
  apply (proj1 C10_calculateHours_shape_only "08:75" "31:00" 0).
  - reflexivity.
  - reflexivity.
  - left. reflexivity.
  - unfold lunch_in_range. lia.
Defined.

End HoursClaims.

(* ================================================================== *)
(** * Priority tiers: the claims *)
(* ================================================================== *)

Section PriorityClaims.

Import PrioritySpec.

(** C2.  [calculatePriority] gives [low] to an absent due date; for a due
    date that parses, with [daysUntil] the whole number of days from today's
    midnight to the due date, it gives [high] when [daysUntil <= 3]
    (overdue dates too), [medium] when [3 < daysUntil <= 7] and [low] when
    [daysUntil > 7].  The clock [now] is any time value but the last one. *)
Theorem C2_calculatePriority_tiers :
  forall (parseISO : string -> Date) (now : Z),
    - 8640000000000000 <= now < 8640000000000000 ->
    calculatePriority parseISO now None = low /\
    calculatePriority parseISO now (Some "") = low /\
    forall (s : string) (due : Z),
      s <> EmptyString -> parseISO s = Date_at due ->
      let d := daysUntil now due in
      calculatePriority parseISO now (Some s) = classify now (Some due) /\
      (d <= 3 -> calculatePriority parseISO now (Some s) = high) /\
      (3 < d <= 7 -> calculatePriority parseISO now (Some s) = medium) /\
      (7 < d -> calculatePriority parseISO now (Some s) = low).
Proof.
  intros parseISO now Hnow. split; [reflexivity|]. split; [reflexivity|].
  intros s due Hs Hp d.
  rewrite (calculatePriority_classify parseISO now s due Hnow Hs Hp).
  unfold classify. fold d.
  split; [reflexivity|].
  destruct (Z.leb_spec d 3); destruct (Z.leb_spec d 7);
    repeat split; intros; try reflexivity; lia.
Qed.

(** At 10:00 on 1 January 2024, a due date of 8 January is 7 days away. *)
Lemma C2_witness :
  calculatePriority parse_calendar_date 1704103200000 (Some "2024-01-08")
  = medium.
Proof.
  refine (proj1 (proj2 (proj2
            (proj2 (proj2 (C2_calculatePriority_tiers
                             parse_calendar_date 1704103200000 _))
                   "2024-01-08" 1704672000000 _ _))) _).
  - lia.
  - discriminate.
  - vm_compute. reflexivity.
  - vm_compute. split; [reflexivity|discriminate].
Defined.

(** C9, the claim as stated fails: no boundary turns a malformed date
    string into a parse error before [calculatePriority].  The function
    takes the raw string and parses it itself; ["2024-02-30"] reads as no
    date, the number of days to it is [NaN], and the tier is [low], as for
    an absent due date. *)
Lemma C9_counterexample :
  parse_calendar_date "2024-02-30" = Invalid_Date /\
  differenceInDays (parse_calendar_date "2024-02-30")
    (setHours (Date_at 1704103200000) 0 0 0 0) = None /\
  calculatePriority parse_calendar_date 1704103200000 (Some "2024-02-30")
  = low /\
  calculatePriority parse_calendar_date 1704103200000 (Some "2024-02-30")
  = calculatePriority parse_calendar_date 1704103200000 None.
Proof. repeat split. Qed.

(** C9, amended.  [calculatePriority] parses the due-date string itself,
    and a string that does not parse to a valid date is no error: whatever
    the parser, the clock and the string, the number of days to an invalid
    date is [NaN], both comparisons fail and the tier is [low], the tier of
    an absent due date. *)
Theorem C9_calculatePriority_unparsed :
  forall (parseISO : string -> Date) (now : Z) (s : string),
    parseISO s = Invalid_Date ->
    differenceInDays (parseISO s) (setHours (Date_at now) 0 0 0 0) = None /\
    calculatePriority parseISO now (Some s) = low /\
    calculatePriority parseISO now (Some s)
    = calculatePriority parseISO now None.
Proof.
  intros parseISO now s Hp.
  split; [rewrite Hp; reflexivity|].
  rewrite (calculatePriority_invalid parseISO now s Hp).
  split; reflexivity.
Qed.

Lemma C9_witness :
  differenceInDays (parse_calendar_date "next week")
    (setHours (Date_at 1704103200000) 0 0 0 0) = None /\
  calculatePriority parse_calendar_date 1704103200000 (Some "next week")
  = low /\
  calculatePriority parse_calendar_date 1704103200000 (Some "next week")
  = calculatePriority parse_calendar_date 1704103200000 None.
Proof.
  apply (C9_calculatePriority_unparsed parse_calendar_date
           1704103200000 "next week").
  reflexivity.
Defined.

End PriorityClaims.

(* ================================================================== *)
(** * The month grid: the claims *)
(* ================================================================== *)

Section GridClaims.

Import CalendarSpec.

Ltac div_lia := Z.to_euclidean_division_equations; lia.

Lemma MakeDay_date (y m dt : Z) : MakeDay y m dt = MakeDay y m 1 + (dt - 1).
Proof. unfold MakeDay. lia. Qed.

(** The dates of the month as the constructor makes them, and as the loop
    of [eachDayOfInterval] lists them. *)
Lemma month_dates_days (y m : Z) :
  valid_year y -> valid_month m -> month_dates y m = month_days y m.
Proof.
  intros Hv Hm. pose proof (MakeFullYear_valid y Hv) as Hf.
  destruct Hv as [Hy _].
  unfold month_dates, month_days, first_day. rewrite Hf.
  apply map_ext_in. intros i Hi. apply in_seq in Hi.
  destruct (month_days_in_range y m Hy Hm) as [Lo Hi'].
  unfold new_Date, nth_day. rewrite Hf, MakeDay_date.
  unfold MakeDate, MakeTime. cbn [Z.mul]. rewrite Z.add_0_r.
  replace (Z.of_nat i + 1 - 1) with (Z.of_nat i) by lia.
  rewrite TimeClip_midnight by lia. reflexivity.
Qed.

Lemma first_weekday_getDay (y m : Z) :
  year_in_range y -> valid_month m ->
  getDay (new_Date y m 1) = Some (first_weekday y m).
Proof.
  intros Hy Hm. apply MakeFullYear_in_range in Hy.
  destruct (month_days_in_range _ m Hy Hm) as [Lo Hi].
  pose proof (days_in_month_range (MakeFullYear y) m) as R.
  unfold new_Date, first_weekday, first_day.
  unfold MakeDate, MakeTime. cbn [Z.mul]. rewrite Z.add_0_r.
  rewrite TimeClip_midnight by lia. reflexivity.
Qed.

(** C3, the claim as stated fails for the years 0..99, which the
    constructor reads as 1900..1999: the first of January of year 50 is a
    Saturday (weekday 6), and [getCalendarGrid 50 0] is the grid of January
    1950, whose first date stands in column 0. *)
Lemma C3_counterexample :
  year_in_range 50 /\ valid_month 0 /\
  WeekDay (MakeDay 50 0 1 * msPerDay) = 6 /\
  getCalendarGrid 50 0 = getCalendarGrid 1950 0 /\
  exists (grid : list (list slot)) (row : list slot),
    getCalendarGrid 50 0 = Returns grid /\
    nth_error grid 0 = Some row /\
    first_date_column row = Some 0%nat.
Proof.
  split; [unfold year_in_range; lia|].
  split; [unfold valid_month; lia|].
  split; [vm_compute; reflexivity|].
  split; [vm_compute; reflexivity|].
  eexists. eexists.
  split; [vm_compute; reflexivity|].
  split; reflexivity.
Qed.

(** C3, amended.  For a valid year (within the range of dates, and not one
    of 0..99) and a month 0..11, [getCalendarGrid] returns rows
    of exactly 7 slots which, read row after row, are: as many empty slots
    as the weekday (0 = Sunday .. 6 = Saturday) of the first day of the
    month, the dates of the month in ascending order, and fewer than 7
    empty slots that fill the last row.  February 2024 has 5 rows and its
    first date is in column 4. *)
Theorem C3_getCalendarGrid_layout :
  (forall y m : Z,
      valid_year y -> valid_month m ->
      exists (grid : list (list slot)) (k : nat),
        getCalendarGrid y m = Returns grid /\
        getDay (new_Date y m 1) = Some (first_weekday y m) /\
        0 <= first_weekday y m <= 6 /\
        Forall full_week grid /\
        (k < 7)%nat /\
        List.concat grid
        = repeat None (Z.to_nat (first_weekday y m))
          ++ map Some (month_dates y m) ++ repeat None k) /\
  (exists (grid : list (list slot)) (row : list slot),
      getCalendarGrid 2024 1 = Returns grid /\
      List.length grid = 5%nat /\
      nth_error grid 0 = Some row /\
      first_date_column row = Some 4%nat).
Proof.
  split.
  - intros y m Hv Hm.
    destruct (getCalendarGrid_run y m (proj1 Hv) Hm)
      as (grid & k & E & F & K & C).
    exists grid, k.
    split; [exact E|].
    split; [apply first_weekday_getDay; [exact (proj1 Hv)|exact Hm]|].
    split.
    { pose proof (WeekDay_range (first_day y m * msPerDay)) as W.
      unfold first_weekday. lia. }
    split; [exact F|]. split; [exact K|].
    rewrite month_dates_days by assumption. exact C.
  - eexists. eexists.
    split; [vm_compute; reflexivity|].
    split; [reflexivity|]. split; reflexivity.
Qed.

Lemma C3_witness :
  exists (grid : list (list slot)) (k : nat),
    getCalendarGrid 2025 8 = Returns grid /\
    getDay (new_Date 2025 8 1) = Some (first_weekday 2025 8) /\
    0 <= first_weekday 2025 8 <= 6 /\
    Forall full_week grid /\
    (k < 7)%nat /\
    List.concat grid
    = repeat None (Z.to_nat (first_weekday 2025 8))
      ++ map Some (month_dates 2025 8) ++ repeat None k.
Proof.
  apply (proj1 C3_getCalendarGrid_layout 2025 8).
  - unfold valid_year, year_in_range. lia.
  - unfold valid_month. lia.
Defined.

(** The weekday of a day of the grid is its place in the week. *)
Lemma weekday_of_slot (first : Z) (j a : nat) :
  a = Z.to_nat ((first + 4) mod 7) -> (a <= j)%nat ->
  (first + Z.of_nat (j - a) + 4) mod 7 = Z.of_nat j mod 7.
Proof.
  intros -> H.
  assert (0 <= (first + 4) mod 7 < 7) by (apply Z.mod_pos_bound; lia).
  rewrite Nat2Z.inj_sub by exact H. rewrite Z2Nat.id by lia.
  div_lia.
Qed.

(** The constructor's reading of a year changes the length of no month
    but February of year 0: 1900 is no leap year, year 0 is one. *)
Lemma days_in_month_other (y y' m : Z) :
  m <> 1 -> days_in_month y m = days_in_month y' m.
Proof.
  intros H. unfold days_in_month.
  destruct m as [|p|p]; try reflexivity.
  do 4 (try (destruct p as [p|p|]; try reflexivity; try congruence)).
Qed.

Lemma is_leap_year_two_digit (y : Z) :
  1 <= y <= 99 -> is_leap_year (1900 + y) = is_leap_year y.
Proof.
  intros H. unfold is_leap_year.
  assert (E4 : (1900 + y) mod 4 = y mod 4) by div_lia.
  assert (E100 : (1900 + y) mod 100 = y mod 100) by div_lia.
  assert (N1 : (1900 + y) mod 400 <> 0) by div_lia.
  assert (N2 : y mod 400 <> 0) by div_lia.
  rewrite E4, E100.
  destruct (Z.eqb_spec ((1900 + y) mod 400) 0); [contradiction|].
  destruct (Z.eqb_spec (y mod 400) 0); [contradiction|].
  reflexivity.
Qed.

Lemma days_in_month_MakeFullYear (y m : Z) :
  ~ (y = 0 /\ m = 1) ->
  days_in_month (MakeFullYear y) m = days_in_month y m.
Proof.
  intros H.
  destruct (Z.eq_dec m 1) as [->|Nm]; [|apply days_in_month_other, Nm].
  unfold MakeFullYear.
  destruct (Z.leb_spec 0 y); destruct (Z.leb_spec y 99); cbn [andb];
    try reflexivity.
  unfold days_in_month. rewrite is_leap_year_two_digit by lia. reflexivity.
Qed.

(** C4, the claim as stated fails for February of year 0: the constructor
    reads year 0 as 1900, and [getCalendarGrid 0 1] has the 28 dates of
    February 1900, while year 0 (divisible by 400) is a leap year with a
    February of 29 days. *)
Lemma C4_counterexample :
  year_in_range 0 /\ valid_month 1 /\
  is_leap_year 0 = true /\ days_in_month 0 1 = 29 /\
  exists grid : list (list slot),
    getCalendarGrid 0 1 = Returns grid /\
    List.length (dates_of grid) = 28%nat.
Proof.
  split; [unfold year_in_range; lia|].
  split; [unfold valid_month; lia|].
  split; [reflexivity|]. split; [reflexivity|].
  eexists. split; [vm_compute; reflexivity|reflexivity].
Qed.

(** C4, amended.  For a year within the range of dates and a month 0..11,
    in the grid of [getCalendarGrid] the weekday of every date is the column
    it stands in, and there are 28 to 31 dates: as many as the month has
    days (by month and leap year), February of year 0 apart.  The years
    1..99, read as 1901..1999, have months of the same lengths. *)
Theorem C4_getCalendarGrid_invariants :
  forall y m : Z,
    year_in_range y -> valid_month m ->
    exists grid : list (list slot),
      getCalendarGrid y m = Returns grid /\
      (forall (r c : nat) (row : list slot) (d : Date),
          nth_error grid r = Some row -> nth_error row c = Some (Some d) ->
          getDay d = Some (Z.of_nat c)) /\
      28 <= Z.of_nat (List.length (dates_of grid)) <= 31 /\
      (~ (y = 0 /\ m = 1) ->
       Z.of_nat (List.length (dates_of grid)) = days_in_month y m).
Proof.
  intros y m Hy Hm.
  destruct (getCalendarGrid_run y m Hy Hm) as (grid & k & E & F & K & C).
  pose proof (days_in_month_range (MakeFullYear y) m) as R.
  assert (L : Z.of_nat (List.length (dates_of grid))
              = days_in_month (MakeFullYear y) m).
  { rewrite dates_of_concat, C, !dates_of_row_app, !dates_of_row_empty.
    rewrite dates_of_row_dates, app_nil_r. cbn [app].
    unfold month_days. rewrite length_map, length_seq. lia. }
  exists grid. split; [exact E|]. split; [|split].
  - intros r c row d Hr Hc.
    destruct (nth_error_concat_rows 7 grid F r c row (Some d) Hr Hc)
      as [Hj Hc7].
    rewrite C in Hj. apply nth_error_slots in Hj. destruct Hj as [Ha Hn].
    apply nth_error_month_days in Hn. destruct Hn as [-> _].
    unfold nth_day. cbn [getDay getter]. unfold WeekDay.
    rewrite Day_midnight. f_equal.
    rewrite (weekday_of_slot _ (r * 7 + c)
               (Z.to_nat (first_weekday y m))).
    + div_lia.
    + unfold first_weekday, WeekDay. rewrite Day_midnight. reflexivity.
    + exact Ha.
  - rewrite L. exact R.
  - intros N. rewrite L. apply days_in_month_MakeFullYear, N.
Qed.

(** February of year 24, which the constructor reads as 1924: 29 dates. *)
Lemma C4_witness :
  exists grid : list (list slot),
    getCalendarGrid 24 1 = Returns grid /\
    (forall (r c : nat) (row : list slot) (d : Date),
        nth_error grid r = Some row -> nth_error row c = Some (Some d) ->
        getDay d = Some (Z.of_nat c)) /\
    28 <= Z.of_nat (List.length (dates_of grid)) <= 31 /\
    (~ (24 = 0 /\ 1 = 1) ->
     Z.of_nat (List.length (dates_of grid)) = days_in_month 24 1).
Proof.
  apply (C4_getCalendarGrid_invariants 24 1).
  - unfold year_in_range. lia.
  - unfold valid_month. lia.
Defined.

(** The dates of the grid are the days of the month. *)
Lemma dates_of_grid (y m : Z) (grid : list (list slot)) (k : nat) :
  List.concat grid
  = repeat None (Z.to_nat (first_weekday y m))
    ++ map Some (month_days y m) ++ repeat None k ->
  dates_of grid = month_days y m.
Proof.
  intros C.
  rewrite dates_of_concat, C, !dates_of_row_app, !dates_of_row_empty.
  rewrite dates_of_row_dates, app_nil_r. reflexivity.
Qed.

(** Year and month of the days [getMonthDays] lists. *)
Lemma month_days_civil (y m : Z) :
  valid_month m ->
  Forall (fun d => getFullYear d = Some (MakeFullYear y) /\
                   getMonth d = Some m)
         (month_days y m).
Proof.
  intros Hm. apply Forall_forall. intros d Hd.
  apply In_nth_error in Hd. destruct Hd as (i & Hi).
  apply nth_error_month_days in Hi. destruct Hi as [-> Hi].
  destruct (civil_of_month_day (MakeFullYear y) m (Z.of_nat i) Hm)
    as (Y & M & _); [lia|].
  unfold nth_day, first_day. cbn [getFullYear getMonth getter].
  rewrite Y, M. split; reflexivity.
Qed.

(** C5, the claim as stated fails for the years 0..99: the dates of
    [getCalendarGrid 50 0] are those of January 1950, and their year is
    1950, not 50. *)
Lemma C5_counterexample :
  year_in_range 50 /\ valid_month 0 /\
  exists grid : list (list slot),
    getCalendarGrid 50 0 = Returns grid /\
    dates_of grid <> [] /\
    Forall (fun d => getFullYear d = Some 1950 /\ getFullYear d <> Some 50)
           (dates_of grid).
Proof.
  assert (R : year_in_range 50) by (unfold year_in_range; lia).
  assert (Hm : valid_month 0) by (unfold valid_month; lia).
  split; [exact R|]. split; [exact Hm|].
  destruct (getCalendarGrid_run 50 0 R Hm) as (grid & k & E & F & K & C).
  exists grid. split; [exact E|].
  rewrite (dates_of_grid 50 0 grid k C).
  split; [vm_compute; discriminate|].
  eapply Forall_impl; [|apply (month_days_civil 50 0 Hm)].
  intros d [Y _]. change (MakeFullYear 50) with 1950 in Y.
  split; [exact Y|]. rewrite Y. discriminate.
Qed.

(** C5, amended.  For a valid year [y] (within the range of dates, and not
    one of 0..99) and a month [m] in 0..11, every date of the
    grid of [getCalendarGrid y m] has year [y] and month [m]; the grid has
    dates. *)
Theorem C5_getCalendarGrid_round_trip :
  forall y m : Z,
    valid_year y -> valid_month m ->
    exists grid : list (list slot),
      getCalendarGrid y m = Returns grid /\
      dates_of grid <> [] /\
      Forall (fun d => getFullYear d = Some y /\ getMonth d = Some m)
             (dates_of grid).
Proof.
  intros y m Hv Hm.
  destruct (getCalendarGrid_run y m (proj1 Hv) Hm)
    as (grid & k & E & F & K & C).
  exists grid. split; [exact E|].
  rewrite (dates_of_grid y m grid k C).
  split.
  - unfold month_days.
    pose proof (days_in_month_range (MakeFullYear y) m) as R.
    destruct (Z.to_nat (days_in_month (MakeFullYear y) m)) eqn:N; [lia|].
    discriminate.
  - pose proof (month_days_civil y m Hm) as H.
    rewrite (MakeFullYear_valid y Hv) in H. exact H.
Qed.

Lemma C5_witness :
  exists grid : list (list slot),
    getCalendarGrid 2026 11 = Returns grid /\
    dates_of grid <> [] /\
    Forall (fun d => getFullYear d = Some 2026 /\ getMonth d = Some 11)
           (dates_of grid).
Proof.
  apply (C5_getCalendarGrid_round_trip 2026 11).
  - unfold valid_year, year_in_range. lia.
  - unfold valid_month. lia.
Defined.

(** X27.  A year 0..99 is not a valid year: the constructor reads it as
    1900..1999, and so do the grid and the year of its dates. *)
Lemma getCalendarGrid_two_digit_year (y m : Z) :
  0 <= y <= 99 -> valid_month m ->
  getCalendarGrid y m = getCalendarGrid (1900 + y) m /\
  exists grid : list (list slot),
    getCalendarGrid y m = Returns grid /\
    Forall (fun d => getFullYear d = Some (1900 + y) /\ getMonth d = Some m)
           (dates_of grid).
Proof.
  intros Hy Hm.
  assert (F1 : MakeFullYear y = 1900 + y).
  { unfold MakeFullYear.
    destruct (Z.leb_spec 0 y); destruct (Z.leb_spec y 99); cbn [andb]; lia. }
  assert (F2 : MakeFullYear (1900 + y) = 1900 + y).
  { unfold MakeFullYear.
    destruct (Z.leb_spec 0 (1900 + y)); destruct (Z.leb_spec (1900 + y) 99);
      cbn [andb]; lia. }
  split.
  - unfold getCalendarGrid, getMonthDays, new_Date. rewrite F1, F2.
    reflexivity.
  - assert (R : year_in_range y) by (unfold year_in_range; lia).
    destruct (getCalendarGrid_run y m R Hm) as (grid & k & E & F & K & C).
    exists grid. split; [exact E|].
    rewrite (dates_of_grid y m grid k C).
    pose proof (month_days_civil y m Hm) as H. rewrite F1 in H. exact H.
Qed.

(** C8, the claim as stated fails: month 12 is out of range and yet
    [getCalendarGrid 2024 12] returns a grid, that of January 2025. *)
Lemma C8_counterexample :
  valid_year 2024 /\ ~ valid_month 12 /\
  getCalendarGrid 2024 12 = getCalendarGrid 2025 0 /\
  exists grid : list (list slot),
    getCalendarGrid 2024 12 = Returns grid /\ List.length grid = 5%nat.
Proof.
  split; [unfold valid_year, year_in_range; lia|].
  split; [unfold valid_month; lia|].
  split; [vm_compute; reflexivity|].
  eexists. split; [vm_compute; reflexivity|reflexivity].
Qed.

Lemma new_Date_normalise (y m dt : Z) :
  valid_year y -> valid_year (y + m / 12) ->
  new_Date y m dt = new_Date (y + m / 12) (m mod 12) dt.
Proof.
  intros H1 H2. unfold new_Date.
  rewrite (MakeFullYear_valid _ H1), (MakeFullYear_valid _ H2).
  rewrite (MakeDay_normalise y m dt). reflexivity.
Qed.

(** C8, amended.  [getCalendarGrid] has no error condition for a year in
    range and a month 0..11: it returns a grid.  A month out of 0..11 is no
    error either: the constructor counts twelve months as a year, and
    [getCalendarGrid y m] is the grid of month [m mod 12] of year
    [y + floor (m / 12)], when both years are valid. *)
Theorem C8_getCalendarGrid_any_month :
  (forall y m : Z,
      year_in_range y -> valid_month m ->
      exists grid : list (list slot), getCalendarGrid y m = Returns grid) /\
  (forall y m : Z,
      valid_year y -> valid_year (y + m / 12) ->
      getCalendarGrid y m = getCalendarGrid (y + m / 12) (m mod 12) /\
      exists grid : list (list slot), getCalendarGrid y m = Returns grid).
Proof.
  split.
  - intros y m Hy Hm.
    destruct (getCalendarGrid_run y m Hy Hm) as (grid & k & E & _).
    exists grid. exact E.
  - intros y m H1 H2.
    assert (E : getCalendarGrid y m
                = getCalendarGrid (y + m / 12) (m mod 12)).
    { unfold getCalendarGrid, getMonthDays.
      rewrite (new_Date_normalise y m 1 H1 H2).
      replace (new_Date y (m + 1) 0)
        with (new_Date (y + m / 12) (m mod 12 + 1) 0); [reflexivity|].
      unfold new_Date.
      rewrite (MakeFullYear_valid _ H1), (MakeFullYear_valid _ H2).
      rewrite (MakeDay_normalise y (m + 1) 0).
      rewrite (MakeDay_normalise (y + m / 12) (m mod 12 + 1) 0).
      replace (y + m / 12 + (m mod 12 + 1) / 12) with (y + (m + 1) / 12)
        by div_lia.
      replace ((m mod 12 + 1) mod 12) with ((m + 1) mod 12) by div_lia.
      reflexivity. }
    split; [exact E|]. rewrite E.
    assert (Hm : valid_month (m mod 12)).
    { unfold valid_month. pose proof (Z.mod_pos_bound m 12). lia. }
    destruct (getCalendarGrid_run _ _ (proj1 H2) Hm) as (grid & k & G & _).
    exists grid. exact G.
Qed.

Lemma C8_witness :
  getCalendarGrid 2024 (-1) = getCalendarGrid (2024 + -1 / 12) (-1 mod 12) /\
  exists grid : list (list slot), getCalendarGrid 2024 (-1) = Returns grid.
Proof.
  apply (proj2 C8_getCalendarGrid_any_month 2024 (-1)).
  - unfold valid_year, year_in_range. lia.
  - unfold valid_year, year_in_range. cbn. lia.
Defined.

(** [getCalendarGrid] ends on every input: with a grid or an exception. *)
Lemma getCalendarGrid_terminates (year month : Z) :
  getCalendarGrid year month <> OutOfFuel.
Proof.
  unfold getCalendarGrid, getMonthDays.
  pose proof (eachDayOfInterval_terminates
                (new_Date year month 1) (new_Date year (month + 1) 0)) as T.
  destruct (eachDayOfInterval _ _) as [days|e|]; [| discriminate |congruence].
  destruct days as [|d0 rest]; [discriminate|].
  destruct (fold_left push_day (d0 :: rest) ([], pad_start (getDay d0))).
  discriminate.
Qed.

End GridClaims.

(* ================================================================== *)
(** * Numbers as text *)
(* ================================================================== *)

Import JSString DateFnsFormat UtilsText.

Section Text.

Import HoursSpec.

Ltac div_lia := Z.to_euclidean_division_equations; lia.

Lemma digit_cases (d : Z) :
  0 <= d <= 9 ->
  d = 0 \/ d = 1 \/ d = 2 \/ d = 3 \/ d = 4 \/ d = 5 \/ d = 6 \/ d = 7 \/
  d = 8 \/ d = 9.
Proof. lia. Qed.

Lemma digit_char_digit (d : Z) :
  0 <= d <= 9 ->
  is_digit (digit_char d) = true /\ digit_value (digit_char d) = d.
Proof.
  intros H. apply digit_cases in H.
  repeat (destruct H as [->|H]); try subst d; split; reflexivity.
Qed.

Lemma is_digit_value (c : ascii) :
  is_digit c = true ->
  0 <= digit_value c <= 9 /\ digit_char (digit_value c) = c.
Proof.
  destruct c as [[] [] [] [] [] [] [] []]; vm_compute; intros H;
    try discriminate H; repeat split; intros; discriminate.
Qed.

Lemma decimal_digits_one (fuel : nat) (n : Z) :
  n < 10 -> decimal_digits (S fuel) n = String (digit_char n) EmptyString.
Proof.
  intros H. cbn [decimal_digits].
  destruct (Z.ltb_spec n 10); [reflexivity|lia].
Qed.

Lemma decimal_digits_more (fuel : nat) (n : Z) :
  10 <= n ->
  decimal_digits (S fuel) n
  = (decimal_digits fuel (n / 10)
     ++ String (digit_char (n mod 10)) EmptyString)%string.
Proof.
  intros H. cbn [decimal_digits].
  destruct (Z.ltb_spec n 10); [lia|reflexivity].
Qed.

Lemma digits_fuel_ge (n k : Z) (f : nat) :
  0 < k -> k <= n -> Z.log2 k = Z.of_nat f -> (S f <= digits_fuel n)%nat.
Proof.
  intros Hk Hn Hl. unfold digits_fuel.
  pose proof (Z.log2_le_mono k n Hn). lia.
Qed.

(** Up to four digits, as [toString] writes them. *)
Lemma toString_1 (n : Z) :
  0 <= n < 10 -> toString n = String (digit_char n) EmptyString.
Proof.
  intros H. unfold toString. destruct (Z.ltb_spec n 0); [lia|].
  unfold digits_fuel. apply decimal_digits_one. lia.
Qed.

Lemma toString_2 (n : Z) :
  10 <= n < 100 ->
  toString n
  = String (digit_char (n / 10)) (String (digit_char (n mod 10)) EmptyString).
Proof.
  intros H. unfold toString. destruct (Z.ltb_spec n 0); [lia|].
  pose proof (digits_fuel_ge n 10 3 ltac:(lia) ltac:(lia) eq_refl) as F.
  destruct (digits_fuel n) as [|[|f]]; try lia.
  rewrite decimal_digits_more by lia.
  rewrite decimal_digits_one by div_lia. reflexivity.
Qed.

Lemma toString_3 (n : Z) :
  100 <= n < 1000 ->
  toString n
  = String (digit_char (n / 100))
      (String (digit_char (n / 10 mod 10))
         (String (digit_char (n mod 10)) EmptyString)).
Proof.
  intros H. unfold toString. destruct (Z.ltb_spec n 0); [lia|].
  pose proof (digits_fuel_ge n 100 6 ltac:(lia) ltac:(lia) eq_refl) as F.
  destruct (digits_fuel n) as [|[|[|f]]]; try lia.
  rewrite decimal_digits_more by lia.
  rewrite decimal_digits_more by div_lia.
  rewrite decimal_digits_one by div_lia.
  replace (n / 10 / 10) with (n / 100) by div_lia. reflexivity.
Qed.

Lemma toString_4 (n : Z) :
  1000 <= n < 10000 ->
  toString n
  = String (digit_char (n / 1000))
      (String (digit_char (n / 100 mod 10))
         (String (digit_char (n / 10 mod 10))
            (String (digit_char (n mod 10)) EmptyString))).
Proof.
  intros H. unfold toString. destruct (Z.ltb_spec n 0); [lia|].
  pose proof (digits_fuel_ge n 1000 9 ltac:(lia) ltac:(lia) eq_refl) as F.
  destruct (digits_fuel n) as [|[|[|[|f]]]]; try lia.
  rewrite decimal_digits_more by lia.
  rewrite decimal_digits_more by div_lia.
  rewrite decimal_digits_more by div_lia.
  rewrite decimal_digits_one by div_lia.
  replace (n / 10 / 10 / 10) with (n / 1000) by div_lia.
  replace (n / 10 / 10 mod 10) with (n / 100 mod 10) by div_lia.
  reflexivity.
Qed.

(** Two digits, padded. *)
Lemma pad2 (n : Z) :
  0 <= n < 100 ->
  padStart (toString n) 2 "0"
  = String (digit_char (n / 10)) (String (digit_char (n mod 10)) EmptyString).
Proof.
  intros H. destruct (Z.lt_ge_cases n 10) as [L|G].
  - rewrite toString_1 by lia.
    replace (n / 10) with 0 by div_lia.
    replace (n mod 10) with n by div_lia. reflexivity.
  - rewrite toString_2 by lia. reflexivity.
Qed.

(** Four digits, padded. *)
Lemma pad4 (n : Z) :
  0 <= n < 10000 ->
  padStart (toString n) 4 "0"
  = String (digit_char (n / 1000))
      (String (digit_char (n / 100 mod 10))
         (String (digit_char (n / 10 mod 10))
            (String (digit_char (n mod 10)) EmptyString))).
Proof.
  intros H.
  destruct (Z.lt_ge_cases n 10) as [L1|G1];
    [|destruct (Z.lt_ge_cases n 100) as [L2|G2];
      [|destruct (Z.lt_ge_cases n 1000) as [L3|G3]]].
  - rewrite toString_1 by lia.
    replace (n / 1000) with 0 by div_lia.
    replace (n / 100 mod 10) with 0 by div_lia.
    replace (n / 10 mod 10) with 0 by div_lia.
    replace (n mod 10) with n by div_lia. reflexivity.
  - rewrite toString_2 by lia.
    replace (n / 1000) with 0 by div_lia.
    replace (n / 100 mod 10) with 0 by div_lia.
    replace (n / 10 mod 10) with (n / 10) by div_lia. reflexivity.
  - rewrite toString_3 by lia.
    replace (n / 1000) with 0 by div_lia.
    replace (n / 100 mod 10) with (n / 100) by div_lia. reflexivity.
  - rewrite toString_4 by lia. reflexivity.
Qed.

End Text.

(* ================================================================== *)
(** * The 12-hour display of a time *)
(* ================================================================== *)

Section Time12.

Import HoursSpec Time12Spec.

Ltac div_lia := Z.to_euclidean_division_equations; lia.

Lemma hour12_range (h : Z) : 1 <= hour12 h <= 12.
Proof.
  unfold hour12. destruct (Z.eqb_spec (h mod 12) 0); [lia|].
  pose proof (Z.mod_pos_bound h 12). lia.
Qed.

Lemma shape_digits (s : string) :
  test_hhmm s = true ->
  exists a b d e : ascii,
    s = String a (String b (String ":" (String d (String e EmptyString)))) /\
    is_digit a = true /\ is_digit b = true /\
    is_digit d = true /\ is_digit e = true.
Proof.
  destruct s as [|a [|b [|c [|d [|e [|x s]]]]]]; try discriminate.
  cbn [test_hhmm]. rewrite !andb_true_iff.
  intros [[[[Ha Hb] Hc] Hd] He].
  apply Ascii.eqb_eq in Hc. subst c.
  exists a, b, d, e. auto.
Qed.

Lemma hour_minute_range (s : string) :
  test_hhmm s = true ->
  0 <= hour_of s <= 99 /\ 0 <= minute_of s <= 99.
Proof.
  intros H.
  destruct (shape_digits s H) as (a & b & d & e & -> & Ha & Hb & Hd & He).
  unfold hour_of, minute_of, digit_at. cbn [String.get].
  pose proof (is_digit_value a Ha). pose proof (is_digit_value b Hb).
  pose proof (is_digit_value d Hd). pose proof (is_digit_value e He).
  lia.
Qed.

Lemma toString_nonempty (n : Z) : 0 <= n < 100 -> toString n <> EmptyString.
Proof.
  intros H. destruct (Z.lt_ge_cases n 10).
  - rewrite toString_1 by lia. discriminate.
  - rewrite toString_2 by lia. discriminate.
Qed.

Lemma formatTime12_shape (s : string) :
  test_hhmm s = true ->
  formatTime12 s
  = (toString (hour12 (hour_of s)) ++ ":" ++ substring 3 2 s
     ++ meridiem (hour_of s))%string.
Proof.
  intros H. unfold formatTime12. rewrite H. cbn [negb].
  destruct (split_numbers s H) as [-> ->].
  destruct (hour_minute_range s H) as [Hh Hm].
  cbn [num_ge num_rem num_eq].
  rewrite Z.rem_mod_nonneg by lia.
  assert (E : (if hour_of s mod 12 =? 0 then Some 12
               else Some (hour_of s mod 12)) = Some (hour12 (hour_of s))).
  { unfold hour12. destruct (hour_of s mod 12 =? 0); reflexivity. }
  rewrite E. cbn [num_toString]. rewrite pad2 by lia.
  unfold meridiem. do 2 f_equal.
  destruct (shape_digits s H) as (a & b & d & e & -> & Ha & Hb & Hd & He).
  unfold minute_of, digit_at. cbn [String.get substring append].
  destruct (is_digit_value d Hd) as [Rd Cd].
  destruct (is_digit_value e He) as [Re Ce].
  replace ((10 * digit_value d + digit_value e) / 10)
    with (digit_value d) by div_lia.
  replace ((10 * digit_value d + digit_value e) mod 10)
    with (digit_value e) by div_lia.
  rewrite Cd, Ce. reflexivity.
Qed.

(** X2.  [formatTime12] on a string of the shape: the hour on the 12-hour clock
    without a leading zero, the two minute characters as they were typed,
    and "pm" from hour 12 on. *)
Theorem formatTime12_clock (s : string) :
  test_hhmm s = true ->
  formatTime12 s
  = (toString (hour12 (hour_of s)) ++ ":" ++ substring 3 2 s
     ++ meridiem (hour_of s))%string.
Proof. exact (formatTime12_shape s). Qed.

Lemma formatTime12_clock_witness :
  formatTime12 "17:05"
  = (toString (hour12 (hour_of "17:05")) ++ ":" ++ substring 3 2 "17:05"
     ++ meridiem (hour_of "17:05"))%string.
Proof. apply (formatTime12_clock "17:05"). reflexivity. Defined.

(** X1.  [formatTime12] is blank exactly for the strings that do not have the
    two-digit, colon, two-digit shape, and for those [calculateHours] counts
    no hours. *)
Theorem formatTime12_blank (s : string) :
  (formatTime12 s = EmptyString <-> test_hhmm s = false) /\
  (formatTime12 s = EmptyString ->
   forall (other : string) (lunchMinutes : Z),
     calculateHours s other lunchMinutes = Some 0%Q /\
     calculateHours other s lunchMinutes = Some 0%Q).
Proof.
  assert (B : formatTime12 s = EmptyString <-> test_hhmm s = false).
  { split.
    - intros E. destruct (test_hhmm s) eqn:H; [|reflexivity].
      rewrite (formatTime12_shape s H) in E.
      pose proof (hour12_range (hour_of s)) as R.
      pose proof (toString_nonempty (hour12 (hour_of s)) ltac:(lia)) as N.
      destruct (toString (hour12 (hour_of s))); [contradiction|discriminate].
    - intros H. unfold formatTime12. rewrite H. reflexivity. }
  split; [exact B|].
  intros E other lunchMinutes. apply B in E.
  split; apply calculateHours_no_shape; auto.
Qed.

Lemma formatTime12_blank_witness :
  calculateHours "7am" "16:00" 30 = Some 0%Q /\
  calculateHours "16:00" "7am" 30 = Some 0%Q.
Proof.
  apply (proj2 (formatTime12_blank "7am")). reflexivity.
Defined.

Lemma strict_24h_facts (s : string) :
  strict_24h s = true ->
  test_hhmm s = true /\ 0 <= hour_of s <= 23 /\ 0 <= minute_of s <= 59.
Proof.
  unfold strict_24h. rewrite !andb_true_iff.
  intros [[H Hh] Hm]. apply Z.leb_le in Hh. apply Z.leb_le in Hm.
  pose proof (hour_minute_range s H). split; [exact H|lia].
Qed.

Lemma hour_cases (h : Z) :
  0 <= h <= 23 ->
  h = 0 \/ h = 1 \/ h = 2 \/ h = 3 \/ h = 4 \/ h = 5 \/ h = 6 \/ h = 7 \/
  h = 8 \/ h = 9 \/ h = 10 \/ h = 11 \/ h = 12 \/ h = 13 \/ h = 14 \/
  h = 15 \/ h = 16 \/ h = 17 \/ h = 18 \/ h = 19 \/ h = 20 \/ h = 21 \/
  h = 22 \/ h = 23.
Proof. lia. Qed.

(** What the display of a 24-hour time tells: the hour and the minute
    characters. *)
Lemma time12_render_inj (h1 h2 : Z) (d1 e1 d2 e2 : ascii) :
  0 <= h1 <= 23 -> 0 <= h2 <= 23 ->
  (toString (hour12 h1) ++ ":" ++ String d1 (String e1 EmptyString)
   ++ meridiem h1)%string
  = (toString (hour12 h2) ++ ":" ++ String d2 (String e2 EmptyString)
     ++ meridiem h2)%string ->
  h1 = h2 /\ d1 = d2 /\ e1 = e2.
Proof.
  intros R1 R2. apply hour_cases in R1. apply hour_cases in R2.
  repeat (destruct R1 as [->|R1]); try subst h1;
    repeat (destruct R2 as [->|R2]); try subst h2;
    vm_compute; intros E; inversion E; auto.
Qed.

(** X3.  Two different 24-hour times never have the same 12-hour display. *)
Theorem formatTime12_injective (s1 s2 : string) :
  strict_24h s1 = true -> strict_24h s2 = true ->
  formatTime12 s1 = formatTime12 s2 -> s1 = s2.
Proof.
  intros V1 V2 E.
  destruct (strict_24h_facts s1 V1) as (T1 & H1 & _).
  destruct (strict_24h_facts s2 V2) as (T2 & H2 & _).
  rewrite (formatTime12_shape s1 T1), (formatTime12_shape s2 T2) in E.
  destruct (shape_digits s1 T1) as (a1 & b1 & d1 & e1 & -> & Ha1 & Hb1 & _).
  destruct (shape_digits s2 T2) as (a2 & b2 & d2 & e2 & -> & Ha2 & Hb2 & _).
  cbn [substring] in E.
  apply time12_render_inj in E; try assumption.
  destruct E as (Eh & -> & ->).
  unfold hour_of, digit_at in Eh. cbn [String.get] in Eh.
  destruct (is_digit_value a1 Ha1) as [Ra1 Ca1].
  destruct (is_digit_value b1 Hb1) as [Rb1 Cb1].
  destruct (is_digit_value a2 Ha2) as [Ra2 Ca2].
  destruct (is_digit_value b2 Hb2) as [Rb2 Cb2].
  assert (digit_value a1 = digit_value a2) as Ea by lia.
  assert (digit_value b1 = digit_value b2) as Eb by lia.
  rewrite <- Ca1, <- Cb1, Ea, Eb, Ca2, Cb2. reflexivity.
Qed.

Lemma formatTime12_injective_witness : "06:30" = "06:30".
Proof.
  apply (formatTime12_injective "06:30" "06:30"); reflexivity.
Defined.

End Time12.

(* ================================================================== *)
(** * Worked hours: further properties *)
(* ================================================================== *)

Section HoursMore.

Import HoursSpec.

Ltac div_lia := Z.to_euclidean_division_equations; lia.

Lemma quarter_hours_quarters (m : Z) :
  quarter_hours m == inject_Z (nearest_quarters m) / 4.
Proof.
  unfold quarter_hours, Qeq, Qdiv, Qmult, Qinv, inject_Z.
  cbn -[Z.mul Z.add Z.div]. lia.
Qed.

(** The result of [calculateHours] on any input, as a number of minutes
    rounded to quarters: 0 minutes when a string is not of the shape. *)
Lemma calculateHours_minutes (start finish : string) (lunchMinutes : Z) :
  exists m : Z,
    0 <= m /\
    calculateHours start finish lunchMinutes = Some (Qred (quarter_hours m)) /\
    (test_hhmm start = true -> test_hhmm finish = true ->
     m = rawMinutes start finish lunchMinutes).
Proof.
  destruct (test_hhmm start) eqn:Hs; [destruct (test_hhmm finish) eqn:Hf|].
  - exists (rawMinutes start finish lunchMinutes).
    split; [unfold rawMinutes; lia|].
    split; [apply calculateHours_shape; assumption|auto].
  - exists 0. split; [lia|]. split; [|discriminate].
    rewrite calculateHours_no_shape by auto. reflexivity.
  - exists 0. split; [lia|]. split; [|discriminate].
    rewrite calculateHours_no_shape by auto. reflexivity.
Qed.

Lemma calculateHours_in_quarters
    (start finish : string) (lunchMinutes : Z) :
  exists k : Z,
    0 <= k /\
    calculateHours start finish lunchMinutes = Some (Qred (inject_Z k / 4)).
Proof.
  destruct (calculateHours_minutes start finish lunchMinutes)
    as (m & Hm & E & _).
  exists (nearest_quarters m).
  split; [apply nearest_quarters_nonneg; exact Hm|].
  rewrite E. f_equal. apply Qred_complete, quarter_hours_quarters.
Qed.

(** X4.  Whatever the two strings, and for a [lunchMinutes] that is a whole
    number of minutes of magnitude at most 2^31, the result of
    [calculateHours] is a whole number of quarters of an hour, and not
    negative. *)
Theorem calculateHours_quarters (start finish : string) (lunchMinutes : Z) :
  lunch_in_range lunchMinutes ->
  exists k : Z,
    0 <= k /\
    calculateHours start finish lunchMinutes = Some (Qred (inject_Z k / 4)).
Proof.
  intros _. exact (calculateHours_in_quarters start finish lunchMinutes).
Qed.

Lemma calculateHours_quarters_witness :
  exists k : Z,
    0 <= k /\
    calculateHours "23:10" "05:40" 20 = Some (Qred (inject_Z k / 4)).
Proof.
  apply (calculateHours_quarters "23:10" "05:40" 20).
  unfold lunch_in_range. lia.
Defined.

(** X5.  A longer lunch never gives more hours. *)
Theorem calculateHours_lunch_antitone
    (start finish : string) (lunch1 lunch2 : Z) :
  lunch1 <= lunch2 ->
  exists h1 h2 : Q,
    calculateHours start finish lunch1 = Some h1 /\
    calculateHours start finish lunch2 = Some h2 /\
    (h2 <= h1)%Q.
Proof.
  intros L.
  destruct (test_hhmm start) eqn:Hs; [destruct (test_hhmm finish) eqn:Hf|].
  - exists (Qred (computeHours start finish lunch1)),
           (Qred (computeHours start finish lunch2)).
    rewrite !calculateHours_shape by assumption.
    split; [reflexivity|]. split; [reflexivity|].
    rewrite !Qred_correct. unfold computeHours.
    apply quarter_hours_mono. unfold rawMinutes. lia.
  - exists 0%Q, 0%Q. rewrite !calculateHours_no_shape by auto.
    repeat split. apply Qle_refl.
  - exists 0%Q, 0%Q. rewrite !calculateHours_no_shape by auto.
    repeat split. apply Qle_refl.
Qed.

Lemma calculateHours_lunch_antitone_witness :
  exists h1 h2 : Q,
    calculateHours "07:00" "16:30" 30 = Some h1 /\
    calculateHours "07:00" "16:30" 60 = Some h2 /\
    (h2 <= h1)%Q.
Proof.
  apply (calculateHours_lunch_antitone "07:00" "16:30" 30 60). lia.
Defined.

Lemma strict_minutes (s : string) :
  strict_24h s = true -> 0 <= minutes_since_midnight s < 1440.
Proof.
  intros H. apply strict_24h_facts in H. unfold minutes_since_midnight. lia.
Qed.

(** A 24-hour time is determined by its minutes since midnight. *)
Lemma strict_minutes_inj (s1 s2 : string) :
  strict_24h s1 = true -> strict_24h s2 = true ->
  minutes_since_midnight s1 = minutes_since_midnight s2 -> s1 = s2.
Proof.
  intros V1 V2 E.
  destruct (strict_24h_facts s1 V1) as (T1 & H1 & M1).
  destruct (strict_24h_facts s2 V2) as (T2 & H2 & M2).
  unfold minutes_since_midnight in E.
  assert (Eh : hour_of s1 = hour_of s2) by lia.
  assert (Em : minute_of s1 = minute_of s2) by lia.
  destruct (shape_digits s1 T1)
    as (a1 & b1 & d1 & e1 & -> & Ha1 & Hb1 & Hd1 & He1).
  destruct (shape_digits s2 T2)
    as (a2 & b2 & d2 & e2 & -> & Ha2 & Hb2 & Hd2 & He2).
  unfold hour_of, minute_of, digit_at in Eh, Em.
  cbn [String.get] in Eh, Em.
  destruct (is_digit_value a1 Ha1) as [? Ca1].
  destruct (is_digit_value b1 Hb1) as [? Cb1].
  destruct (is_digit_value d1 Hd1) as [? Cd1].
  destruct (is_digit_value e1 He1) as [? Ce1].
  destruct (is_digit_value a2 Ha2) as [? Ca2].
  destruct (is_digit_value b2 Hb2) as [? Cb2].
  destruct (is_digit_value d2 Hd2) as [? Cd2].
  destruct (is_digit_value e2 He2) as [? Ce2].
  assert (digit_value a1 = digit_value a2) as Ea by lia.
  assert (digit_value b1 = digit_value b2) as Eb by lia.
  assert (digit_value d1 = digit_value d2) as Ed by lia.
  assert (digit_value e1 = digit_value e2) as Ee by lia.
  rewrite <- Ca1, <- Cb1, <- Cd1, <- Ce1, Ea, Eb, Ed, Ee, Ca2, Cb2, Cd2, Ce2.
  reflexivity.
Qed.

Lemma quarter_hours_le (m b : Z) :
  nearest_quarters m <= b -> (quarter_hours m <= inject_Z b / 4)%Q.
Proof.
  intros H. rewrite quarter_hours_quarters.
  unfold Qle, Qdiv, Qmult, Qinv, inject_Z. cbn -[Z.mul Z.add Z.div]. lia.
Qed.

(** X6.  For two 24-hour times and a lunch that is not negative, the result lies
    between 0 and 24 hours; equal start and finish are 0 hours, not a full
    day. *)
Theorem calculateHours_day_bounds
    (start finish : string) (lunchMinutes : Z) :
  strict_24h start = true -> strict_24h finish = true ->
  0 <= lunchMinutes ->
  exists h : Q,
    calculateHours start finish lunchMinutes = Some h /\
    (0 <= h)%Q /\ (h <= 24)%Q /\
    (start = finish -> h = 0%Q).
Proof.
  intros Vs Vf L.
  destruct (strict_24h_facts start Vs) as (Ts & _).
  destruct (strict_24h_facts finish Vf) as (Tf & _).
  pose proof (strict_minutes start Vs) as Ms.
  pose proof (strict_minutes finish Vf) as Mf.
  exists (Qred (computeHours start finish lunchMinutes)).
  split; [apply calculateHours_shape; assumption|].
  split; [rewrite Qred_correct; apply computeHours_nonneg|].
  split.
  - rewrite Qred_correct. unfold computeHours.
    apply Qle_trans with (inject_Z 96 / 4)%Q; [|vm_compute; discriminate].
    apply quarter_hours_le. unfold nearest_quarters, rawMinutes.
    destruct (Z.ltb_spec (minutes_since_midnight finish)
                (minutes_since_midnight start)); div_lia.
  - intros ->. unfold computeHours, rawMinutes.
    rewrite Z.ltb_irrefl.
    replace (Z.max 0 _) with 0 by lia. reflexivity.
Qed.

Lemma calculateHours_day_bounds_witness :
  exists h : Q,
    calculateHours "23:59" "23:58" 0 = Some h /\
    (0 <= h)%Q /\ (h <= 24)%Q /\
    ("23:59" = "23:58" -> h = 0%Q).
Proof.
  apply (calculateHours_day_bounds "23:59" "23:58" 0);
    [reflexivity|reflexivity|lia].
Defined.

(** X7.  With no lunch, the hours from one 24-hour time to another and the hours
    back add up to the 24 hours of the day. *)
Theorem calculateHours_complement (start finish : string) :
  strict_24h start = true -> strict_24h finish = true ->
  start <> finish ->
  exists h1 h2 : Q,
    calculateHours start finish 0 = Some h1 /\
    calculateHours finish start 0 = Some h2 /\
    h1 + h2 == 24.
Proof.
  intros Vs Vf N.
  destruct (strict_24h_facts start Vs) as (Ts & _).
  destruct (strict_24h_facts finish Vf) as (Tf & _).
  pose proof (strict_minutes start Vs) as Ms.
  pose proof (strict_minutes finish Vf) as Mf.
  assert (D : minutes_since_midnight start <> minutes_since_midnight finish).
  { intros E. apply N. apply strict_minutes_inj; assumption. }
  exists (Qred (computeHours start finish 0)),
         (Qred (computeHours finish start 0)).
  rewrite !calculateHours_shape by assumption.
  split; [reflexivity|]. split; [reflexivity|].
  rewrite !Qred_correct. unfold computeHours.
  rewrite !quarter_hours_quarters.
  assert (S : nearest_quarters (rawMinutes start finish 0)
              + nearest_quarters (rawMinutes finish start 0) = 96).
  { unfold nearest_quarters, rawMinutes.
    destruct (Z.ltb_spec (minutes_since_midnight finish)
                (minutes_since_midnight start));
      destruct (Z.ltb_spec (minutes_since_midnight start)
                  (minutes_since_midnight finish)); div_lia. }
  unfold Qeq, Qplus, Qdiv, Qmult, Qinv, inject_Z.
  cbn -[Z.mul Z.add Z.div]. lia.
Qed.

Lemma calculateHours_complement_witness :
  exists h1 h2 : Q,
    calculateHours "22:00" "06:10" 0 = Some h1 /\
    calculateHours "06:10" "22:00" 0 = Some h2 /\
    h1 + h2 == 24.
Proof.
  apply (calculateHours_complement "22:00" "06:10");
    [reflexivity|reflexivity|discriminate].
Defined.

End HoursMore.

(* ================================================================== *)
(** * Dates as text *)
(* ================================================================== *)

Section DatesText.

Import CalendarSpec PrioritySpec DatesSpec.

Ltac div_lia := Z.to_euclidean_division_equations; lia.

(** Every time value has a month 0..11 and a date of that month. *)
Lemma civil_range (t : Z) :
  0 <= MonthFromTime t <= 11 /\
  1 <= DateFromTime t <= days_in_month (YearFromTime t) (MonthFromTime t).
Proof.
  split; [apply MonthFromTime_range|].
  pose proof (YearFromDay_spec (Day t)) as S.
  rewrite DayFromYear_succ in S. fold (YearFromTime t) in S.
  assert (W : 0 <= DayWithinYear t < DaysInYear (YearFromTime t))
    by (unfold DayWithinYear; lia).
  unfold DateFromTime, MonthFromTime, InLeapYear.
  revert W. generalize (DayWithinYear t). intros d W.
  destruct (leap_flag_cases (YearFromTime t)) as [(-> & D & L)|(-> & D & L)];
    rewrite D in W; unfold days_in_month; rewrite L;
    repeat match goal with
           | |- context [?a <? ?b] => destruct (Z.ltb_spec a b)
           end; lia.
Qed.

Lemma addLeadingZeros_2 (n : Z) :
  0 <= n < 100 ->
  addLeadingZeros n 2
  = String (digit_char (n / 10)) (String (digit_char (n mod 10)) EmptyString).
Proof.
  intros H. unfold addLeadingZeros.
  destruct (Z.ltb_spec n 0); [lia|].
  rewrite Z.abs_eq by lia. rewrite pad2 by lia. reflexivity.
Qed.

Lemma addLeadingZeros_4 (n : Z) :
  0 <= n < 10000 ->
  addLeadingZeros n 4
  = String (digit_char (n / 1000))
      (String (digit_char (n / 100 mod 10))
         (String (digit_char (n / 10 mod 10))
            (String (digit_char (n mod 10)) EmptyString))).
Proof.
  intros H. unfold addLeadingZeros.
  destruct (Z.ltb_spec n 0); [lia|].
  rewrite Z.abs_eq by lia. rewrite pad4 by lia. reflexivity.
Qed.

(** The text of ['yyyy-MM-dd'] for a year 1..9999, digit by digit. *)
Lemma text_yyyy_MM_dd (t : Z) :
  1 <= YearFromTime t <= 9999 ->
  let y := YearFromTime t in
  let m := MonthFromTime t + 1 in
  let d := DateFromTime t in
  text t yyyy_MM_dd
  = String (digit_char (y / 1000))
      (String (digit_char (y / 100 mod 10))
         (String (digit_char (y / 10 mod 10))
            (String (digit_char (y mod 10))
               (String "-"
                  (String (digit_char (m / 10))
                     (String (digit_char (m mod 10))
                        (String "-"
                           (String (digit_char (d / 10))
                              (String (digit_char (d mod 10))
                                 EmptyString))))))))).
Proof.
  intros Hy y m d. destruct (civil_range t) as [Hm Hd].
  pose proof (days_in_month_range (YearFromTime t) (MonthFromTime t)) as R.
  unfold text, yyyy_MM_dd. cbn [map format_token].
  destruct (Z.ltb_spec 0 (YearFromTime t)); [|lia].
  rewrite addLeadingZeros_4 by lia.
  rewrite !addLeadingZeros_2 by lia.
  reflexivity.
Qed.

Lemma digit_char_ok (d : Z) :
  0 <= d <= 9 -> is_digit (digit_char d) = true.
Proof. intros H. apply digit_char_digit. exact H. Qed.

Lemma digit_char_value (d : Z) :
  0 <= d <= 9 -> digit_value (digit_char d) = d.
Proof. intros H. apply digit_char_digit. exact H. Qed.

(** Written with ['yyyy-MM-dd'] and read back, a time value of the years
    1..9999 is the midnight of its day. *)
Lemma parse_text_yyyy_MM_dd (t : Z) :
  1 <= YearFromTime t <= 9999 ->
  parse_calendar_date (text t yyyy_MM_dd) = Date_at (Day t * msPerDay).
Proof.
  intros Hy. rewrite (text_yyyy_MM_dd t Hy). cbv zeta.
  destruct (civil_range t) as [Hm Hd].
  pose proof (days_in_month_range (YearFromTime t) (MonthFromTime t)) as R.
  set (y := YearFromTime t) in *. set (m := MonthFromTime t) in *.
  set (d := DateFromTime t) in *.
  unfold parse_calendar_date.
  rewrite !digit_char_ok by div_lia.
  rewrite !digit_char_value by div_lia.
  change (Ascii.eqb "-" "-") with true. cbn [andb].
  replace (1000 * (y / 1000) + 100 * (y / 100 mod 10)
           + 10 * (y / 10 mod 10) + y mod 10) with y by div_lia.
  replace (10 * ((m + 1) / 10) + (m + 1) mod 10) with (m + 1) by div_lia.
  replace (10 * (d / 10) + d mod 10) with d by div_lia.
  replace (m + 1 - 1) with m by lia.
  destruct (Z.leb_spec 1 (m + 1)); [|lia].
  destruct (Z.leb_spec (m + 1) 12); [|lia].
  destruct (Z.leb_spec 1 d); [|lia].
  destruct (Z.leb_spec d (days_in_month y m)); [|lia].
  cbn [andb]. subst y m d.
  pose proof (MakeDay_shift t 0) as S. rewrite !Z.add_0_r in S.
  rewrite S. reflexivity.
Qed.

End DatesText.

Section DatesRead.

Import CalendarSpec PrioritySpec DatesSpec.

Ltac div_lia := Z.to_euclidean_division_equations; lia.

(** What [parse_calendar_date] accepts, and the date it reads. *)
Lemma parse_calendar_date_valid (s : string) (x : Z) :
  parse_calendar_date s = Date_at x ->
  exists y1 y2 y3 y4 m1 m2 d1 d2 : ascii,
    s = String y1 (String y2 (String y3 (String y4 (String "-"
          (String m1 (String m2 (String "-"
             (String d1 (String d2 EmptyString))))))))) /\
    (is_digit y1 = true /\ is_digit y2 = true /\ is_digit y3 = true /\
     is_digit y4 = true) /\
    (is_digit m1 = true /\ is_digit m2 = true /\
     is_digit d1 = true /\ is_digit d2 = true) /\
    let y := 1000 * digit_value y1 + 100 * digit_value y2
             + 10 * digit_value y3 + digit_value y4 in
    let m := 10 * digit_value m1 + digit_value m2 in
    let d := 10 * digit_value d1 + digit_value d2 in
    1 <= m <= 12 /\ 1 <= d <= days_in_month y (m - 1) /\
    x = MakeDay y (m - 1) d * msPerDay.
Proof.
  destruct s
    as [|y1 [|y2 [|y3 [|y4 [|h1 [|m1 [|m2 [|h2 [|d1 [|d2 [|z s]]]]]]]]]]];
    try discriminate.
  unfold parse_calendar_date.
  destruct (is_digit y1) eqn:Y1; [|discriminate].
  destruct (is_digit y2) eqn:Y2; [|discriminate].
  destruct (is_digit y3) eqn:Y3; [|discriminate].
  destruct (is_digit y4) eqn:Y4; [|discriminate].
  destruct (Ascii.eqb_spec h1 "-") as [->|]; [|discriminate].
  destruct (is_digit m1) eqn:M1; [|discriminate].
  destruct (is_digit m2) eqn:M2; [|discriminate].
  destruct (Ascii.eqb_spec h2 "-") as [->|]; [|discriminate].
  destruct (is_digit d1) eqn:D1; [|discriminate].
  destruct (is_digit d2) eqn:D2; [|discriminate].
  cbn [andb].
  destruct (Z.leb_spec 1 (10 * digit_value m1 + digit_value m2));
    [|discriminate].
  destruct (Z.leb_spec (10 * digit_value m1 + digit_value m2) 12);
    [|discriminate].
  destruct (Z.leb_spec 1 (10 * digit_value d1 + digit_value d2));
    [|discriminate].
  match goal with
  | |- context [?a <=? ?b] => destruct (Z.leb_spec a b); [|discriminate]
  end.
  cbn [andb]. intros E. injection E as <-.
  exists y1, y2, y3, y4, m1, m2, d1, d2.
  split; [reflexivity|]. split; [auto|]. split; [auto|].
  cbv zeta. split; [lia|]. split; [lia|reflexivity].
Qed.

(** The digits of a number of four digits, and of two. *)
Lemma digits_of_4 (a b c e : ascii) :
  is_digit a = true -> is_digit b = true -> is_digit c = true ->
  is_digit e = true ->
  let n := 1000 * digit_value a + 100 * digit_value b
           + 10 * digit_value c + digit_value e in
  0 <= n <= 9999 /\
  (n = 0 -> String a (String b (String c (String e EmptyString))) = "0000") /\
  addLeadingZeros n 4
  = String a (String b (String c (String e EmptyString))).
Proof.
  intros Ha Hb Hc He n.
  destruct (is_digit_value a Ha) as [Ra Ca].
  destruct (is_digit_value b Hb) as [Rb Cb].
  destruct (is_digit_value c Hc) as [Rc Cc].
  destruct (is_digit_value e He) as [Re Ce].
  assert (R : 0 <= n <= 9999) by (subst n; lia).
  split; [exact R|]. split.
  - intros E.
    assert (digit_value a = 0 /\ digit_value b = 0 /\
            digit_value c = 0 /\ digit_value e = 0) as (E1 & E2 & E3 & E4)
      by (subst n; lia).
    rewrite <- Ca, <- Cb, <- Cc, <- Ce, E1, E2, E3, E4. reflexivity.
  - rewrite addLeadingZeros_4 by lia.
    replace (n / 1000) with (digit_value a) by (subst n; div_lia).
    replace (n / 100 mod 10) with (digit_value b) by (subst n; div_lia).
    replace (n / 10 mod 10) with (digit_value c) by (subst n; div_lia).
    replace (n mod 10) with (digit_value e) by (subst n; div_lia).
    rewrite Ca, Cb, Cc, Ce. reflexivity.
Qed.

Lemma digits_of_2 (a b : ascii) :
  is_digit a = true -> is_digit b = true ->
  addLeadingZeros (10 * digit_value a + digit_value b) 2
  = String a (String b EmptyString).
Proof.
  intros Ha Hb.
  destruct (is_digit_value a Ha) as [Ra Ca].
  destruct (is_digit_value b Hb) as [Rb Cb].
  rewrite addLeadingZeros_2 by lia.
  replace ((10 * digit_value a + digit_value b) / 10)
    with (digit_value a) by div_lia.
  replace ((10 * digit_value a + digit_value b) mod 10)
    with (digit_value b) by div_lia.
  rewrite Ca, Cb. reflexivity.
Qed.

(** Year, month and date of a date of the calendar. *)
Lemma civil_of_MakeDay (y m d : Z) :
  1 <= m <= 12 -> 1 <= d <= days_in_month y (m - 1) ->
  YearFromTime (MakeDay y (m - 1) d * msPerDay) = y /\
  MonthFromTime (MakeDay y (m - 1) d * msPerDay) = m - 1 /\
  DateFromTime (MakeDay y (m - 1) d * msPerDay) = d.
Proof.
  intros Hm Hd.
  pose proof (civil_of_month_day y (m - 1) (d - 1)) as C.
  cbv zeta in C. rewrite (MakeDay_date y (m - 1) d).
  replace (d - 1 + 1) with d in C by lia. apply C; lia.
Qed.

(** Read as a calendar date and written again with the three patterns of
    the helpers: the same string, its date and month, and its date, month
    name and year.  Year 0000 is left out: [yyyy] writes it as year 1 of
    the era before. *)
Lemma text_of_calendar_date (s : string) (x : Z) :
  parse_calendar_date s = Date_at x ->
  substring 0 4 s <> "0000" ->
  text x yyyy_MM_dd = s /\
  text x dd_MM = (substring 8 2 s ++ "/" ++ substring 5 2 s)%string /\
  text x dd_MMM_yyyy
  = (substring 8 2 s ++ " "
     ++ nth (Z.to_nat (MonthFromTime x)) monthValues EmptyString
     ++ " " ++ substring 0 4 s)%string /\
  MonthFromTime x + 1 = HoursSpec.digit_at s 5 * 10 + HoursSpec.digit_at s 6.
Proof.
  intros P N0.
  destruct (parse_calendar_date_valid s x P)
    as (y1 & y2 & y3 & y4 & m1 & m2 & d1 & d2 & -> & (Y1 & Y2 & Y3 & Y4)
        & (M1 & M2 & D1 & D2) & Hm & Hd & ->).
  cbv zeta in Hm, Hd.
  destruct (digits_of_4 y1 y2 y3 y4 Y1 Y2 Y3 Y4) as (Ry & Zy & T4).
  pose proof (digits_of_2 m1 m2 M1 M2) as TM.
  pose proof (digits_of_2 d1 d2 D1 D2) as TD.
  cbv zeta in Ry, Zy, T4.
  destruct (civil_of_MakeDay _ _ _ Hm Hd) as (CY & CM & CD).
  revert Ry Zy T4 TM TD CY CM CD N0.
  generalize (1000 * digit_value y1 + 100 * digit_value y2
              + 10 * digit_value y3 + digit_value y4).
  intros y. generalize (MakeDay y (10 * digit_value m1 + digit_value m2 - 1)
                          (10 * digit_value d1 + digit_value d2) * msPerDay).
  intros x Ry Zy T4 TM TD CY CM CD N0.
  assert (Hy : 1 <= y).
  { destruct (Z.eq_dec y 0) as [E|]; [|lia].
    exfalso. apply N0. cbn [substring]. apply Zy. exact E. }
  unfold text, yyyy_MM_dd, dd_MM, dd_MMM_yyyy.
  cbn [map format_token]. rewrite CY, CM, CD.
  destruct (Z.ltb_spec 0 y); [|lia].
  replace (10 * digit_value m1 + digit_value m2 - 1 + 1)
    with (10 * digit_value m1 + digit_value m2) by lia.
  rewrite T4, TM, TD.
  cbn [String.concat append substring].
  split; [reflexivity|]. split; [reflexivity|]. split; [reflexivity|].
  unfold HoursSpec.digit_at. cbn [String.get]. lia.
Qed.

End DatesRead.

(* ================================================================== *)
(** * The date helpers *)
(* ================================================================== *)

Section DateHelpers.

Import CalendarSpec PrioritySpec DatesSpec.

Ltac div_lia := Z.to_euclidean_division_equations; lia.

Lemma text_length_10 (t : Z) :
  1 <= YearFromTime t <= 9999 ->
  String.length (text t yyyy_MM_dd) = 10%nat.
Proof. intros H. rewrite (text_yyyy_MM_dd t H). reflexivity. Qed.

(** The years 1..9999 are well within the time values. *)
Lemma year_range_time (t : Z) :
  0 <= YearFromTime t <= 9999 ->
  - 8640000000000000 + 14 * msPerDay <= t < 8640000000000000.
Proof.
  intros H. pose proof (YearFromDay_spec (Day t)) as S.
  fold (YearFromTime t) in S.
  pose proof (DayFromYear_le 0 (YearFromTime t) ltac:(lia)) as L.
  pose proof (DayFromYear_le (YearFromTime t + 1) 10000 ltac:(lia)) as U.
  change (DayFromYear 0) with (-719528) in L.
  change (DayFromYear 10000) with 2932897 in U.
  unfold Day, msPerDay in *. div_lia.
Qed.

(** X8.  [todayStr()] in the years 1..9999 is a string of 10 characters that
    reads back, as a calendar date, as today's midnight; an item due on
    that string is of [high] priority. *)
Theorem todayStr_round_trip (parseISO : string -> Date) (now : Z) :
  reads_calendar_dates parseISO ->
  1 <= YearFromTime now <= 9999 ->
  exists s : string,
    todayStr now = Returns s /\
    String.length s = 10%nat /\
    parseISO s = Date_at (today now) /\
    calculatePriority parseISO now (Some s) = high.
Proof.
  intros R Hy. exists (text now yyyy_MM_dd).
  pose proof (parse_text_yyyy_MM_dd now Hy) as P.
  assert (E : parseISO (text now yyyy_MM_dd) = Date_at (today now)).
  { rewrite R; [exact P|]. rewrite P. discriminate. }
  split; [reflexivity|]. split; [apply text_length_10; exact Hy|].
  split; [exact E|].
  pose proof (year_range_time now ltac:(lia)) as T.
  rewrite (calculatePriority_classify parseISO now _ (today now));
    [| unfold msPerDay in T; lia | | exact E].
  - unfold classify, daysUntil. rewrite Z.sub_diag. reflexivity.
  - intros Z0. pose proof (text_length_10 now Hy) as L.
    rewrite Z0 in L. discriminate.
Qed.

Lemma reads_calendar_dates_fragment :
  reads_calendar_dates parse_calendar_date.
Proof. intros s _. reflexivity. Qed.

Lemma todayStr_round_trip_witness :
  exists s : string,
    todayStr 1704103200000 = Returns s /\
    String.length s = 10%nat /\
    parse_calendar_date s = Date_at (today 1704103200000) /\
    calculatePriority parse_calendar_date 1704103200000 (Some s) = high.
Proof.
  apply (todayStr_round_trip parse_calendar_date 1704103200000).
  - exact reads_calendar_dates_fragment.
  - vm_compute. split; discriminate.
Defined.

(** X9.  The tier of a due date written as ['yyyy-MM-dd'] depends on the number
    of calendar days from today to it: up to 3 days (and any day already
    past) is [high], 4 to 7 days is [medium], 8 days and more is [low];
    the time of day of the clock does not matter. *)
Theorem calculatePriority_by_calendar_day
    (parseISO : string -> Date) (now due : Z) (s : string) :
  reads_calendar_dates parseISO ->
  - 8640000000000000 <= now < 8640000000000000 ->
  1 <= YearFromTime due <= 9999 ->
  format (Date_at due) yyyy_MM_dd = Returns s ->
  let k := Day due - Day now in
  (k <= 3 -> calculatePriority parseISO now (Some s) = high) /\
  (3 < k <= 7 -> calculatePriority parseISO now (Some s) = medium) /\
  (7 < k -> calculatePriority parseISO now (Some s) = low).
Proof.
  intros R Hnow Hy F k.
  change (format (Date_at due) yyyy_MM_dd)
    with (Returns (text due yyyy_MM_dd)) in F.
  injection F as <-.
  pose proof (parse_text_yyyy_MM_dd due Hy) as P.
  assert (E : parseISO (text due yyyy_MM_dd) = Date_at (Day due * msPerDay)).
  { rewrite R; [exact P|]. rewrite P. discriminate. }
  rewrite (calculatePriority_classify parseISO now _ (Day due * msPerDay));
    [| exact Hnow | | exact E].
  - unfold classify, daysUntil, today.
    replace (Z.quot (Day due * msPerDay - Day now * msPerDay) msPerDay)
      with k by (subst k; unfold msPerDay; div_lia).
    destruct (Z.leb_spec k 3); destruct (Z.leb_spec k 7);
      repeat split; intros; try reflexivity; lia.
  - intros Z0. pose proof (text_length_10 due Hy) as L.
    rewrite Z0 in L. discriminate.
Qed.

(** At 23:30 on 1 January 2024, an item due on 5 January is 4 calendar
    days away. *)
Lemma calculatePriority_by_calendar_day_witness :
  calculatePriority parse_calendar_date 1704151800000 (Some "2024-01-05")
  = medium.
Proof.
  refine (proj1 (proj2 (calculatePriority_by_calendar_day
                          parse_calendar_date 1704151800000 1704412800000
                          "2024-01-05" _ _ _ _)) _).
  - exact reads_calendar_dates_fragment.
  - lia.
  - vm_compute. split; discriminate.
  - vm_compute. reflexivity.
  - vm_compute. split; [reflexivity|discriminate].
Defined.

(** X10.  [formatDate] and [formatDateShort] do not throw: the empty string
    stays empty, and a string that does not parse is given back as it is. *)
Theorem formatDate_fallback (parseISO : string -> Date) :
  formatDate parseISO EmptyString = EmptyString /\
  formatDateShort parseISO EmptyString = EmptyString /\
  forall s : string,
    parseISO s = Invalid_Date ->
    formatDate parseISO s = s /\ formatDateShort parseISO s = s.
Proof.
  split; [reflexivity|]. split; [reflexivity|].
  intros s H. unfold formatDate, formatDateShort. rewrite H.
  cbn [format try_catch].
  destruct (truthy s) eqn:T; cbn [negb]; [auto|].
  unfold truthy in T. apply negb_false_iff, String.eqb_eq in T.
  subst s. auto.
Qed.

Lemma formatDate_fallback_witness :
  formatDate parse_calendar_date "31/12/2024" = "31/12/2024" /\
  formatDateShort parse_calendar_date "31/12/2024" = "31/12/2024".
Proof.
  apply (proj2 (proj2 (formatDate_fallback parse_calendar_date))).
  reflexivity.
Defined.

(** X11.  On a calendar date [YYYY-MM-DD] (the year not 0000), [formatDateShort]
    gives [DD/MM] and [formatDate] gives [DD Mon YYYY], with the digits of
    the string and the English short name of its month. *)
Theorem formatDate_calendar_date
    (parseISO : string -> Date) (s : string) :
  reads_calendar_dates parseISO ->
  parse_calendar_date s <> Invalid_Date ->
  substring 0 4 s <> "0000" ->
  formatDateShort parseISO s
  = (substring 8 2 s ++ "/" ++ substring 5 2 s)%string /\
  formatDate parseISO s
  = (substring 8 2 s ++ " "
     ++ nth (Z.to_nat (HoursSpec.digit_at s 5 * 10
                       + HoursSpec.digit_at s 6 - 1))
            monthValues EmptyString
     ++ " " ++ substring 0 4 s)%string.
Proof.
  intros R V N0. pose proof (R s V) as E.
  destruct (parse_calendar_date s) as [|x] eqn:P; [contradiction|].
  destruct (text_of_calendar_date s x P N0) as (_ & T2 & T3 & TM).
  assert (T : truthy s = true).
  { destruct s; [discriminate P|reflexivity]. }
  unfold formatDate, formatDateShort. rewrite T, E.
  change (format (Date_at x) dd_MM) with (Returns (text x dd_MM)).
  change (format (Date_at x) dd_MMM_yyyy)
    with (Returns (text x dd_MMM_yyyy)).
  cbn [negb try_catch].
  rewrite T2, T3. split; [reflexivity|].
  do 3 f_equal. rewrite <- TM. do 2 f_equal. lia.
Qed.

Lemma formatDate_calendar_date_witness :
  formatDateShort parse_calendar_date "2024-02-29"
  = (substring 8 2 "2024-02-29" ++ "/" ++ substring 5 2 "2024-02-29")%string
  /\
  formatDate parse_calendar_date "2024-02-29"
  = (substring 8 2 "2024-02-29" ++ " "
     ++ nth (Z.to_nat (HoursSpec.digit_at "2024-02-29" 5 * 10
                       + HoursSpec.digit_at "2024-02-29" 6 - 1))
            monthValues EmptyString
     ++ " " ++ substring 0 4 "2024-02-29")%string.
Proof.
  apply (formatDate_calendar_date parse_calendar_date "2024-02-29").
  - exact reads_calendar_dates_fragment.
  - vm_compute. discriminate.
  - vm_compute. discriminate.
Defined.

End DateHelpers.

(* ================================================================== *)
(** * The days of a week *)
(* ================================================================== *)

Section WeekDays.

Import CalendarSpec PrioritySpec DatesSpec.

Ltac div_lia := Z.to_euclidean_division_equations; lia.

(** [addDays(date, -i)] moves the time value back by [i] days. *)
Lemma addDays_back (t i n : Z) :
  days_back_in_range t n -> 0 <= i <= n ->
  addDays (Date_at t) (- i) = Date_at (t - i * msPerDay).
Proof.
  intros [Lo Hi] Hi'. unfold addDays.
  destruct (Z.eqb_spec (- i) 0) as [E|N].
  - f_equal. lia.
  - cbn [getDate getter num_add setDate].
    rewrite MakeDay_shift. unfold MakeDate.
    assert (E : (Day t + - i) * msPerDay + TimeWithinDay t
                = t - i * msPerDay)
      by (unfold Day, TimeWithinDay, msPerDay; div_lia).
    rewrite E. unfold TimeClip.
    destruct (Z.leb_spec (Z.abs (t - i * msPerDay)) 8640000000000000);
      [reflexivity|].
    unfold msPerDay in *. lia.
Qed.

Lemma days_ending_succ (t : Z) (i : nat) :
  days_ending t (S i) = (t - Z.of_nat i * msPerDay) :: days_ending t i.
Proof.
  unfold days_ending. cbn [seq map]. f_equal.
  - do 2 f_equal. lia.
  - rewrite <- seq_shift, map_map. apply map_ext_in.
    intros k Hk. apply in_seq in Hk. do 3 f_equal. lia.
Qed.

(** The loop of [getWeekDays], from a valid end date far enough from the
    first time value. *)
Lemma days_loop_run (t : Z) (n : nat) :
  forall (N : Z) (days : list WeekDay_entry),
    days_back_in_range t N -> Z.of_nat n <= N + 1 ->
    days_loop n (Date_at t) days
    = Returns (days ++ map entry_at (days_ending t n)).
Proof.
  induction n as [|i IH]; intros N days R Hn.
  - cbn. rewrite app_nil_r. reflexivity.
  - cbn [days_loop]. unfold push_entry.
    rewrite (addDays_back t (Z.of_nat i) N R) by lia.
    change (format (Date_at (t - Z.of_nat i * msPerDay)) yyyy_MM_dd)
      with (Returns (text (t - Z.of_nat i * msPerDay) yyyy_MM_dd)).
    change (format (Date_at (t - Z.of_nat i * msPerDay)) dd_MM)
      with (Returns (text (t - Z.of_nat i * msPerDay) dd_MM)).
    cbn [obind]. rewrite (IH N) by (assumption || lia).
    rewrite days_ending_succ, <- app_assoc. reflexivity.
Qed.

Lemma getWeekDays_run
    (parseISO : string -> Date) (weekEndingDate weekEndingDay : string)
    (t : Z) :
  parseISO weekEndingDate = Date_at t ->
  (days_back_in_range t 6 ->
   getWeekDays parseISO weekEndingDate weekEndingDay
   = Returns (map entry_at (days_ending t 7))) /\
  (days_back_in_range t 13 ->
   getTwoWeekDays parseISO weekEndingDate
   = Returns (map entry_at (days_ending t 14))).
Proof.
  intros P. unfold getWeekDays, getTwoWeekDays. rewrite P. split; intros R.
  - rewrite (days_loop_run t 7 6 [] R) by lia. reflexivity.
  - rewrite (days_loop_run t 14 13 [] R) by lia. reflexivity.
Qed.

(** X12.  [getWeekDays] lists the 7 consecutive days that end with the date
    given, the oldest first, and [getTwoWeekDays] the 14: for each day its
    weekday name, its ['yyyy-MM-dd'] and its ['dd/MM'] text. *)
Theorem getWeekDays_days
    (parseISO : string -> Date) (weekEndingDate weekEndingDay : string)
    (t : Z) :
  parseISO weekEndingDate = Date_at t ->
  (days_back_in_range t 6 ->
   getWeekDays parseISO weekEndingDate weekEndingDay
   = Returns (map entry_at (days_ending t 7))) /\
  (days_back_in_range t 13 ->
   getTwoWeekDays parseISO weekEndingDate
   = Returns (map entry_at (days_ending t 14))).
Proof. exact (getWeekDays_run parseISO weekEndingDate weekEndingDay t). Qed.

Lemma getWeekDays_days_witness :
  getWeekDays parse_calendar_date "2024-03-03" "Sunday"
  = Returns (map entry_at (days_ending 1709424000000 7)).
Proof.
  refine (proj1 (getWeekDays_days parse_calendar_date "2024-03-03" "Sunday"
                   1709424000000 _) _).
  - vm_compute. reflexivity.
  - unfold days_back_in_range, msPerDay. lia.
Defined.

Lemma Day_back (t i : Z) : Day (t - i * msPerDay) = Day t - i.
Proof. unfold Day, msPerDay. div_lia. Qed.

Lemma WeekDay_back (t i : Z) :
  WeekDay (t - i * msPerDay) = (WeekDay t - i) mod 7.
Proof. unfold WeekDay. rewrite Day_back. div_lia. Qed.

Lemma weekday_cases (w : Z) :
  0 <= w < 7 ->
  w = 0 \/ w = 1 \/ w = 2 \/ w = 3 \/ w = 4 \/ w = 5 \/ w = 6.
Proof. lia. Qed.

(** The weekday names of the 7 entries, from the weekday of the last. *)
Lemma week_names (t : Z) :
  map entry_day (map entry_at (days_ending t 7))
  = map (fun i => nth_error dayNames (Z.to_nat ((WeekDay t - i) mod 7)))
        [6; 5; 4; 3; 2; 1; 0].
Proof.
  unfold days_ending. cbn [seq map Nat.sub entry_at entry_day].
  unfold dayName. cbn [getDay getter].
  rewrite !WeekDay_back. reflexivity.
Qed.

(** X13.  In the list of [getWeekDays] every weekday name occurs, each once, and
    the last entry has the name of the weekday of the date given. *)
Theorem getWeekDays_names
    (parseISO : string -> Date) (weekEndingDate weekEndingDay : string)
    (t : Z) :
  parseISO weekEndingDate = Date_at t ->
  days_back_in_range t 6 ->
  exists entries : list WeekDay_entry,
    getWeekDays parseISO weekEndingDate weekEndingDay = Returns entries /\
    List.length entries = 7%nat /\
    NoDup (map entry_day entries) /\
    (forall name : string,
        In name dayNames -> In (Some name) (map entry_day entries)) /\
    last (map entry_day entries) None
    = nth_error dayNames (Z.to_nat (WeekDay t)).
Proof.
  intros P R. exists (map entry_at (days_ending t 7)).
  split; [apply (getWeekDays_run parseISO _ _ t P); exact R|].
  split; [reflexivity|].
  rewrite week_names.
  pose proof (WeekDay_range t) as W. apply weekday_cases in W.
  repeat (destruct W as [->|W]); try rewrite W;
    (split; [repeat constructor; cbn; intuition discriminate|]);
    (split; [|reflexivity]);
    intros name Hn; cbn in Hn |- *;
    intuition (subst; auto).
Qed.

Lemma getWeekDays_names_witness :
  exists entries : list WeekDay_entry,
    getWeekDays parse_calendar_date "2024-03-06" "Sunday" = Returns entries /\
    List.length entries = 7%nat /\
    NoDup (map entry_day entries) /\
    (forall name : string,
        In name dayNames -> In (Some name) (map entry_day entries)) /\
    last (map entry_day entries) None
    = nth_error dayNames (Z.to_nat (WeekDay 1709683200000)).
Proof.
  apply (getWeekDays_names parse_calendar_date "2024-03-06" "Sunday"
           1709683200000).
  - vm_compute. reflexivity.
  - unfold days_back_in_range, msPerDay. lia.
Defined.

End WeekDays.

Section WeekDaysMore.

Import CalendarSpec PrioritySpec DatesSpec.

(** The year a calendar-date string is read with. *)
Lemma parse_calendar_date_year (s : string) (x : Z) :
  parse_calendar_date s = Date_at x -> 0 <= YearFromTime x <= 9999.
Proof.
  intros P.
  destruct (parse_calendar_date_valid s x P)
    as (y1 & y2 & y3 & y4 & m1 & m2 & d1 & d2 & _ & (Y1 & Y2 & Y3 & Y4)
        & _ & Hm & Hd & ->).
  cbv zeta in Hm, Hd.
  destruct (civil_of_MakeDay _ _ _ Hm Hd) as (-> & _).
  apply (digits_of_4 y1 y2 y3 y4 Y1 Y2 Y3 Y4).
Qed.

(** X14.  The week of a calendar date [YYYY-MM-DD] (the year not 0000) ends with
    that very string: the last of the 7 entries has it as its [date], and
    its day and month as [dateStr]. *)
Theorem getWeekDays_week_ending
    (parseISO : string -> Date) (weekEndingDate weekEndingDay : string) :
  reads_calendar_dates parseISO ->
  parse_calendar_date weekEndingDate <> Invalid_Date ->
  substring 0 4 weekEndingDate <> "0000" ->
  exists (entries : list WeekDay_entry) (e : WeekDay_entry),
    getWeekDays parseISO weekEndingDate weekEndingDay = Returns entries /\
    nth_error entries 6 = Some e /\
    entry_date e = weekEndingDate /\
    entry_dateStr e
    = (substring 8 2 weekEndingDate ++ "/"
       ++ substring 5 2 weekEndingDate)%string.
Proof.
  intros R V N0. pose proof (R _ V) as E.
  destruct (parse_calendar_date weekEndingDate) as [|x] eqn:P;
    [contradiction|].
  destruct (text_of_calendar_date _ x P N0) as (T1 & T2 & _).
  pose proof (year_range_time x (parse_calendar_date_year _ x P)) as Rx.
  assert (B : days_back_in_range x 6)
    by (unfold days_back_in_range, msPerDay in *; lia).
  exists (map entry_at (days_ending x 7)), (entry_at x).
  split; [apply (getWeekDays_run parseISO _ _ x E); exact B|].
  split.
  - unfold days_ending. cbn [seq map nth_error Nat.sub Z.of_nat].
    do 2 f_equal. lia.
  - cbn [entry_at entry_date entry_dateStr]. auto.
Qed.

Lemma getWeekDays_week_ending_witness :
  exists (entries : list WeekDay_entry) (e : WeekDay_entry),
    getWeekDays parse_calendar_date "2025-11-30" "Sunday"
    = Returns entries /\
    nth_error entries 6 = Some e /\
    entry_date e = "2025-11-30" /\
    entry_dateStr e
    = (substring 8 2 "2025-11-30" ++ "/"
       ++ substring 5 2 "2025-11-30")%string.
Proof.
  apply (getWeekDays_week_ending parse_calendar_date "2025-11-30" "Sunday").
  - exact reads_calendar_dates_fragment.
  - vm_compute. discriminate.
  - vm_compute. discriminate.
Defined.

(** The loop only appends to the entries it is given. *)
Lemma days_loop_acc (n : nat) (d : Date) :
  forall days : list WeekDay_entry,
    days_loop n d days
    = obind (days_loop n d []) (fun l => Returns (days ++ l)).
Proof.
  induction n as [|i IH]; intros days.
  - cbn. rewrite app_nil_r. reflexivity.
  - cbn [days_loop]. unfold push_entry.
    destruct (format (addDays d (- Z.of_nat i)) yyyy_MM_dd) as [a| |];
      cbn [obind]; try reflexivity.
    destruct (format (addDays d (- Z.of_nat i)) dd_MM) as [b| |];
      cbn [obind]; try reflexivity.
    rewrite (IH (days ++ _)), (IH ([] ++ _)).
    destruct (days_loop i d []) as [l| |]; cbn [obind]; try reflexivity.
    rewrite <- app_assoc. reflexivity.
Qed.

Lemma days_loop_split (k n : nat) (d : Date) :
  forall (days l : list WeekDay_entry),
    days_loop (k + n) d days = Returns l ->
    exists a l' : list WeekDay_entry,
      List.length a = (List.length days + k)%nat /\
      days_loop n d [] = Returns l' /\ l = a ++ l'.
Proof.
  induction k as [|k IH]; intros days l H.
  - cbn [Nat.add] in H. rewrite days_loop_acc in H.
    destruct (days_loop n d []) as [l'| |]; cbn [obind] in H;
      try discriminate.
    injection H as <-. exists days, l'. split; [lia|auto].
  - cbn [Nat.add days_loop] in H. unfold push_entry in H.
    destruct (format (addDays d (- Z.of_nat (k + n))) yyyy_MM_dd) as [a| |];
      cbn [obind] in H; try discriminate.
    destruct (format (addDays d (- Z.of_nat (k + n))) dd_MM) as [b| |];
      cbn [obind] in H; try discriminate.
    destruct (IH _ l H) as (acc & l' & L & E & ->).
    exists acc, l'. rewrite length_app in L. cbn [List.length] in L.
    split; [lia|auto].
Qed.

(** X15.  Whenever [getTwoWeekDays] returns its 14 entries, the last 7 of them
    are the list of [getWeekDays] for the same date. *)
Theorem getTwoWeekDays_second_week
    (parseISO : string -> Date) (weekEndingDate weekEndingDay : string)
    (entries : list WeekDay_entry) :
  getTwoWeekDays parseISO weekEndingDate = Returns entries ->
  getWeekDays parseISO weekEndingDate weekEndingDay
  = Returns (skipn 7 entries).
Proof.
  unfold getTwoWeekDays, getWeekDays. intros H.
  destruct (days_loop_split 7 7 _ [] entries H) as (a & l' & L & E & ->).
  rewrite E. f_equal. cbn [List.length Nat.add] in L.
  rewrite skipn_app, (skipn_all2 a) by lia.
  rewrite L, Nat.sub_diag. reflexivity.
Qed.

Lemma getTwoWeekDays_second_week_witness :
  getWeekDays parse_calendar_date "2024-03-03" "Sunday"
  = Returns (skipn 7 (map entry_at (days_ending 1709424000000 14))).
Proof.
  apply (getTwoWeekDays_second_week parse_calendar_date "2024-03-03"
           "Sunday").
  vm_compute. reflexivity.
Defined.

(** X16.  A week-ending string that does not parse makes [getWeekDays] and
    [getTwoWeekDays] throw a [RangeError]; nothing is listed. *)
Theorem getWeekDays_invalid
    (parseISO : string -> Date) (weekEndingDate weekEndingDay : string) :
  parseISO weekEndingDate = Invalid_Date ->
  getWeekDays parseISO weekEndingDate weekEndingDay = Throws RangeError /\
  getTwoWeekDays parseISO weekEndingDate = Throws RangeError.
Proof.
  intros H. unfold getWeekDays, getTwoWeekDays. rewrite H.
  split; reflexivity.
Qed.

Lemma getWeekDays_invalid_witness :
  getWeekDays parse_calendar_date "" "Sunday" = Throws RangeError /\
  getTwoWeekDays parse_calendar_date "" = Throws RangeError.
Proof.
  apply (getWeekDays_invalid parse_calendar_date "" "Sunday").
  reflexivity.
Defined.

End WeekDaysMore.

(* ================================================================== *)
(** * The timesheet *)
(* ================================================================== *)

Section TimesheetProofs.

Import Timesheet TimesheetSpec.

Lemma quarters_zero : Some 0%Q = quarters 0.
Proof. reflexivity. Qed.

Lemma num_plus_quarters (a b : Z) :
  num_plus (quarters a) (quarters b) = quarters (a + b).
Proof.
  unfold num_plus, quarters. f_equal. apply Qred_complete.
  rewrite !Qred_correct.
  unfold Qeq, Qplus, Qdiv, Qmult, Qinv, inject_Z.
  cbn -[Z.mul Z.add]. lia.
Qed.

Lemma lineHours_quarters (l : TimesheetLine) :
  exists k : Z, 0 <= k /\ lineHours l = quarters k.
Proof. unfold lineHours, quarters. apply calculateHours_in_quarters. Qed.

Lemma line_part_quarters (l : TimesheetLine) :
  exists k : Z, 0 <= k /\ line_part l = quarters k.
Proof.
  unfold line_part.
  destruct (truthy (startTime l) && truthy (finishTime l)).
  - apply lineHours_quarters.
  - exists 0. split; [lia|apply quarters_zero].
Qed.

Lemma fold_quarters {A : Type} (part : A -> option Q) (xs : list A) :
  (forall x, exists k : Z, 0 <= k /\ part x = quarters k) ->
  forall a : Z,
    0 <= a ->
    exists k : Z,
      a <= k /\
      fold_left (fun sum x => num_plus sum (part x)) xs (quarters a)
      = quarters k.
Proof.
  intros H. induction xs as [|x xs IH]; intros a Ha.
  - exists a. split; [lia|reflexivity].
  - cbn [fold_left]. destruct (H x) as (k & Hk & ->).
    rewrite num_plus_quarters.
    destruct (IH (a + k) ltac:(lia)) as (k' & Hk' & ->).
    exists k'. split; [lia|reflexivity].
Qed.

Lemma dayTotal_quarters (d : DayData) :
  exists k : Z, 0 <= k /\ dayTotal d = quarters k.
Proof.
  unfold dayTotal. rewrite quarters_zero.
  destruct (fold_quarters line_part (lines d) line_part_quarters 0 ltac:(lia))
    as (k & Hk & E).
  exists k. split; [exact Hk|exact E].
Qed.

(** X17.  The total of a day and the total of the week are numbers (never
    [NaN]), whole numbers of quarters of an hour, and not negative,
    whatever is typed in the lines. *)
Theorem timesheet_totals_quarters (days : list DayData) :
  (exists k : Z,
      0 <= k /\ weekTotal days = Some (Qred (inject_Z k / 4))) /\
  (forall d : DayData,
      exists k : Z,
        0 <= k /\ dayTotal d = Some (Qred (inject_Z k / 4))).
Proof.
  split; [|exact dayTotal_quarters].
  unfold weekTotal. rewrite quarters_zero.
  destruct (fold_quarters dayTotal days dayTotal_quarters 0 ltac:(lia))
    as (k & Hk & E).
  exists k. split; [exact Hk|exact E].
Qed.

Lemma shape_truthy (s : string) : test_hhmm s = true -> truthy s = true.
Proof. destruct s; [discriminate|reflexivity]. Qed.

Lemma line_part_no_shape (l : TimesheetLine) :
  test_hhmm (startTime l) && test_hhmm (finishTime l) = false ->
  line_part l = Some 0%Q.
Proof.
  intros H. unfold line_part, lineHours.
  apply andb_false_iff in H.
  rewrite calculateHours_no_shape by exact H.
  destruct (truthy (startTime l) && truthy (finishTime l)); reflexivity.
Qed.

Lemma num_plus_zero (a : Z) : num_plus (quarters a) (Some 0%Q) = quarters a.
Proof.
  rewrite quarters_zero, num_plus_quarters, Z.add_0_r. reflexivity.
Qed.

Lemma fold_parts_filter (xs : list TimesheetLine) :
  forall a : Z,
    fold_left (fun sum l => num_plus sum (line_part l)) xs (quarters a)
    = fold_left (fun sum l => num_plus sum (line_part l))
        (filter (fun l => test_hhmm (startTime l)
                          && test_hhmm (finishTime l)) xs)
        (quarters a).
Proof.
  induction xs as [|x xs IH]; intros a; [reflexivity|].
  cbn [fold_left filter].
  destruct (test_hhmm (startTime x) && test_hhmm (finishTime x)) eqn:S.
  - cbn [fold_left].
    destruct (line_part_quarters x) as (k & _ & ->).
    rewrite num_plus_quarters. apply IH.
  - rewrite (line_part_no_shape x S), num_plus_zero. apply IH.
Qed.

(** X18.  A line whose start or finish is blank, or not a time of the shape,
    counts nothing: the total of the day is the total of its other
    lines. *)
Theorem dayTotal_ignores_unfinished (d : DayData) :
  dayTotal d
  = dayTotal
      (mkDay (day d) (date d)
         (filter (fun l => test_hhmm (startTime l)
                           && test_hhmm (finishTime l))
                 (lines d))).
Proof.
  unfold dayTotal. cbn [lines]. rewrite quarters_zero.
  apply (fold_parts_filter (lines d) 0).
Qed.

Lemma map_index_from_length {A B} (f : A -> nat -> B) (xs : list A) :
  forall i, List.length (map_index_from f i xs) = List.length xs.
Proof.
  induction xs as [|x xs IH]; intros i; [reflexivity|].
  cbn. rewrite IH. reflexivity.
Qed.

Lemma map_index_from_nth {A B} (f : A -> nat -> B) (xs : list A) :
  forall i j,
    nth_error (map_index_from f i xs) j
    = option_map (fun x => f x (i + j)%nat) (nth_error xs j).
Proof.
  induction xs as [|x xs IH]; intros i j.
  - destruct j; reflexivity.
  - destruct j as [|j]; cbn [map_index_from nth_error option_map].
    + rewrite Nat.add_0_r. reflexivity.
    + rewrite IH. rewrite Nat.add_succ_r. reflexivity.
Qed.

Lemma map_index_nth {A B} (f : A -> nat -> B) (xs : list A) (j : nat) :
  nth_error (map_index f xs) j
  = option_map (fun x => f x j) (nth_error xs j).
Proof. unfold map_index. rewrite map_index_from_nth. reflexivity. Qed.

Lemma map_index_Forall {A B} (f : A -> nat -> B) (P : A -> Prop)
    (Q : B -> Prop) (xs : list A) :
  (forall x i, P x -> Q (f x i)) ->
  Forall P xs -> Forall Q (map_index f xs).
Proof.
  intros H F. unfold map_index. generalize 0%nat.
  induction F as [|x xs Px _ IH]; intros i; cbn; constructor; auto.
Qed.

(** X19.  No edit of the timesheet leaves a day without a line, and none changes
    the number of days. *)
Theorem timesheet_edits_keep_lines
    (settings : option Z) (uuid : string) (dayIdx : nat) (lineId : string)
    (patch : LinePatch) (prev : list DayData) :
  Forall has_line prev ->
  (Forall has_line (updateLine dayIdx lineId patch prev) /\
   List.length (updateLine dayIdx lineId patch prev) = List.length prev) /\
  (Forall has_line (addLine settings uuid dayIdx prev) /\
   List.length (addLine settings uuid dayIdx prev) = List.length prev) /\
  (Forall has_line (removeLine settings uuid dayIdx lineId prev) /\
   List.length (removeLine settings uuid dayIdx lineId prev)
   = List.length prev).
Proof.
  intros F. split; [|split].
  - split; [|apply map_index_from_length].
    apply (map_index_Forall _ has_line has_line); [|exact F].
    intros d i Hd. destruct (i =? dayIdx)%nat; [|exact Hd].
    unfold has_line in *. cbn [lines].
    destruct (lines d); [contradiction|discriminate].
  - unfold addLine. destruct settings as [lunchDefault|]; [|auto].
    split; [|apply map_index_from_length].
    apply (map_index_Forall _ has_line has_line); [|exact F].
    intros d i Hd. destruct (i =? dayIdx)%nat; [|exact Hd].
    unfold has_line. cbn [lines]. destruct (lines d); discriminate.
  - unfold removeLine. destruct settings as [lunchDefault|]; [|auto].
    split; [|apply map_index_from_length].
    apply (map_index_Forall _ has_line has_line); [|exact F].
    intros d i Hd. destruct (i =? dayIdx)%nat; cbn [negb]; [|exact Hd].
    unfold has_line. cbn [lines].
    destruct (filter _ (lines d)); cbn; discriminate.
Qed.

Lemma timesheet_edits_keep_lines_witness :
  Forall has_line
    (removeLine (Some 30) "b" 0 "a"
       [mkDay "Monday" "2024-03-04" [makeLine "a" 30]]) /\
  List.length
    (removeLine (Some 30) "b" 0 "a"
       [mkDay "Monday" "2024-03-04" [makeLine "a" 30]])
  = List.length [mkDay "Monday" "2024-03-04" [makeLine "a" 30]].
Proof.
  apply (timesheet_edits_keep_lines (Some 30) "b" 0 "a"
           (mkPatch None None None None None None None None)
           [mkDay "Monday" "2024-03-04" [makeLine "a" 30]]).
  repeat constructor. discriminate.
Defined.

(** X20.  [removeLine] on day [dayIdx]: the line of that identifier is gone from
    that day, the other lines stay in their order, and if none is left a
    fresh blank line takes their place; the other days are untouched. *)
Theorem removeLine_removes
    (lunchDefault : Z) (uuid : string) (dayIdx : nat) (lineId : string)
    (prev : list DayData) (d : DayData) :
  nth_error prev dayIdx = Some d ->
  let next := filter (fun l => negb (String.eqb (id l) lineId)) (lines d) in
  nth_error (removeLine (Some lunchDefault) uuid dayIdx lineId prev) dayIdx
  = Some (mkDay (day d) (date d)
            (match next with
             | [] => [makeLine uuid lunchDefault]
             | _ => next
             end)) /\
  ~ In lineId (map id next) /\
  (forall j : nat,
      j <> dayIdx ->
      nth_error (removeLine (Some lunchDefault) uuid dayIdx lineId prev) j
      = nth_error prev j).
Proof.
  intros H next. unfold removeLine. split; [|split].
  - rewrite map_index_nth, H. cbn [option_map].
    rewrite Nat.eqb_refl. cbn [negb]. fold next.
    destruct next; reflexivity.
  - intros I. apply in_map_iff in I. destruct I as (l & E & I).
    apply filter_In in I. destruct I as [_ I].
    apply negb_true_iff, String.eqb_neq in I. contradiction.
  - intros j N. rewrite map_index_nth.
    destruct (nth_error prev j) as [x|]; [|reflexivity].
    cbn [option_map]. apply Nat.eqb_neq in N. rewrite N. reflexivity.
Qed.

Lemma removeLine_removes_witness :
  nth_error
    (removeLine (Some 30) "c" 0 "a"
       [mkDay "Monday" "2024-03-04" [makeLine "a" 30; makeLine "b" 30]]) 0
  = Some (mkDay "Monday" "2024-03-04" [makeLine "b" 30]).
Proof.
  refine (proj1 (removeLine_removes 30 "c" 0 "a"
                   [mkDay "Monday" "2024-03-04"
                      [makeLine "a" 30; makeLine "b" 30]]
                   (mkDay "Monday" "2024-03-04"
                      [makeLine "a" 30; makeLine "b" 30]) _)).
  reflexivity.
Defined.

End TimesheetProofs.

(* ================================================================== *)
(** * The dashboard list *)
(* ================================================================== *)

Section DashboardProofs.

Import Dashboard DashboardSpec.

Lemma PriorityLevel_eqb_eq (a b : PriorityLevel) :
  PriorityLevel_eqb a b = true <-> a = b.
Proof. destruct a, b; cbn; split; congruence. Qed.

Section Sort.

Context {A : Type} (key : A -> Z).

Lemma insert_sorted_perm (x : A) (xs : list A) :
  Permutation (insert_sorted (by_key key) x xs) (x :: xs).
Proof.
  induction xs as [|y xs IH]; [reflexivity|].
  cbn [insert_sorted]. destruct (by_key key x y <=? 0); [reflexivity|].
  rewrite IH. apply perm_swap.
Qed.

Lemma sort_perm (xs : list A) : Permutation (sort (by_key key) xs) xs.
Proof.
  induction xs as [|x xs IH]; [reflexivity|].
  cbn [sort fold_right]. fold (sort (by_key key) xs).
  rewrite insert_sorted_perm. constructor. exact IH.
Qed.

Lemma insert_sorted_In (x y : A) (xs : list A) :
  In y (insert_sorted (by_key key) x xs) -> y = x \/ In y xs.
Proof.
  intros H.
  apply (Permutation_in _ (insert_sorted_perm x xs)) in H.
  destruct H; auto.
Qed.

Lemma insert_sorted_sorted (x : A) (xs : list A) :
  StronglySorted (key_le key) xs ->
  StronglySorted (key_le key) (insert_sorted (by_key key) x xs).
Proof.
  induction 1 as [|y xs S IH F]; [repeat constructor|].
  cbn [insert_sorted]. unfold by_key at 1.
  destruct (Z.leb_spec (key x - key y) 0) as [L|G].
  - constructor; [constructor; assumption|].
    constructor; [unfold key_le; lia|].
    apply Forall_forall. intros z Hz.
    rewrite Forall_forall in F. specialize (F z Hz).
    unfold key_le in *. lia.
  - constructor; [exact IH|].
    apply Forall_forall. intros z Hz.
    apply insert_sorted_In in Hz. destruct Hz as [->|Hz].
    + unfold key_le. lia.
    + rewrite Forall_forall in F. apply F. exact Hz.
Qed.

Lemma sort_sorted (xs : list A) :
  StronglySorted (key_le key) (sort (by_key key) xs).
Proof.
  induction xs as [|x xs IH]; [constructor|].
  cbn [sort fold_right]. apply insert_sorted_sorted. exact IH.
Qed.

(** Insertion keeps the order of the elements of one key. *)
Lemma insert_sorted_stable (k : Z) (x : A) (xs : list A) :
  StronglySorted (key_le key) xs ->
  filter (fun a => key a =? k) (insert_sorted (by_key key) x xs)
  = filter (fun a => key a =? k) (x :: xs).
Proof.
  induction 1 as [|y xs S IH F]; [reflexivity|].
  cbn [insert_sorted]. unfold by_key at 1.
  destruct (Z.leb_spec (key x - key y) 0) as [L|G]; [reflexivity|].
  cbn [filter] in *. rewrite IH.
  destruct (Z.eqb_spec (key x) k) as [Ex|Nx];
    destruct (Z.eqb_spec (key y) k) as [Ey|Ny]; try reflexivity.
  lia.
Qed.

Lemma sort_stable (k : Z) (xs : list A) :
  filter (fun a => key a =? k) (sort (by_key key) xs)
  = filter (fun a => key a =? k) xs.
Proof.
  induction xs as [|x xs IH]; [reflexivity|].
  cbn [sort fold_right]. fold (sort (by_key key) xs).
  rewrite insert_sorted_stable by apply sort_sorted.
  cbn [filter]. rewrite IH. reflexivity.
Qed.

End Sort.

Section WithClock.

Variable parseISO : string -> Date.
Variable now : Z.


(** X22.  The list of the dashboard has the [high] items first, then the
    [medium], then the [low] ones; it holds the items that pass the filter,
    each once; and items of one tier stay in the order in which they were
    fetched (activities, materials, equipment, crew). *)
Theorem allIncompleteFlat_order
    (inc : Incomplete) (priorityFilter : priority_filter) :
  let shown := allIncompleteFlat parseISO now (Some inc) priorityFilter in
  let passing :=
    filter (passes parseISO now priorityFilter) (items_of inc) in
  StronglySorted
    (fun a b => order (_priority parseISO now a)
                <= order (_priority parseISO now b)) shown /\
  Permutation shown passing /\
  forall p : PriorityLevel,
    filter (fun i => PriorityLevel_eqb (_priority parseISO now i) p) shown
    = filter (fun i => PriorityLevel_eqb (_priority parseISO now i) p)
        passing.
Proof.
  cbv zeta. unfold allIncompleteFlat.
  set (key := fun i => order (_priority parseISO now i)).
  split; [apply (sort_sorted key)|]. split; [apply (sort_perm key)|].
  intros p.
  assert (E : forall l,
             filter (fun i => PriorityLevel_eqb (_priority parseISO now i) p)
                    l
             = filter (fun a => key a =? order p) l).
  { intros l. apply filter_ext. intros i. subst key. cbn beta.
    destruct (_priority parseISO now i), p; reflexivity. }
  rewrite !E. apply (sort_stable key).
Qed.




End WithClock.


End DashboardProofs.

(* ================================================================== *)
(** * The summary of the reports *)
(* ================================================================== *)

Section ReportsProofs.

Import Reports.

(** X24.  The three priority counts of the summary add up to its total. *)
Theorem summary_counts_add_up (logs : list PriorityLevel) :
  (count high logs + count medium logs + count low logs)%nat = total logs.
Proof.
  unfold count, total.
  induction logs as [|p logs IH]; [reflexivity|].
  destruct p; cbn [filter Dashboard.PriorityLevel_eqb List.length]; lia.
Qed.

End ReportsProofs.

(* ================================================================== *)
(** * Navigation by role *)
(* ================================================================== *)

Section AppLayoutProofs.

Import AppLayout AppLayoutSpec.

Lemma includes_In (xs : list string) (p : string) :
  includes xs p = true <-> In p xs.
Proof.
  unfold includes. rewrite existsb_exists. split.
  - intros (x & I & E). apply String.eqb_eq in E. subst. exact I.
  - intros I. exists p. split; [exact I|apply String.eqb_refl].
Qed.

Lemma step_permitted (st : state) (e : event) :
  handler e -> permitted st -> permitted (step st e).
Proof.
  intros He H.
  destruct st as [[r|] cur]; unfold permitted in *;
    destruct e as [page| | |role]; cbn in He; try contradiction;
    cbn [step userRole currentPage]; try exact I.
  - unfold handleNavigate.
    destruct (includes (ROLE_ACCESS r) page) eqn:Inc; cbn [negb];
      [apply includes_In; exact Inc|exact H].
  - destruct r; cbn; auto.
Qed.

Lemma run_permitted (events : list event) :
  forall st : state,
    Forall handler events -> permitted st -> permitted (run st events).
Proof.
  induction events as [|e events IH]; intros st F H; [exact H|].
  inversion F as [|e' l He Hl]; subst.
  unfold run in *. cbn [fold_left].
  apply IH; [exact Hl|]. apply step_permitted; assumption.
Qed.

(** X25.  The three handlers keep the current page within the pages of the
    role: from a page of the role (or with no role), any sequence of
    navigations, created jobs and sign-outs ends on a page of the role the
    user then has, and a navigation to a page outside the role changes
    nothing.  The page is not checked when the profile changes: a page
    opened before the profile loads stays the current page whatever role
    arrives, so a foreman can stand on the settings. *)
Theorem navigation_within_role (st : state) (events : list event) :
  permitted st -> Forall handler events ->
  permitted (run st events) /\
  (userRole (run st events) = Some foreman ->
   currentPage (run st events) <> "settings") /\
  (userRole (run st events) = Some safety_officer ->
   currentPage (run st events) <> "settings" /\
   currentPage (run st events) <> "timesheets") /\
  (forall (r : UserRole) (page : string),
      userRole st = Some r -> ~ In page (ROLE_ACCESS r) ->
      step st (Navigate page) = st) /\
  (forall (r : UserRole) (page : string),
      run initial [Navigate page; Profile (Some r)] = mkState (Some r) page) /\
  ~ permitted (run initial [Navigate "settings"; Profile (Some foreman)]).
Proof.
  intros H F. pose proof (run_permitted events st F H) as P.
  split; [exact P|].
  unfold permitted in P.
  split; [|split; [|split; [|split]]].
  - intros R E. rewrite R, E in P. cbn in P. intuition discriminate.
  - intros R. rewrite R in P.
    split; intros E; rewrite E in P; cbn in P; intuition discriminate.
  - intros r page Hr Hn. destruct st as [role cur].
    cbn [userRole] in Hr. subst role.
    cbn [step userRole currentPage]. unfold handleNavigate.
    destruct (includes (ROLE_ACCESS r) page) eqn:Inc; cbn [negb];
      [|reflexivity].
    apply includes_In in Inc. contradiction.
  - intros r page. reflexivity.
  - cbn. intuition discriminate.
Qed.

Lemma navigation_within_role_witness :
  permitted
    (run (mkState (Some safety_officer) "calendar")
         [Navigate "timesheets"; JobCreated; Navigate "settings"]).
Proof.
  apply (navigation_within_role
           (mkState (Some safety_officer) "calendar")
           [Navigate "timesheets"; JobCreated; Navigate "settings"]).
  - cbn. auto.
  - repeat constructor.
Defined.

End AppLayoutProofs.

(* ================================================================== *)
(** * The month of the calendar notes *)
(* ================================================================== *)

Section StoreProofs.

Import CalendarSpec PrioritySpec Store.

Ltac div_lia := Z.to_euclidean_division_equations; lia.

(** A calendar date written digit by digit reads as that date. *)
Lemma parse_numbers (y m d : Z) :
  0 <= y <= 9999 -> 1 <= m <= 12 -> 1 <= d <= days_in_month y (m - 1) ->
  parse_calendar_date
    (String (digit_char (y / 1000))
       (String (digit_char (y / 100 mod 10))
          (String (digit_char (y / 10 mod 10))
             (String (digit_char (y mod 10))
                (String "-"
                   (String (digit_char (m / 10))
                      (String (digit_char (m mod 10))
                         (String "-"
                            (String (digit_char (d / 10))
                               (String (digit_char (d mod 10))
                                  EmptyString))))))))))
  = Date_at (MakeDay y (m - 1) d * msPerDay).
Proof.
  intros Hy Hm Hd.
  pose proof (days_in_month_range y (m - 1)) as R.
  unfold parse_calendar_date.
  rewrite !digit_char_ok by div_lia.
  rewrite !digit_char_value by div_lia.
  change (Ascii.eqb "-" "-") with true. cbn [andb].
  replace (1000 * (y / 1000) + 100 * (y / 100 mod 10)
           + 10 * (y / 10 mod 10) + y mod 10) with y by div_lia.
  replace (10 * (m / 10) + m mod 10) with m by div_lia.
  replace (10 * (d / 10) + d mod 10) with d by div_lia.
  destruct (Z.leb_spec 1 m); [|lia].
  destruct (Z.leb_spec m 12); [|lia].
  destruct (Z.leb_spec 1 d); [|lia].
  destruct (Z.leb_spec d (days_in_month y (m - 1))); [|lia].
  reflexivity.
Qed.

(** The text [fetchCalendarNotes] writes for the first of a month. *)
Lemma first_of_month_text (y m : Z) :
  1000 <= y <= 9999 -> 1 <= m <= 12 ->
  parse_calendar_date
    (toString y ++ "-" ++ padStart (toString m) 2 "0" ++ "-01")%string
  = Date_at (MakeDay y (m - 1) 1 * msPerDay).
Proof.
  intros Hy Hm. rewrite toString_4 by lia. rewrite pad2 by lia.
  cbn [append].
  pose proof (days_in_month_range y (m - 1)) as R.
  exact (parse_numbers y m 1 ltac:(lia) Hm ltac:(lia)).
Qed.

Lemma MakeDay_next_month (y m : Z) :
  0 <= m <= 11 ->
  MakeDay (if m =? 11 then y + 1 else y)
          ((if m =? 11 then 0 else m + 1) + 1 - 1) 1
  = MakeDay y m 1 + days_in_month y m.
Proof.
  intros H. pose proof (MakeDay_last y m H) as L.
  rewrite (MakeDay_date y (m + 1) 0) in L.
  destruct (Z.eqb_spec m 11) as [->|N].
  - rewrite (MakeDay_normalise y (11 + 1) 1) in L.
    change ((11 + 1) / 12) with 1 in L.
    change ((11 + 1) mod 12) with 0 in L.
    change (0 + 1 - 1) with 0. lia.
  - replace (m + 1 + 1 - 1) with (m + 1) by lia. lia.
Qed.

(** X26.  For a month 0..11 of a year 1000..9998, the bounds that
    [fetchCalendarNotes] asks for are the first day of the month and the
    first day of the month after (of the next year after December): the
    days [getMonthDays] lists for the grid are exactly the days from the
    first bound up to, and without, the second: as many as the month has,
    each of them within the bounds, and every day within the bounds among
    them. *)
Theorem notes_range_is_month (month year : Z) :
  0 <= month <= 11 -> 1000 <= year <= 9998 ->
  let first := first_day year month * msPerDay in
  let next :=
    (first_day year month + days_in_month year month) * msPerDay in
  parse_calendar_date (fst (notes_range month year)) = Date_at first /\
  parse_calendar_date (snd (notes_range month year)) = Date_at next /\
  exists days : list Date,
    getMonthDays year month = Returns days /\
    Z.of_nat (List.length days) = days_in_month year month /\
    Forall (fun d => exists t : Z, d = Date_at t /\ first <= t < next) days /\
    forall k : Z,
      first <= k * msPerDay < next -> In (Date_at (k * msPerDay)) days.
Proof.
  intros Hm Hy first next.
  assert (F : MakeFullYear year = year).
  { unfold MakeFullYear.
    destruct (Z.leb_spec 0 year); destruct (Z.leb_spec year 99);
      cbn [andb]; lia. }
  assert (E1 : first = MakeDay year (month + 1 - 1) 1 * msPerDay).
  { subst first. unfold first_day. rewrite F.
    replace (month + 1 - 1) with month by lia. reflexivity. }
  assert (E2 : next
               = MakeDay (if month =? 11 then year + 1 else year)
                   ((if month =? 11 then 0 else month + 1) + 1 - 1) 1
                 * msPerDay).
  { subst next. unfold first_day. rewrite F.
    rewrite MakeDay_next_month by lia. reflexivity. }
  split; [|split].
  - rewrite E1. cbn [notes_range fst].
    apply first_of_month_text; lia.
  - rewrite E2. cbn [notes_range snd].
    apply first_of_month_text;
      destruct (Z.eqb_spec month 11); lia.
  - assert (R : year_in_range year) by (unfold year_in_range; lia).
    pose proof (days_in_month_range year month) as D.
    rewrite (getMonthDays_run year month R Hm). rewrite F.
    eexists. split; [reflexivity|]. split; [|split].
    + rewrite length_map, length_seq. lia.
    + apply Forall_forall. intros d Hd.
      apply in_map_iff in Hd. destruct Hd as (i & <- & Hi).
      apply in_seq in Hi.
      exists ((first_day year month + Z.of_nat i) * msPerDay).
      split; [reflexivity|].
      subst first next. unfold msPerDay. lia.
    + intros k Hk. apply in_map_iff.
      assert (B : first_day year month <= k
                  < first_day year month + days_in_month year month)
        by (subst first next; unfold msPerDay in Hk; lia).
      exists (Z.to_nat (k - first_day year month)). split.
      * unfold nth_day. f_equal. f_equal. lia.
      * apply in_seq. lia.
Qed.

Lemma notes_range_is_month_witness :
  parse_calendar_date (fst (notes_range 11 2024))
  = Date_at (first_day 2024 11 * msPerDay) /\
  parse_calendar_date (snd (notes_range 11 2024))
  = Date_at ((first_day 2024 11 + days_in_month 2024 11) * msPerDay) /\
  exists days : list Date,
    getMonthDays 2024 11 = Returns days /\
    Z.of_nat (List.length days) = days_in_month 2024 11 /\
    Forall (fun d => exists t : Z,
                d = Date_at t /\
                first_day 2024 11 * msPerDay <= t
                < (first_day 2024 11 + days_in_month 2024 11) * msPerDay)
           days /\
    forall k : Z,
      first_day 2024 11 * msPerDay <= k * msPerDay
      < (first_day 2024 11 + days_in_month 2024 11) * msPerDay ->
      In (Date_at (k * msPerDay)) days.
Proof.
  apply (notes_range_is_month 11 2024); lia.
Defined.

End StoreProofs.

(* ================================================================== *)
(** * The days of the timesheet *)
(* ================================================================== *)

Section TimesheetDaysProofs.

Import Timesheet TimesheetSpec TimesheetDays.

Lemma dayNameOf_dayName (t : Z) :
  Some (dayNameOf (Date_at t)) = dayName (Date_at t).
Proof.
  unfold dayNameOf, dayName. cbn [getDay getter].
  pose proof (WeekDay_range t) as W. apply weekday_cases in W.
  repeat (destruct W as [->|W]); try rewrite W; reflexivity.
Qed.

(** The page and the helper run the same loop. *)
Lemma build_loop_days_loop (n : nat) (endDate : Date) (lunchDefault : Z)
    (uuid : nat -> string) (days : list DayData) :
  forall (newDays : list DayData) (entries : list WeekDay_entry),
    map (fun d => (Some (day d), date d)) newDays
    = map (fun e => (entry_day e, entry_date e)) entries ->
    match days_loop n endDate entries with
    | Returns entries' =>
        exists newDays' : list DayData,
          build_loop n endDate lunchDefault uuid days newDays
          = Returns newDays' /\
          map (fun d => (Some (day d), date d)) newDays'
          = map (fun e => (entry_day e, entry_date e)) entries' /\
          (Forall has_line days -> Forall has_line newDays ->
           Forall has_line newDays')
    | Throws e =>
        build_loop n endDate lunchDefault uuid days newDays = Throws e
    | OutOfFuel => True
    end.
Proof.
  induction n as [|i IH]; intros newDays entries E.
  - cbn. exists newDays. auto.
  - cbn [days_loop build_loop]. unfold push_entry, subDays.
    destruct (addDays endDate (- Z.of_nat i)) as [|t] eqn:D.
    + reflexivity.
    + change (format (Date_at t) yyyy_MM_dd)
        with (Returns (DatesSpec.text t yyyy_MM_dd)).
      change (format (Date_at t) dd_MM)
        with (Returns (DatesSpec.text t dd_MM)).
      cbn [obind].
      match goal with
      | |- context [build_loop i _ _ _ _ ?nd] =>
          match goal with
          | |- context [days_loop i _ ?en] =>
              specialize (IH nd en)
          end
      end.
      destruct (days_loop i endDate _) as [entries'|e|].
      * destruct IH as (newDays' & B & M & L).
        { rewrite !map_app, E. cbn [map day date entry_day entry_date].
          rewrite dayNameOf_dayName. reflexivity. }
        exists newDays'. split; [exact B|]. split; [exact M|].
        intros Hd Hn. apply L; [exact Hd|].
        apply Forall_app. split; [exact Hn|].
        constructor; [|constructor].
        unfold has_line. cbn [lines].
        destruct (find _ days) as [e|] eqn:F; [|discriminate].
        apply find_some in F. destruct F as [I _].
        rewrite Forall_forall in Hd. apply (Hd e I).
      * apply IH.
        rewrite !map_app, E. cbn [map day date entry_day entry_date].
        rewrite dayNameOf_dayName. reflexivity.
      * exact I.
Qed.

(** X21.  The timesheet page builds its days with a loop of its own: for a
    weekly sheet they are, name by name and date by date, the days of
    [getWeekDays], for a fortnightly one those of [getTwoWeekDays]; and if
    the days before all had a line, so have the new ones. *)
Theorem buildDays_as_getWeekDays
    (parseISO : string -> Date) (st : AppSettings)
    (weekEnding weekEndingDay : string) (uuid : nat -> string)
    (days : list DayData) (entries : list WeekDay_entry) :
  weekEnding <> EmptyString ->
  (if timesheetPeriod st =? 2 then getTwoWeekDays parseISO weekEnding
   else getWeekDays parseISO weekEnding weekEndingDay) = Returns entries ->
  exists newDays : list DayData,
    buildDays parseISO (Some st) weekEnding uuid days = Returns newDays /\
    map (fun d => (Some (day d), date d)) newDays
    = map (fun e => (entry_day e, entry_date e)) entries /\
    (Forall has_line days -> Forall has_line newDays).
Proof.
  intros N H. unfold buildDays.
  assert (T : truthy weekEnding = true).
  { unfold truthy. apply negb_true_iff, String.eqb_neq. exact N. }
  rewrite T. cbn [negb].
  unfold getWeekDays, getTwoWeekDays in H.
  destruct (timesheetPeriod st =? 2).
  - pose proof (build_loop_days_loop 14 (parseISO weekEnding)
                  (lunchDefaultMinutes st) uuid days [] [] eq_refl) as L.
    rewrite H in L. destruct L as (newDays & B & M & K).
    exists newDays. split; [exact B|]. split; [exact M|].
    intros Hd. apply K; [exact Hd|constructor].
  - pose proof (build_loop_days_loop 7 (parseISO weekEnding)
                  (lunchDefaultMinutes st) uuid days [] [] eq_refl) as L.
    rewrite H in L. destruct L as (newDays & B & M & K).
    exists newDays. split; [exact B|]. split; [exact M|].
    intros Hd. apply K; [exact Hd|constructor].
Qed.

Lemma buildDays_as_getWeekDays_witness :
  exists newDays : list DayData,
    buildDays PrioritySpec.parse_calendar_date (Some (mkSettings 1 30))
      "2024-03-03" (fun _ => "u") []
    = Returns newDays /\
    map (fun d => (Some (day d), date d)) newDays
    = map (fun e => (entry_day e, entry_date e))
        (map DatesSpec.entry_at (DatesSpec.days_ending 1709424000000 7)) /\
    (Forall has_line [] -> Forall has_line newDays).
Proof.
  apply (buildDays_as_getWeekDays PrioritySpec.parse_calendar_date
           (mkSettings 1 30) "2024-03-03" "Sunday").
  - discriminate.
  - vm_compute. reflexivity.
Defined.

End TimesheetDaysProofs.

Section TwoDigitYears.

Import CalendarSpec.

Lemma getCalendarGrid_two_digit_year_witness :
  getCalendarGrid 24 1 = getCalendarGrid (1900 + 24) 1 /\
  exists grid : list (list slot),
    getCalendarGrid 24 1 = Returns grid /\
    Forall (fun d => getFullYear d = Some (1900 + 24) /\
                     getMonth d = Some 1)
           (dates_of grid).
Proof.
  apply (getCalendarGrid_two_digit_year 24 1).
  - lia.
  - unfold valid_month. lia.
Defined.

End TwoDigitYears.
